(** * Package pricing service: municipality-scoped prices with an audit trail

    A shallow embedding of [src/services/price.service.ts] and of the
    Sequelize models it works on ([package.model.ts],
    [municipality.model.ts], [price.model.ts], [priceHistory.model.ts]),
    followed by the properties of the pricing engine.

    Conventions of the embedding:
    - a JavaScript [number] holding an identifier, an amount in cents, a year
      or a time value (milliseconds since the epoch) is a [Z];
    - an optional or nullable number ([municipalityId?: number], a nullable
      column) is an [option Z], [None] standing for both [undefined] and
      [null];
    - the display amount, the one number of the service that is not an
      integer, is an IEEE-754 binary64 number ([float]), computed with the
      operations of the language;
    - a table is the list of its rows in insertion order;
    - an [async] function is a computation in the monad [M], which threads
      the database and carries thrown errors. *)

From Stdlib Require Import ZArith List String Bool Lia.
From Stdlib Require Import Permutation Sorted.
From Stdlib Require Import DecimalString.
From Stdlib Require Import Floats Uint63.
Import ListNotations.

Open Scope string_scope.
Open Scope list_scope.
Open Scope Z_scope.

(* ------------------------------------------------------------------ *)
(** ** The fragment of JavaScript the service relies on                *)
(* ------------------------------------------------------------------ *)

Module JS.

(** [if (x)] on a [number | undefined]: [undefined] and [0] are falsy. *)
Definition truthy (x : option Z) : bool :=
  match x with
  | Some n => negb (n =? 0)
  | None => false
  end.

(** [x || undefined]. *)
Definition or_undefined (x : option Z) : option Z :=
  if truthy x then x else None.

(** [x ? then_(x) : else_], the number being at hand where it is truthy. *)
Definition if_number {A : Type} (x : option Z) (then_ : Z -> A) (else_ : A)
    : A :=
  match or_undefined x with
  | Some n => then_ n
  | None => else_
  end.

(** [`${n}`] for an integer [n]. *)
Definition toString (n : Z) : string := NilZero.string_of_int (Z.to_int n).

(** An [Error] object: the constructor's name and the message. *)
Record Error : Type := mkError { name : string; message : string }.

(** [new Error(msg)]. *)
Definition new_Error (msg : string) : Error := mkError "Error" msg.

(** What reading a property of [null] throws. *)
Definition null_property (prop : string) : Error :=
  mkError "TypeError"
          ("Cannot read properties of null (reading '" ++ prop ++ "')")%string.

(** What [parseInt(value, 10)] gives: the integer [value] begins with, or
    [NaN] when it begins with none, as [parseInt(undefined, 10)] does. *)
Inductive parsed : Type :=
| NaN
| Int (n : Z).

(** [Number(n)] for an integer [n]: the binary64 number nearest to [n],
    ties to even.  Below 2^63 in absolute value it is the primitive
    conversion. *)
Definition Number (n : Z) : float :=
  if Z.abs n <? 9223372036854775808
  then if n <? 0
       then (- PrimFloat.of_uint63 (Uint63.of_Z (- n)))%float
       else PrimFloat.of_uint63 (Uint63.of_Z n)
  else SF2Prim (binary_normalize prec emax n 0 false).

(** [Math.floor] on a number in [0, 2^52): adding and removing 2^52
    rounds to an integer, which is then corrected downwards. *)
Definition Math_floor_below_2p52 (a : float) : float :=
  let r := (a + 0x1p+52 - 0x1p+52)%float in
  if (a <? r)%float then (r - 1)%float else r.

(** [Math.round]: the integer nearest to [x], a tie going to the one
    towards plus infinity, with the sign of [x] when the result is zero.
    A number of magnitude 2^52 or more is an integer already; it, [NaN]
    and the infinities are returned as they are. *)
Definition Math_round (x : float) : float :=
  if (abs x <? 0x1p+52)%float
  then let a := abs x in
       let f := Math_floor_below_2p52 a in
       let d := (a - f)%float in
       if get_sign x
       then (- (if (0x1p-1 <? d)%float then f + 1 else f))%float
       else if (0x1p-1 <=? d)%float then (f + 1)%float else f
  else x.

End JS.

(* ------------------------------------------------------------------ *)
(** ** The models                                                      *)
(* ------------------------------------------------------------------ *)

(** The timestamps of [Package], [Municipality] and [Price] rows are left
    out: no operation of the service reads them. *)

Module Package.
Record t : Type := mk {
  id : Z;
  name : string;
  description : option string;
  package_code : string;
  duration_days : Z;
  max_ads_count : Z;
  is_active : bool
}.
End Package.

Module Municipality.
Record t : Type := mk {
  id : Z;
  municipality_name : string;
  municipality_code : string;
  state_province : string;
  country : string;
  is_active : bool
}.
End Municipality.

Module Price.
Record t : Type := mk {
  id : Z;
  packageId : Z;
  municipalityId : option Z;
  priceCents : Z;
  is_active : bool;
  currency_code : string
}.
End Price.

Module PriceHistory.
Record t : Type := mk {
  id : Z;
  packageId : Z;
  municipalityId : option Z;
  priceCents : Z;
  currency_code : string;
  createdAt : Z
}.
End PriceHistory.

(** The database: the four tables and, for the two tables the service
    inserts into, the largest identifier handed out so far
    ([autoIncrement: true]). *)
Record DB : Type := mkDB {
  packages : list Package.t;
  municipalities : list Municipality.t;
  prices : list Price.t;
  prices_seq : Z;
  price_histories : list PriceHistory.t;
  price_histories_seq : Z
}.

(** Equality of two nullable columns in a [where] clause: [= m] for a
    number, [IS NULL] for [null]. *)
Definition column_eqb (x y : option Z) : bool :=
  match x, y with
  | Some a, Some b => a =? b
  | None, None => true
  | _, _ => false
  end.


(* ------------------------------------------------------------------ *)
(** ** Asynchronous computations                                       *)
(* ------------------------------------------------------------------ *)

(** What awaiting a promise gives: its value, or the error it rejected
    with. *)
Inductive Outcome (A : Type) : Type :=
| Returned (a : A)
| Thrown (e : JS.Error).

Arguments Returned {A} a.
Arguments Thrown {A} e.

(** A computation reads and writes the database and may throw. *)
Definition M (A : Type) : Type := DB -> Outcome A * DB.

Definition ret {A : Type} (a : A) : M A := fun db => (Returned a, db).

Definition bind {A B : Type} (m : M A) (k : A -> M B) : M B :=
  fun db =>
    match m db with
    | (Returned a, db') => k a db'
    | (Thrown e, db') => (Thrown e, db')
    end.

Definition throw {A : Type} (e : JS.Error) : M A := fun db => (Thrown e, db).

(** [try { body } catch (error) { handler }]. *)
Definition try_catch {A : Type} (body : M A) (handler : JS.Error -> M A) : M A :=
  fun db =>
    match body db with
    | (Returned a, db') => (Returned a, db')
    | (Thrown e, db') => handler e db'
    end.

Definition get_db : M DB := fun db => (Returned db, db).

Definition put_db (db' : DB) : M unit := fun _ => (Returned tt, db').

Notation "x <- m ;; k" := (bind m (fun x => k))
  (at level 61, m at next level, right associativity).
Notation "m ;;; k" := (bind m (fun _ => k))
  (at level 61, right associativity).

(* ------------------------------------------------------------------ *)
(** ** Transactions                                                    *)
(* ------------------------------------------------------------------ *)

(** A transaction remembers the database as it was when it began; calls
    are served one at a time, so no other writer interleaves. *)
Definition Transaction : Type := DB.

Definition sequelize_transaction : M Transaction := get_db.

Definition transaction_commit (t : Transaction) : M unit := ret tt.

Definition transaction_rollback (t : Transaction) : M unit := put_db t.

(* ------------------------------------------------------------------ *)
(** ** Queries and writes of the models                                *)
(* ------------------------------------------------------------------ *)

(** [Package.findOne({ where: { id, is_active: true } })]. *)
Definition Package_findOne (id : Z) : M (option Package.t) :=
  db <- get_db ;;
  ret (find (fun p => (Package.id p =? id) && Package.is_active p)
            (packages db)).

(** [Municipality.findOne({ where: { id, is_active: true } })]. *)
Definition Municipality_findOne (id : Z) : M (option Municipality.t) :=
  db <- get_db ;;
  ret (find (fun m => (Municipality.id m =? id) && Municipality.is_active m)
            (municipalities db)).

(** The [where] clause [{ packageId, is_active: true, municipalityId }] on
    a row of [prices]. *)
Definition price_where (packageId : Z) (municipalityId : option Z)
    (r : Price.t) : bool :=
  (Price.packageId r =? packageId) && Price.is_active r
  && column_eqb (Price.municipalityId r) municipalityId.

(** [Price.findOne({ where })]. *)
Definition Price_findOne (packageId : Z) (municipalityId : option Z)
    : M (option Price.t) :=
  db <- get_db ;;
  ret (find (price_where packageId municipalityId) (prices db)).

(** The [municipality] association of a row ([include] with
    [required: false]): the municipality its foreign key names, active or
    not, and [null] when the key is [null] or names no row. *)
Definition include_municipality (db : DB) (municipalityId : option Z)
    : option Municipality.t :=
  match municipalityId with
  | Some m => find (fun x => Municipality.id x =? m) (municipalities db)
  | None => None
  end.

(** [Price.findOne({ where, include: [municipality] })]. *)
Definition Price_findOne_include (packageId : Z) (municipalityId : option Z)
    : M (option (Price.t * option Municipality.t)) :=
  db <- get_db ;;
  ret (option_map
         (fun r => (r, include_municipality db (Price.municipalityId r)))
         (find (price_where packageId municipalityId) (prices db))).

(** The errors Sequelize rejects a write with. *)
Definition ValidationError (validator field : string) : JS.Error :=
  JS.mkError "SequelizeValidationError"
    ("Validation error: Validation " ++ validator ++ " on " ++ field
     ++ " failed")%string.

Definition UniqueConstraintError : JS.Error :=
  JS.mkError "SequelizeUniqueConstraintError" "Validation error".

Definition ForeignKeyConstraintError : JS.Error :=
  JS.mkError "SequelizeForeignKeyConstraintError"
    "SQLITE_CONSTRAINT: FOREIGN KEY constraint failed".

(** The validators both price models declare: [priceCents] has [min: 0],
    [currency_code] has [len: [3, 3]]. *)
Definition validate (priceCents : Z) (currency_code : string) : M unit :=
  if priceCents <? 0 then throw (ValidationError "min" "priceCents")
  else if negb (Nat.eqb (String.length currency_code) 3)
       then throw (ValidationError "len" "currency_code")
       else ret tt.

(** The foreign keys both price models declare: [packageId] references a
    package, and [municipalityId], unless [null], a municipality. *)
Definition references_ok (db : DB) (packageId : Z) (municipalityId : option Z)
    : bool :=
  existsb (fun p => Package.id p =? packageId) (packages db)
  && match municipalityId with
     | Some m => existsb (fun x => Municipality.id x =? m) (municipalities db)
     | None => true
     end.

(** The unique index of [prices] over [(packageId, municipalityId,
    is_active)] restricted to [is_active = true]: a new active row is
    refused when an active row has the same package and the same
    municipality. SQL compares [NULL] as different from every value, so
    two rows without a municipality never collide in the index. *)
Definition unique_index_ok (db : DB) (packageId : Z)
    (municipalityId : option Z) (is_active : bool) : bool :=
  negb (is_active
        && match municipalityId with
           | Some _ =>
               existsb (price_where packageId municipalityId) (prices db)
           | None => false
           end).

(** The identifier an [autoIncrement] key gives the next row: one more
    than every identifier in the table and every identifier handed out. *)
Definition next_id (seq : Z) (ids : list Z) : Z :=
  Z.max seq (fold_right Z.max 0 ids) + 1.

(** [instance.update({ priceCents, currency_code })] on a row of
    [prices]: the validators run, then the row with the instance's
    identifier is rewritten; the instance carries the new values. *)
Definition Price_update (instance : Price.t) (priceCents : Z)
    (currency_code : string) : M Price.t :=
  validate priceCents currency_code ;;;
  db <- get_db ;;
  let updated :=
    Price.mk (Price.id instance) (Price.packageId instance)
             (Price.municipalityId instance) priceCents
             (Price.is_active instance) currency_code in
  put_db (mkDB (packages db) (municipalities db)
               (map (fun r => if Price.id r =? Price.id instance
                              then Price.mk (Price.id r) (Price.packageId r)
                                     (Price.municipalityId r) priceCents
                                     (Price.is_active r) currency_code
                              else r)
                    (prices db))
               (prices_seq db) (price_histories db)
               (price_histories_seq db)) ;;;
  ret updated.

(** [Price.create({ packageId, municipalityId, priceCents, is_active,
    currency_code })]: validators, foreign keys and the unique index are
    checked, then the row is appended under a fresh identifier. *)
Definition Price_create (packageId : Z) (municipalityId : option Z)
    (priceCents : Z) (is_active : bool) (currency_code : string)
    : M Price.t :=
  validate priceCents currency_code ;;;
  db <- get_db ;;
  if negb (references_ok db packageId municipalityId)
  then throw ForeignKeyConstraintError
  else if negb (unique_index_ok db packageId municipalityId is_active)
  then throw UniqueConstraintError
  else
    let id := next_id (prices_seq db) (map Price.id (prices db)) in
    let created :=
      Price.mk id packageId municipalityId priceCents is_active
               currency_code in
    put_db (mkDB (packages db) (municipalities db)
                 (prices db ++ [created]) id
                 (price_histories db) (price_histories_seq db)) ;;;
    ret created.

(** [PriceHistory.create({ packageId, municipalityId, priceCents,
    currency_code })] at time [now]. *)
Definition PriceHistory_create (now : Z) (packageId : Z)
    (municipalityId : option Z) (priceCents : Z) (currency_code : string)
    : M PriceHistory.t :=
  validate priceCents currency_code ;;;
  db <- get_db ;;
  if negb (references_ok db packageId municipalityId)
  then throw ForeignKeyConstraintError
  else
    let id := next_id (price_histories_seq db)
                      (map PriceHistory.id (price_histories db)) in
    let created :=
      PriceHistory.mk id packageId municipalityId priceCents currency_code
                      now in
    put_db (mkDB (packages db) (municipalities db) (prices db)
                 (prices_seq db) (price_histories db ++ [created]) id) ;;;
    ret created.

(** The [where] clause [{ packageId, createdAt: { [Op.gte]: startDate,
    [Op.lt]: endDate }, municipalityId }] on a row of [price_histories]. *)
Definition history_where (packageId : Z) (startDate endDate : Z)
    (municipalityId : option Z) (h : PriceHistory.t) : bool :=
  (PriceHistory.packageId h =? packageId)
  && (startDate <=? PriceHistory.createdAt h)
  && (PriceHistory.createdAt h <? endDate)
  && column_eqb (PriceHistory.municipalityId h) municipalityId.

(** [order: [['createdAt', 'DESC']]]: insertion of a row into a list that
    is already in descending order; rows of equal time keep their table
    order. *)
Fixpoint insert_desc (h : PriceHistory.t) (l : list PriceHistory.t)
    : list PriceHistory.t :=
  match l with
  | [] => [h]
  | x :: l' =>
      if PriceHistory.createdAt x <=? PriceHistory.createdAt h
      then h :: l
      else x :: insert_desc h l'
  end.

Definition order_by_createdAt_desc (l : list PriceHistory.t)
    : list PriceHistory.t :=
  fold_right insert_desc [] l.

(** [PriceHistory.findAll({ where, include: [municipality], order })]. *)
Definition PriceHistory_findAll (packageId : Z) (startDate endDate : Z)
    (municipalityId : option Z)
    : M (list (PriceHistory.t * option Municipality.t)) :=
  db <- get_db ;;
  ret (map (fun h =>
              (h, include_municipality db (PriceHistory.municipalityId h)))
           (order_by_createdAt_desc
              (filter (history_where packageId startDate endDate
                                     municipalityId)
                      (price_histories db)))).

(* ------------------------------------------------------------------ *)
(** ** Result shapes ([src/types/price.types.ts])                      *)
(* ------------------------------------------------------------------ *)

Module MunicipalityInfo.
Record t : Type := mk {
  id : Z;
  municipality_name : string;
  municipality_code : string
}.
End MunicipalityInfo.

Module PackageInfo.
Record t : Type := mk {
  id : Z;
  name : string;
  package_code : string
}.
End PackageInfo.

Module PriceUpdateResult.
Record price_t : Type := mk_price {
  id : Z;
  packageId : Z;
  municipalityId : option Z;
  priceCents : Z;
  priceDisplay : float;
  currency_code : string;
  municipality : option MunicipalityInfo.t
}.
Record t : Type := mk {
  success : bool;
  price : price_t;
  message : string
}.
End PriceUpdateResult.

Module CurrentPriceResult.
Record price_t : Type := mk_price {
  id : Z;
  packageId : Z;
  municipalityId : option Z;
  priceCents : Z;
  priceDisplay : float;
  currency_code : string;
  package : PackageInfo.t;
  municipality : option MunicipalityInfo.t
}.
Record t : Type := mk {
  success : bool;
  price : option price_t;
  error : option string
}.
End CurrentPriceResult.

Module PriceHistoryEntry.
Record t : Type := mk {
  id : Z;
  packageId : Z;
  municipalityId : option Z;
  priceCents : Z;
  priceDisplay : float;
  currency_code : string;
  createdAt : Z;
  municipality : option MunicipalityInfo.t
}.
End PriceHistoryEntry.

Module PriceHistoryResult.
Record t : Type := mk {
  success : bool;
  history : option (list PriceHistoryEntry.t);
  error : option string
}.
End PriceHistoryResult.

(* ------------------------------------------------------------------ *)
(** ** The price service ([src/services/price.service.ts])             *)
(* ------------------------------------------------------------------ *)

(** [Math.round((priceCents / 100) * 100) / 100] on the number
    [priceCents], each operation rounding to binary64 as the language
    does. *)
Definition convertCentsToDisplay_number (priceCents : float) : float :=
  (JS.Math_round (priceCents / 100 * 100) / 100)%float.

(** [convertCentsToDisplay(priceCents)] for an amount held as an
    integer. *)
Definition convertCentsToDisplay (priceCents : Z) : float :=
  convertCentsToDisplay_number (JS.Number priceCents).

(** [{ id, municipality_name, municipality_code }] of a municipality. *)
Definition municipality_info (m : Municipality.t) : MunicipalityInfo.t :=
  MunicipalityInfo.mk (Municipality.id m) (Municipality.municipality_name m)
                      (Municipality.municipality_code m).

(** [record.municipalityId ? { id: record.municipality.id, ... } :
    undefined]: reading [id] of a [null] association throws. *)
Definition included_municipality_info (municipalityId : option Z)
    (municipality : option Municipality.t) : M (option MunicipalityInfo.t) :=
  JS.if_number municipalityId
    (fun _ => match municipality with
              | Some m => ret (Some (municipality_info m))
              | None => throw (JS.null_property "id")
              end)
    (ret None).

Definition package_not_found (packageId : Z) : string :=
  ("Package with ID " ++ JS.toString packageId ++ " not found or inactive")
  %string.

Definition municipality_not_found (municipalityId : Z) : string :=
  ("Municipality with ID " ++ JS.toString municipalityId
   ++ " not found or inactive")%string.

Definition no_active_price (packageId : Z) (municipalityId : option Z)
    : string :=
  ("No active price found for package " ++ JS.toString packageId
   ++ JS.if_number municipalityId
        (fun m => " in municipality " ++ JS.toString m) "")%string.

(** The object [updatePackagePrice] returns for the price row [newPrice]
    and the municipality record it looked up. *)
Definition price_updated (newPrice : Price.t)
    (municipalityRecord : option Municipality.t) : PriceUpdateResult.t :=
  PriceUpdateResult.mk true
    (PriceUpdateResult.mk_price
       (Price.id newPrice) (Price.packageId newPrice)
       (JS.or_undefined (Price.municipalityId newPrice))
       (Price.priceCents newPrice)
       (convertCentsToDisplay (Price.priceCents newPrice))
       (Price.currency_code newPrice)
       (option_map municipality_info municipalityRecord))
    "Price updated successfully".

(** [updatePackagePrice(packageId, priceCents, municipalityId?)], called
    at time [now]. *)
Definition updatePackagePrice (now : Z) (packageId priceCents : Z)
    (municipalityId : option Z) : M PriceUpdateResult.t :=
  transaction <- sequelize_transaction ;;
  try_catch
    (packageRecord <- Package_findOne packageId ;;
     match packageRecord with
     | None => throw (JS.new_Error (package_not_found packageId))
     | Some _ =>
       municipalityRecord <-
         JS.if_number municipalityId
           (fun m =>
              found <- Municipality_findOne m ;;
              match found with
              | None => throw (JS.new_Error (municipality_not_found m))
              | Some _ => ret found
              end)
           (ret None) ;;
       if priceCents <? 0
       then throw (JS.new_Error "Price cannot be negative")
       else
         let whereClause_municipalityId :=
           JS.if_number municipalityId Some None in
         existingPrice <-
           Price_findOne packageId whereClause_municipalityId ;;
         newPrice <-
           match existingPrice with
           | Some existingPrice => Price_update existingPrice priceCents "SEK"
           | None =>
               Price_create packageId (JS.or_undefined municipalityId)
                            priceCents true "SEK"
           end ;;
         PriceHistory_create now packageId (JS.or_undefined municipalityId)
                             priceCents "SEK" ;;;
         transaction_commit transaction ;;;
         ret (price_updated newPrice municipalityRecord)
     end)
    (fun error =>
       transaction_rollback transaction ;;;
       throw (JS.new_Error (JS.message error))).

(** [getCurrentPackagePrice(packageId, municipalityId?)]. *)
Definition getCurrentPackagePrice (packageId : Z) (municipalityId : option Z)
    : M CurrentPriceResult.t :=
  try_catch
    (packageRecord <- Package_findOne packageId ;;
     match packageRecord with
     | None =>
         ret (CurrentPriceResult.mk false None
                (Some (package_not_found packageId)))
     | Some packageRecord =>
       let whereClausePriceFind_municipalityId :=
         JS.if_number municipalityId Some None in
       priceRecord <-
         Price_findOne_include packageId
                               whereClausePriceFind_municipalityId ;;
       match priceRecord with
       | None =>
           ret (CurrentPriceResult.mk false None
                  (Some (no_active_price packageId municipalityId)))
       | Some (priceRecord, municipality) =>
         municipality <-
           included_municipality_info (Price.municipalityId priceRecord)
                                      municipality ;;
         ret (CurrentPriceResult.mk true
                (Some (CurrentPriceResult.mk_price
                         (Price.id priceRecord) (Price.packageId priceRecord)
                         (JS.or_undefined (Price.municipalityId priceRecord))
                         (Price.priceCents priceRecord)
                         (convertCentsToDisplay (Price.priceCents priceRecord))
                         (Price.currency_code priceRecord)
                         (PackageInfo.mk (Package.id packageRecord)
                                         (Package.name packageRecord)
                                         (Package.package_code packageRecord))
                         municipality))
                None)
       end
     end)
    (fun error =>
       ret (CurrentPriceResult.mk false None (Some (JS.message error)))).

(** [array.map(f)] with a callback that may throw. *)
Fixpoint mapM {A B : Type} (f : A -> M B) (l : list A) : M (list B) :=
  match l with
  | [] => ret []
  | x :: l' =>
      y <- f x ;;
      ys <- mapM f l' ;;
      ret (y :: ys)
  end.

(** The entry [getPackagePriceHistory] returns for a row. *)
Definition history_entry (record : PriceHistory.t * option Municipality.t)
    : M PriceHistoryEntry.t :=
  let (record, municipality) := record in
  municipality <-
    included_municipality_info (PriceHistory.municipalityId record)
                               municipality ;;
  ret (PriceHistoryEntry.mk
         (PriceHistory.id record) (PriceHistory.packageId record)
         (JS.or_undefined (PriceHistory.municipalityId record))
         (PriceHistory.priceCents record)
         (convertCentsToDisplay (PriceHistory.priceCents record))
         (PriceHistory.currency_code record)
         (PriceHistory.createdAt record)
         municipality).

Section Host.

(** [new Date(year, 0, 1)] as a time value: the first instant of January
    1st of [year] in the time zone of the host, as the runtime computes
    it. *)
Variable Date_jan1 : Z -> Z.

(** The part of [getPackagePriceHistory] after its checks: the date
    range of the year, the query and the shape of the result. *)
Definition history_query (packageId year : Z) (municipalityId : option Z)
    : M PriceHistoryResult.t :=
  let startDate := Date_jan1 year in
  let endDate := Date_jan1 (year + 1) in
  let whereClauseHistory_municipalityId :=
    JS.if_number municipalityId Some None in
  historyRecords <-
    PriceHistory_findAll packageId startDate endDate
                         whereClauseHistory_municipalityId ;;
  history <- mapM history_entry historyRecords ;;
  ret (PriceHistoryResult.mk true (Some history) None).

(** [getPackagePriceHistory(packageId, year, municipalityId?)]. *)
Definition getPackagePriceHistory (packageId year : Z)
    (municipalityId : option Z) : M PriceHistoryResult.t :=
  try_catch
    (packageRecord <- Package_findOne packageId ;;
     match packageRecord with
     | None =>
         ret (PriceHistoryResult.mk false None
                (Some (package_not_found packageId)))
     | Some _ =>
       JS.if_number municipalityId
         (fun m =>
            municipalityRecord <- Municipality_findOne m ;;
            match municipalityRecord with
            | None =>
                ret (PriceHistoryResult.mk false None
                       (Some (municipality_not_found m)))
            | Some _ => history_query packageId year municipalityId
            end)
         (history_query packageId year municipalityId)
     end)
    (fun error =>
       ret (PriceHistoryResult.mk false None (Some (JS.message error)))).

End Host.

(* ------------------------------------------------------------------ *)
(** ** Vocabulary of the properties                                    *)
(* ------------------------------------------------------------------ *)

(** The key a call addresses: the package, and the municipality of its
    [where] clause ([None] is the global price). *)
Definition call_key (municipalityId : option Z) : option Z :=
  JS.if_number municipalityId Some None.

(** The active rows of [prices] under a key. *)
Definition active_prices (db : DB) (packageId : Z) (municipalityId : option Z)
    : list Price.t :=
  filter (price_where packageId municipalityId) (prices db).

(** The rows of [price_histories] under a key. *)
Definition history_key (packageId : Z) (municipalityId : option Z)
    (h : PriceHistory.t) : bool :=
  (PriceHistory.packageId h =? packageId)
  && column_eqb (PriceHistory.municipalityId h) municipalityId.

Definition history_count (db : DB) (packageId : Z) (municipalityId : option Z)
    : nat :=
  List.length
    (filter (history_key packageId municipalityId) (price_histories db)).

(** At most one active price per key. *)
Definition one_active_price_per_key (db : DB) : Prop :=
  forall (packageId : Z) (municipalityId : option Z),
    (List.length (active_prices db packageId municipalityId) <= 1)%nat.

(** The database [updatePackagePrice] leaves, and what it settles with. *)
Definition db_after {A : Type} (m : M A) (db : DB) : DB := snd (m db).

Definition outcome_of {A : Type} (m : M A) (db : DB) : Outcome A := fst (m db).

(** The states the service can bring the database to: it starts with no
    price and no history; the service sets prices; and the catalogue of
    packages and municipalities changes behind its back. *)
Inductive reachable : DB -> Prop :=
| reachable_init (pkgs : list Package.t) (muns : list Municipality.t) :
    reachable (mkDB pkgs muns [] 0 [] 0)
| reachable_setPrice (db : DB) (now packageId priceCents : Z)
    (municipalityId : option Z) :
    reachable db ->
    reachable (db_after (updatePackagePrice now packageId priceCents
                                            municipalityId) db)
| reachable_catalogue (db : DB) (pkgs : list Package.t)
    (muns : list Municipality.t) :
    reachable db ->
    reachable (mkDB pkgs muns (prices db) (prices_seq db)
                    (price_histories db) (price_histories_seq db)).

(** The price row [updatePackagePrice] settles on once its checks have
    passed: the first active row under the key with its amount rewritten,
    or a new row. *)
Definition upserted_price (db : DB) (packageId priceCents : Z)
    (municipalityId : option Z) : Price.t :=
  match find (price_where packageId (call_key municipalityId)) (prices db) with
  | Some existingPrice =>
      Price.mk (Price.id existingPrice) (Price.packageId existingPrice)
               (Price.municipalityId existingPrice) priceCents
               (Price.is_active existingPrice) "SEK"
  | None =>
      Price.mk (next_id (prices_seq db) (map Price.id (prices db)))
               packageId (call_key municipalityId) priceCents true "SEK"
  end.

(** The [prices] table it leaves: the rows of the identifier found
    rewritten in place, or the new row at the end. *)
Definition upserted_prices (db : DB) (packageId priceCents : Z)
    (municipalityId : option Z) : list Price.t :=
  match find (price_where packageId (call_key municipalityId)) (prices db) with
  | Some existingPrice =>
      map (fun r => if Price.id r =? Price.id existingPrice
                    then Price.mk (Price.id r) (Price.packageId r)
                           (Price.municipalityId r) priceCents
                           (Price.is_active r) "SEK"
                    else r)
          (prices db)
  | None =>
      prices db ++ [upserted_price db packageId priceCents municipalityId]
  end.

Definition upserted_seq (db : DB) (packageId : Z) (municipalityId : option Z)
    : Z :=
  match find (price_where packageId (call_key municipalityId)) (prices db) with
  | Some _ => prices_seq db
  | None => next_id (prices_seq db) (map Price.id (prices db))
  end.

(** The history row a successful [updatePackagePrice] appends. *)
Definition appended_history (db : DB) (now packageId priceCents : Z)
    (municipalityId : option Z) : PriceHistory.t :=
  PriceHistory.mk
    (next_id (price_histories_seq db)
             (map PriceHistory.id (price_histories db)))
    packageId (call_key municipalityId) priceCents "SEK" now.

(** The checks of [updatePackagePrice] in their order: [None] when they
    pass, the message of the error otherwise. *)
Definition validation_failure (db : DB) (packageId priceCents : Z)
    (municipalityId : option Z) : option string :=
  match find (fun p => (Package.id p =? packageId) && Package.is_active p)
             (packages db) with
  | None => Some (package_not_found packageId)
  | Some _ =>
      match call_key municipalityId with
      | Some m =>
          match find (fun x => (Municipality.id x =? m)
                               && Municipality.is_active x)
                     (municipalities db) with
          | None => Some (municipality_not_found m)
          | Some _ =>
              if priceCents <? 0 then Some "Price cannot be negative"
              else None
          end
      | None =>
          if priceCents <? 0 then Some "Price cannot be negative" else None
      end
  end.

(** The active municipality a call names, if it names one. *)
Definition named_municipality (db : DB) (municipalityId : option Z)
    : option Municipality.t :=
  match call_key municipalityId with
  | Some m =>
      find (fun x => (Municipality.id x =? m) && Municipality.is_active x)
           (municipalities db)
  | None => None
  end.

(** The database a successful [updatePackagePrice] commits. *)
Definition committed (db : DB) (now packageId priceCents : Z)
    (municipalityId : option Z) : DB :=
  mkDB (packages db) (municipalities db)
       (upserted_prices db packageId priceCents municipalityId)
       (upserted_seq db packageId municipalityId)
       (price_histories db
        ++ [appended_history db now packageId priceCents municipalityId])
       (PriceHistory.id
          (appended_history db now packageId priceCents municipalityId)).

(** What identifies a row of [prices] and places it under a key:
    everything but the amount and the currency. *)
Definition row_identity (r : Price.t) : Z * Z * option Z * bool :=
  (Price.id r, Price.packageId r, Price.municipalityId r, Price.is_active r).

(** The [municipality] field of a result built from a row whose
    association is loaded. *)
Definition municipality_field (db : DB) (municipalityId : option Z)
    : option MunicipalityInfo.t :=
  JS.if_number municipalityId
    (fun _ => option_map municipality_info
                         (include_municipality db municipalityId))
    None.

(** The price object [getCurrentPackagePrice] returns for a package and
    its price row. *)
Definition current_price_of (db : DB) (packageRecord : Package.t)
    (priceRecord : Price.t) : CurrentPriceResult.price_t :=
  CurrentPriceResult.mk_price
    (Price.id priceRecord) (Price.packageId priceRecord)
    (JS.or_undefined (Price.municipalityId priceRecord))
    (Price.priceCents priceRecord)
    (convertCentsToDisplay (Price.priceCents priceRecord))
    (Price.currency_code priceRecord)
    (PackageInfo.mk (Package.id packageRecord) (Package.name packageRecord)
                    (Package.package_code packageRecord))
    (municipality_field db (Price.municipalityId priceRecord)).

(** The entry [getPackagePriceHistory] returns for a history row. *)
Definition history_entry_of (db : DB) (record : PriceHistory.t)
    : PriceHistoryEntry.t :=
  PriceHistoryEntry.mk
    (PriceHistory.id record) (PriceHistory.packageId record)
    (JS.or_undefined (PriceHistory.municipalityId record))
    (PriceHistory.priceCents record)
    (convertCentsToDisplay (PriceHistory.priceCents record))
    (PriceHistory.currency_code record)
    (PriceHistory.createdAt record)
    (municipality_field db (PriceHistory.municipalityId record)).

(** The rows [getPackagePriceHistory] selects, in the order it returns
    them. *)
Definition selected_history (db : DB) (packageId startDate endDate : Z)
    (municipalityId : option Z) : list PriceHistory.t :=
  order_by_createdAt_desc
    (filter (history_where packageId startDate endDate
                           (call_key municipalityId))
            (price_histories db)).

(** Most recent first. *)
Definition newer_first (a b : PriceHistory.t) : Prop :=
  PriceHistory.createdAt b <= PriceHistory.createdAt a.

(** [check] holds of [n] consecutive primitive integers from [i] on. *)
Fixpoint holds_upto (check : int -> bool) (n : nat) (i : int) : bool :=
  match n with
  | O => true
  | S n' => check i && holds_upto check n' (i + 1)%uint63
  end.

(** [check] holds of [chunks] consecutive runs of [size] integers from 0
    on. *)
Definition holds_in_chunks (check : int -> bool) (chunks size : nat) : bool :=
  forallb (fun k => holds_upto check size
                               (Uint63.of_Z (Z.of_nat k * Z.of_nat size)))
          (seq 0 chunks).

(** The display amount of the number [x] is the quotient [x / 100] as the
    division rounds it: the binary64 number nearest to the exact
    quotient, which is what the decimal numeral with two decimals
    denotes. *)
Definition display_is_quotient_number (x : float) : bool :=
  PrimFloat.eqb (convertCentsToDisplay_number x) (x / 100)%float.

(** The same for the amount [priceCents]. *)
Definition display_is_quotient (priceCents : Z) : bool :=
  display_is_quotient_number (JS.Number priceCents).

(** A catalogue for the examples: one active package, one active and one
    inactive municipality, no price yet. *)
Definition basic : Package.t :=
  Package.mk 1 "Basic" (Some "Basic package with essential features")
             "BASIC" 15 10 true.

Definition stockholm : Municipality.t :=
  Municipality.mk 1 "Stockholm" "STH" "Stockholm" "Sweden" true.

Definition uppsala : Municipality.t :=
  Municipality.mk 2 "Uppsala" "UPP" "Uppsala" "Sweden" false.

Definition seeded : DB := mkDB [basic] [stockholm; uppsala] [] 0 [] 0.

(** The catalogue with a global price for the package and a price in
    Uppsala, set while that municipality was still active; the history
    has a row at the first instant of 2025, two later in the year and one
    at the first instant of 2026 (UTC). *)
Definition priced : DB :=
  mkDB [basic] [stockholm; uppsala]
       [Price.mk 1 1 None 2499 true "SEK";
        Price.mk 2 1 (Some 2) 2999 true "SEK"]
       2
       [PriceHistory.mk 1 1 None 1999 "SEK" 1735689600000;
        PriceHistory.mk 2 1 (Some 2) 2999 "SEK" 1740000000000;
        PriceHistory.mk 3 1 None 2299 "SEK" 1750000000000;
        PriceHistory.mk 4 1 None 2499 "SEK" 1760000000000;
        PriceHistory.mk 5 1 None 2599 "SEK" 1767225600000]
       5.

(** The day number of January 1st of a year (ECMAScript's DayFromYear). *)
Definition DayFromYear (y : Z) : Z :=
  365 * (y - 1970) + (y - 1969) / 4 - (y - 1901) / 100 + (y - 1601) / 400.

(** [new Date(year, 0, 1)] on a host whose time zone is UTC; a year from 0
    to 99 is read as 1900 + year. *)
Definition Date_jan1_UTC (year : Z) : Z :=
  86400000
  * DayFromYear (if (0 <=? year) && (year <=? 99) then 1900 + year else year).

(* ------------------------------------------------------------------ *)
(** ** Vocabulary of the further properties                            *)
(* ------------------------------------------------------------------ *)

Definition price_ids (db : DB) : list Z := map Price.id (prices db).

Definition history_ids (db : DB) : list Z :=
  map PriceHistory.id (price_histories db).

(** Primary keys as [autoIncrement] hands them out: growing along each
    table, positive, and never beyond the table's sequence. *)
Definition primary_keys_intact (db : DB) : Prop :=
  StronglySorted Z.lt (price_ids db)
  /\ Forall (fun id => 0 < id <= prices_seq db) (price_ids db)
  /\ StronglySorted Z.lt (history_ids db)
  /\ Forall (fun id => 0 < id <= price_histories_seq db) (history_ids db).

(** What every row the service writes looks like. *)
Definition price_as_written (r : Price.t) : Prop :=
  Price.is_active r = true
  /\ 0 <= Price.priceCents r
  /\ Price.currency_code r = "SEK"
  /\ Price.municipalityId r <> Some 0.

Definition history_as_written (h : PriceHistory.t) : Prop :=
  0 <= PriceHistory.priceCents h
  /\ PriceHistory.currency_code h = "SEK"
  /\ PriceHistory.municipalityId h <> Some 0.

(** The row of [price_histories] written last under a key. *)
Definition latest_history (db : DB) (packageId : Z)
    (municipalityId : option Z) : option PriceHistory.t :=
  find (history_key packageId municipalityId) (rev (price_histories db)).

(** The two tables tell the same story: every price row has its amount
    and currency in the latest history row of its key, and every history
    row has a price row under its key. *)
Definition audit_trail_consistent (db : DB) : Prop :=
  (forall r : Price.t,
     In r (prices db) ->
     exists h : PriceHistory.t,
       latest_history db (Price.packageId r) (Price.municipalityId r) = Some h
       /\ PriceHistory.priceCents h = Price.priceCents r
       /\ PriceHistory.currency_code h = Price.currency_code r)
  /\ (forall h : PriceHistory.t,
        In h (price_histories db) ->
        exists r : Price.t,
          In r (prices db)
          /\ Price.packageId r = PriceHistory.packageId h
          /\ Price.municipalityId r = PriceHistory.municipalityId h).

(** The example catalogue after a global price has been set, and after a
    price for Stockholm has been set as well. *)
Definition one_price : DB :=
  db_after (updatePackagePrice 1000 1 1999 None) seeded.

Definition two_prices : DB :=
  db_after (updatePackagePrice 2000 1 2999 (Some 1)) one_price.

(** The significand of [x + 2^52], an integer in [2^52, 2^53) for [x] in
    [0, 2^52). *)
Definition significand_from_2p52 (x : float) : int :=
  normfr_mantissa (fst (frshiftexp (x + 0x1p+52)%float)).

(** The integer an integral binary64 number in [0, 2^52) holds. *)
Definition integer_value (x : float) : Z :=
  Uint63.to_Z (significand_from_2p52 x) - 4503599627370496.

(** What a reader of a display amount gets back as the amount in cents:
    [Math.round(display * 100)]. *)
Definition cents_of_display (display : float) : float :=
  JS.Math_round (display * 100).

(** [Math.round(display * 100)] gives the number [x] back as a number,
    and the primitive integer [i] as the integer it holds. *)
Definition cents_recovered_number (x : float) (i : int) : bool :=
  PrimFloat.eqb (cents_of_display (convertCentsToDisplay_number x)) x
  && (significand_from_2p52
        (cents_of_display (convertCentsToDisplay_number x))
      =? i + 4503599627370496)%uint63.

(** Rows of [price_histories] written at strictly growing times. *)
Definition written_at_growing_times (l : list PriceHistory.t) : Prop :=
  StronglySorted
    (fun a b => PriceHistory.createdAt a < PriceHistory.createdAt b) l.

(* ------------------------------------------------------------------ *)
(** ** The price controller ([src/controllers/price.controller.ts])    *)
(* ------------------------------------------------------------------ *)

(** [s.includes(sub)]. *)
Fixpoint includes (s sub : string) : bool :=
  String.prefix sub s
  || match s with
     | EmptyString => false
     | String _ s' => includes s' sub
     end.

(** [error || fallback] on an optional string: the empty string is falsy
    too. *)
Definition or_string (error : option string) (fallback : string) : string :=
  match error with
  | Some EmptyString | None => fallback
  | Some msg => msg
  end.

(** The JSON bodies the controller sends: [{ success: true, message,
    data }], [{ success: true, data }], [{ success: true, data: {
    package_id, year, municipalityId, history, count } }] and [{ success:
    false, error }]. *)
Inductive Body : Type :=
| PriceUpdated (message : string) (data : PriceUpdateResult.price_t)
| CurrentPrice (data : CurrentPriceResult.price_t)
| PriceHistoryData (package_id year : Z)
    (municipalityId : option JS.parsed)
    (history : list PriceHistoryEntry.t) (count : Z)
| Failure (error : string).

(** What [res.status(status).json(body)] is called with. *)
Module Response.
Record t : Type := mk { status : Z; body : Body }.
End Response.

(** The handlers are embedded from the point where the numbers have been
    read off the request: [packageId], [price_cents] and [year] stand for
    what [parseInt(..., 10)] gave, taken to be integers.  In [updatePrice]
    and [getCurrentPrice], which test and parse the same
    [municipality_id], it stands for the integer parsed, [None] when the
    request does not carry it. *)

(** [updatePrice(req, res)]. *)
Definition updatePrice (now packageId price_cents : Z)
    (municipality_id : option Z) : M Response.t :=
  try_catch
    (result <-
       updatePackagePrice now packageId price_cents municipality_id ;;
     if PriceUpdateResult.success result
     then ret (Response.mk 200
                 (PriceUpdated (PriceUpdateResult.message result)
                               (PriceUpdateResult.price result)))
     else ret (Response.mk 500
                 (Failure
                    "Internal server error occurred while updating price")))
    (fun error =>
       let errorMessage := JS.message error in
       if includes errorMessage "not found"
          || includes errorMessage "inactive"
       then ret (Response.mk 404 (Failure errorMessage))
       else ret (Response.mk 500
                   (Failure
                      "Internal server error occurred while updating price"))).

(** [getCurrentPrice(req, res)]. *)
Definition getCurrentPrice (packageId : Z) (municipality_id : option Z)
    : M Response.t :=
  try_catch
    (result <- getCurrentPackagePrice packageId municipality_id ;;
     match (if CurrentPriceResult.success result
            then CurrentPriceResult.price result
            else None) with
     | Some price => ret (Response.mk 200 (CurrentPrice price))
     | None =>
         ret (Response.mk 404
                (Failure (or_string (CurrentPriceResult.error result)
                                    "Price not found")))
     end)
    (fun error =>
       ret (Response.mk 500
              (Failure
                 "Internal server error occurred while retrieving price"))).

(** Whether a query parameter is truthy: it is [undefined] when the
    request does not carry it, and the empty string is falsy too. *)
Definition query_truthy (value : option string) : bool :=
  match value with
  | Some (String _ _) => true
  | Some EmptyString | None => false
  end.

(** A parsed number handed to the service where it takes [number |
    undefined].  The service tests the municipality it is given for
    truth only ([if (municipalityId)], [municipalityId || undefined]), and
    [NaN] is falsy as [undefined] and 0 are, so [NaN] is served as
    [undefined] is. *)
Definition number_or_undefined (value : option JS.parsed) : option Z :=
  match value with
  | Some (JS.Int n) => Some n
  | Some JS.NaN | None => None
  end.

Section HostController.

Variable Date_jan1 : Z -> Z.

(** [getPriceHistory(req, res)].  The handler tests one query parameter
    and parses another: [municipality_id] is [req.query.municipality_id],
    which is only tested for truth, and [municipalityId] is what
    [parseInt(req.query.municipalityId, 10)] gives, [JS.NaN] for a request
    that does not carry a parameter of that name. *)
Definition getPriceHistory (packageId year : Z)
    (municipality_id : option string) (municipalityId : JS.parsed)
    : M Response.t :=
  let municipalityId :=
    if query_truthy municipality_id then Some municipalityId else None in
  try_catch
    (result <-
       getPackagePriceHistory Date_jan1 packageId year
                              (number_or_undefined municipalityId) ;;
     match (if PriceHistoryResult.success result
            then PriceHistoryResult.history result
            else None) with
     | Some history =>
         ret (Response.mk 200
                (PriceHistoryData packageId year municipalityId history
                                  (Z.of_nat (List.length history))))
     | None =>
         ret (Response.mk 404
                (Failure (or_string (PriceHistoryResult.error result)
                                    "Price history not found")))
     end)
    (fun error =>
       ret (Response.mk 500
              (Failure
                 "Internal server error occurred while retrieving price history"))).

End HostController.

(* ------------------------------------------------------------------ *)
(** ** Lists and keys                                                  *)
(* ------------------------------------------------------------------ *)

Lemma column_eqb_eq (x y : option Z) : column_eqb x y = true <-> x = y.
Proof.
  destruct x as [a|], y as [b|]; simpl; split; intro H;
    try discriminate; try reflexivity.
  - apply Z.eqb_eq in H. now subst.
  - injection H as ->. apply Z.eqb_refl.
Qed.

Lemma column_eqb_refl (x : option Z) : column_eqb x x = true.
Proof. now apply column_eqb_eq. Qed.

Lemma call_key_or_undefined (municipalityId : option Z) :
  call_key municipalityId = JS.or_undefined municipalityId.
Proof.
  unfold call_key, JS.if_number.
  now destruct (JS.or_undefined municipalityId).
Qed.

Lemma call_key_zero : call_key (Some 0) = None.
Proof. reflexivity. Qed.

Lemma call_key_Some (m : Z) : m <> 0 -> call_key (Some m) = Some m.
Proof.
  intro Hm. unfold call_key, JS.if_number, JS.or_undefined, JS.truthy.
  apply Z.eqb_neq in Hm. now rewrite Hm.
Qed.

Lemma if_number_call_key {A : Type} (municipalityId : option Z)
    (then_ : Z -> A) (else_ : A) :
  JS.if_number municipalityId then_ else_ =
  match call_key municipalityId with
  | Some m => then_ m
  | None => else_
  end.
Proof. rewrite call_key_or_undefined. reflexivity. Qed.

Lemma find_none_existsb {A : Type} (f : A -> bool) (l : list A) :
  find f l = None -> existsb f l = false.
Proof.
  induction l as [|x l IH]; simpl; [reflexivity|].
  destruct (f x); [discriminate|]. exact IH.
Qed.

Lemma find_some_existsb {A : Type} (f g : A -> bool) (l : list A) (x : A) :
  (forall y, f y = true -> g y = true) ->
  find f l = Some x -> existsb g l = true.
Proof.
  intros Hfg Hfind. apply find_some in Hfind as [Hin Hf].
  apply existsb_exists. exists x. auto.
Qed.

Lemma filter_find_nil {A : Type} (f : A -> bool) (l : list A) :
  find f l = None -> filter f l = [].
Proof.
  induction l as [|x l IH]; simpl; [reflexivity|].
  destruct (f x); [discriminate|]. exact IH.
Qed.

(* ------------------------------------------------------------------ *)
(** ** Running the writes                                              *)
(* ------------------------------------------------------------------ *)

Lemma bind_run {A B : Type} (m : M A) (k : A -> M B) (db : DB) :
  bind m k db =
  match m db with
  | (Returned a, db') => k a db'
  | (Thrown e, db') => (Thrown e, db')
  end.
Proof. reflexivity. Qed.

Lemma Package_findOne_run (id : Z) (db : DB) :
  Package_findOne id db =
  (Returned (find (fun p => (Package.id p =? id) && Package.is_active p)
                  (packages db)), db).
Proof. reflexivity. Qed.

Lemma Municipality_findOne_run (id : Z) (db : DB) :
  Municipality_findOne id db =
  (Returned (find (fun m => (Municipality.id m =? id)
                            && Municipality.is_active m)
                  (municipalities db)), db).
Proof. reflexivity. Qed.

Lemma validate_SEK (priceCents : Z) (db : DB) :
  (priceCents <? 0) = false -> validate priceCents "SEK" db = (Returned tt, db).
Proof. intro H. unfold validate. rewrite H. reflexivity. Qed.

Lemma Price_update_run (instance : Price.t) (priceCents : Z) (db : DB) :
  (priceCents <? 0) = false ->
  Price_update instance priceCents "SEK" db =
  (Returned (Price.mk (Price.id instance) (Price.packageId instance)
                      (Price.municipalityId instance) priceCents
                      (Price.is_active instance) "SEK"),
   mkDB (packages db) (municipalities db)
        (map (fun r => if Price.id r =? Price.id instance
                       then Price.mk (Price.id r) (Price.packageId r)
                              (Price.municipalityId r) priceCents
                              (Price.is_active r) "SEK"
                       else r)
             (prices db))
        (prices_seq db) (price_histories db) (price_histories_seq db)).
Proof.
  intro H. unfold Price_update, bind. rewrite (validate_SEK _ _ H).
  reflexivity.
Qed.

Lemma Price_create_run (packageId : Z) (municipalityId : option Z)
    (priceCents : Z) (db : DB) :
  (priceCents <? 0) = false ->
  references_ok db packageId municipalityId = true ->
  find (price_where packageId municipalityId) (prices db) = None ->
  Price_create packageId municipalityId priceCents true "SEK" db =
  (Returned (Price.mk (next_id (prices_seq db) (map Price.id (prices db)))
                      packageId municipalityId priceCents true "SEK"),
   mkDB (packages db) (municipalities db)
        (prices db
         ++ [Price.mk (next_id (prices_seq db) (map Price.id (prices db)))
                      packageId municipalityId priceCents true "SEK"])
        (next_id (prices_seq db) (map Price.id (prices db)))
        (price_histories db) (price_histories_seq db)).
Proof.
  intros H Href Hfind. unfold Price_create, bind.
  rewrite (validate_SEK _ _ H). simpl. rewrite Href. simpl.
  unfold unique_index_ok. rewrite (find_none_existsb _ _ Hfind).
  destruct municipalityId; reflexivity.
Qed.

Lemma PriceHistory_create_run (now packageId : Z) (municipalityId : option Z)
    (priceCents : Z) (db : DB) :
  (priceCents <? 0) = false ->
  references_ok db packageId municipalityId = true ->
  PriceHistory_create now packageId municipalityId priceCents "SEK" db =
  (Returned (PriceHistory.mk
               (next_id (price_histories_seq db)
                        (map PriceHistory.id (price_histories db)))
               packageId municipalityId priceCents "SEK" now),
   mkDB (packages db) (municipalities db) (prices db) (prices_seq db)
        (price_histories db
         ++ [PriceHistory.mk
               (next_id (price_histories_seq db)
                        (map PriceHistory.id (price_histories db)))
               packageId municipalityId priceCents "SEK" now])
        (next_id (price_histories_seq db)
                 (map PriceHistory.id (price_histories db)))).
Proof.
  intros H Href. unfold PriceHistory_create, bind.
  rewrite (validate_SEK _ _ H). simpl. rewrite Href. reflexivity.
Qed.

Lemma references_ok_found (db : DB) (packageId : Z)
    (municipalityId : option Z) (p : Package.t) :
  find (fun p => (Package.id p =? packageId) && Package.is_active p)
       (packages db) = Some p ->
  (forall m, municipalityId = Some m ->
     exists x, find (fun x => (Municipality.id x =? m)
                              && Municipality.is_active x)
                    (municipalities db) = Some x) ->
  references_ok db packageId municipalityId = true.
Proof.
  intros Hp Hm. unfold references_ok. apply andb_true_intro. split.
  - eapply find_some_existsb; [|exact Hp].
    intros y Hy. now apply andb_prop in Hy.
  - destruct municipalityId as [m|]; [|reflexivity].
    destruct (Hm m eq_refl) as [x Hx].
    eapply find_some_existsb; [|exact Hx].
    intros y Hy. now apply andb_prop in Hy.
Qed.

(* ------------------------------------------------------------------ *)
(** ** What [updatePackagePrice] does, case by case                    *)
(* ------------------------------------------------------------------ *)

Lemma updatePackagePrice_run (now packageId priceCents : Z)
    (municipalityId : option Z) (db : DB) :
  updatePackagePrice now packageId priceCents municipalityId db =
  match validation_failure db packageId priceCents municipalityId with
  | Some msg => (Thrown (JS.new_Error msg), db)
  | None =>
      (Returned
         (price_updated
            (upserted_price db packageId priceCents municipalityId)
            (named_municipality db municipalityId)),
       committed db now packageId priceCents municipalityId)
  end.
Proof.
  unfold updatePackagePrice, validation_failure, named_municipality.
  rewrite !if_number_call_key.
  replace (match call_key municipalityId with
           | Some m => Some m
           | None => None
           end)
    with (call_key municipalityId)
    by (destruct (call_key municipalityId); reflexivity).
  unfold bind at 1. unfold sequelize_transaction, get_db at 1.
  unfold try_catch. unfold bind at 1. unfold Package_findOne at 1.
  unfold bind at 1, get_db at 1, ret at 1.
  destruct (find (fun p => (Package.id p =? packageId) && Package.is_active p)
                 (packages db)) as [p|] eqn:Hp; [|reflexivity].
  assert (Hpass : (priceCents <? 0) = false ->
            forall mu : option Municipality.t,
            references_ok db packageId (call_key municipalityId) = true ->
            (let (o, db') :=
               (if priceCents <? 0
                then throw (JS.new_Error "Price cannot be negative")
                else
                  existingPrice <-
                    Price_findOne packageId (call_key municipalityId) ;;
                  newPrice <-
                    match existingPrice with
                    | Some existingPrice =>
                        Price_update existingPrice priceCents "SEK"
                    | None =>
                        Price_create packageId
                          (JS.or_undefined municipalityId) priceCents true
                          "SEK"
                    end ;;
                  PriceHistory_create now packageId
                    (JS.or_undefined municipalityId) priceCents "SEK" ;;;
                  transaction_commit db ;;;
                  ret (price_updated newPrice mu)) db in
             match o with
             | Returned a => (Returned a, db')
             | Thrown e =>
                 (transaction_rollback db ;;;
                  throw (JS.new_Error (JS.message e))) db'
             end)
            = (Returned
                 (price_updated
                    (upserted_price db packageId priceCents municipalityId)
                    mu),
               committed db now packageId priceCents municipalityId)).
  { intros Hc mu Href. rewrite Hc.
    rewrite <- call_key_or_undefined.
    unfold bind at 1. unfold Price_findOne, bind at 1, get_db, ret at 1.
    unfold committed, upserted_prices, upserted_seq, appended_history,
      upserted_price.
    destruct (find (price_where packageId (call_key municipalityId))
                   (prices db)) as [e|] eqn:He.
    - unfold bind at 1. rewrite (Price_update_run _ _ _ Hc).
      unfold bind at 1.
      rewrite PriceHistory_create_run; [|exact Hc|exact Href].
      reflexivity.
    - unfold bind at 1. rewrite (Price_create_run _ _ _ _ Hc Href He).
      unfold bind at 1.
      rewrite PriceHistory_create_run; [|exact Hc|exact Href].
      reflexivity. }
  destruct (call_key municipalityId) as [m|] eqn:Hk.
  - rewrite bind_run, bind_run, Municipality_findOne_run.
    destruct (find (fun x => (Municipality.id x =? m)
                             && Municipality.is_active x)
                   (municipalities db)) as [mu|] eqn:Hm; [|reflexivity].
    unfold ret at 1.
    destruct (priceCents <? 0) eqn:Hc; [reflexivity|].
    apply (Hpass eq_refl).
    apply (references_ok_found _ _ _ p Hp).
    intros m' [= <-]. now exists mu.
  - rewrite bind_run. unfold ret at 1.
    destruct (priceCents <? 0) eqn:Hc; [reflexivity|].
    apply (Hpass eq_refl).
    apply (references_ok_found _ _ _ p Hp). discriminate.
Qed.

Lemma updatePackagePrice_thrown (now packageId priceCents : Z)
    (municipalityId : option Z) (db : DB) (e : JS.Error) :
  outcome_of (updatePackagePrice now packageId priceCents municipalityId) db
  = Thrown e ->
  validation_failure db packageId priceCents municipalityId
  = Some (JS.message e).
Proof.
  unfold outcome_of. rewrite updatePackagePrice_run.
  destruct (validation_failure db packageId priceCents municipalityId);
    simpl; [|discriminate].
  now intros [= <-].
Qed.

Lemma updatePackagePrice_returned (now packageId priceCents : Z)
    (municipalityId : option Z) (db : DB) (r : PriceUpdateResult.t) :
  outcome_of (updatePackagePrice now packageId priceCents municipalityId) db
  = Returned r ->
  validation_failure db packageId priceCents municipalityId = None
  /\ r = price_updated
           (upserted_price db packageId priceCents municipalityId)
           (named_municipality db municipalityId)
  /\ db_after (updatePackagePrice now packageId priceCents municipalityId) db
     = committed db now packageId priceCents municipalityId.
Proof.
  unfold outcome_of, db_after. rewrite updatePackagePrice_run.
  destruct (validation_failure db packageId priceCents municipalityId);
    simpl; [discriminate|].
  now intros [= <-].
Qed.

(** Whatever the body of a transaction does, when it throws the rollback
    puts the database back. *)
Lemma rollback_restores {A : Type} (body : Transaction -> M A) (db : DB)
    (e : JS.Error) :
  outcome_of
    (transaction <- sequelize_transaction ;;
     try_catch (body transaction)
       (fun error =>
          transaction_rollback transaction ;;;
          throw (JS.new_Error (JS.message error)))) db = Thrown e ->
  db_after
    (transaction <- sequelize_transaction ;;
     try_catch (body transaction)
       (fun error =>
          transaction_rollback transaction ;;;
          throw (JS.new_Error (JS.message error)))) db = db.
Proof.
  unfold outcome_of, db_after. rewrite !bind_run.
  unfold sequelize_transaction, get_db, try_catch.
  destruct (body db db) as [[a|e'] db']; simpl; [discriminate|reflexivity].
Qed.

(* ------------------------------------------------------------------ *)
(** ** The prices table under an upsert                                *)
(* ------------------------------------------------------------------ *)

Lemma filter_map_invariant {A : Type} (g : A -> bool) (f : A -> A)
    (l : list A) :
  (forall x, g (f x) = g x) ->
  filter g (map f l) = map f (filter g l).
Proof.
  intro Hg. induction l as [|x l IH]; simpl; [reflexivity|].
  rewrite Hg. destruct (g x); simpl; now rewrite IH.
Qed.

Lemma find_map_invariant {A : Type} (g : A -> bool) (f : A -> A)
    (l : list A) :
  (forall x, g (f x) = g x) ->
  find g (map f l) = option_map f (find g l).
Proof.
  intro Hg. induction l as [|x l IH]; simpl; [reflexivity|].
  rewrite Hg. destruct (g x); simpl; [reflexivity|exact IH].
Qed.

Lemma find_app_none {A : Type} (g : A -> bool) (l : list A) (x : A) :
  find g l = None -> find g (l ++ [x]) = if g x then Some x else None.
Proof.
  induction l as [|y l IH]; simpl; [reflexivity|].
  destruct (g y); [discriminate|exact IH].
Qed.

(** Rewriting the amount of a row leaves it under the same [where]
    clauses. *)
Lemma price_where_amount (packageId : Z) (municipalityId : option Z) (id : Z)
    (priceCents : Z) (r : Price.t) :
  price_where packageId municipalityId
    (if Price.id r =? id
     then Price.mk (Price.id r) (Price.packageId r) (Price.municipalityId r)
                   priceCents (Price.is_active r) "SEK"
     else r)
  = price_where packageId municipalityId r.
Proof. destruct (Price.id r =? id); reflexivity. Qed.

Lemma active_prices_upserted (db : DB) (packageId priceCents : Z)
    (municipalityId : option Z) (packageId' : Z) (municipalityId' : option Z) :
  List.length
    (filter (price_where packageId' municipalityId')
            (upserted_prices db packageId priceCents municipalityId))
  = match find (price_where packageId (call_key municipalityId))
               (prices db) with
    | Some _ => List.length (active_prices db packageId' municipalityId')
    | None =>
        if (packageId' =? packageId)
           && column_eqb (call_key municipalityId) municipalityId'
        then 1%nat
        else List.length (active_prices db packageId' municipalityId')
    end.
Proof.
  unfold upserted_prices, upserted_price, active_prices.
  destruct (find (price_where packageId (call_key municipalityId))
                 (prices db)) as [e|] eqn:He.
  - rewrite filter_map_invariant by (intro; apply price_where_amount).
    apply length_map.
  - rewrite filter_app, length_app. simpl.
    unfold price_where at 2. simpl. rewrite andb_true_r.
    rewrite Z.eqb_sym.
    destruct ((packageId' =? packageId)
              && column_eqb (call_key municipalityId) municipalityId')
      eqn:Hk; simpl; [|lia].
    apply andb_prop in Hk as [Hp Hm].
    apply Z.eqb_eq in Hp. apply column_eqb_eq in Hm. subst.
    now rewrite (filter_find_nil _ _ He).
Qed.

Lemma updatePackagePrice_preserves (now packageId priceCents : Z)
    (municipalityId : option Z) (db : DB) :
  one_active_price_per_key db ->
  one_active_price_per_key
    (db_after (updatePackagePrice now packageId priceCents municipalityId)
              db).
Proof.
  intros Hinv p' m'. unfold db_after. rewrite updatePackagePrice_run.
  destruct (validation_failure db packageId priceCents municipalityId);
    simpl; [apply Hinv|].
  unfold active_prices at 1. simpl. rewrite active_prices_upserted.
  destruct (find _ _); [apply Hinv|].
  destruct (_ && _); [lia|apply Hinv].
Qed.

Lemma reachable_one_active (db : DB) :
  reachable db -> one_active_price_per_key db.
Proof.
  induction 1 as [pkgs muns|db now p c m _ IH|db pkgs muns _ IH].
  - intros p m. simpl. lia.
  - now apply updatePackagePrice_preserves.
  - exact IH.
Qed.

Lemma upserted_prices_identity (db : DB) (packageId priceCents : Z)
    (municipalityId : option Z) (e : Price.t) :
  find (price_where packageId (call_key municipalityId)) (prices db) = Some e ->
  map row_identity (upserted_prices db packageId priceCents municipalityId)
  = map row_identity (prices db).
Proof.
  intro He. unfold upserted_prices. rewrite He. rewrite map_map.
  apply map_ext. intro r. now destruct (Price.id r =? Price.id e).
Qed.

Lemma find_upserted (db : DB) (packageId priceCents : Z)
    (municipalityId : option Z) :
  find (price_where packageId (call_key municipalityId))
       (upserted_prices db packageId priceCents municipalityId)
  = Some (upserted_price db packageId priceCents municipalityId).
Proof.
  unfold upserted_prices, upserted_price.
  destruct (find (price_where packageId (call_key municipalityId))
                 (prices db)) as [e|] eqn:He.
  - rewrite find_map_invariant by (intro; apply price_where_amount).
    rewrite He. simpl. now rewrite Z.eqb_refl.
  - rewrite (find_app_none _ _ _ He). unfold price_where. simpl.
    now rewrite Z.eqb_refl, column_eqb_refl.
Qed.

Lemma history_count_committed (db : DB) (now packageId priceCents : Z)
    (municipalityId : option Z) (packageId' : Z) (municipalityId' : option Z) :
  history_count (committed db now packageId priceCents municipalityId)
                packageId' municipalityId'
  = (history_count db packageId' municipalityId'
     + if (packageId =? packageId')%Z
          && column_eqb (call_key municipalityId) municipalityId'
       then 1 else 0)%nat.
Proof.
  unfold history_count, committed. simpl.
  rewrite filter_app, length_app. f_equal.
  simpl. unfold history_key. simpl.
  now destruct ((packageId =? packageId')
                && column_eqb (call_key municipalityId) municipalityId').
Qed.

(* ------------------------------------------------------------------ *)
(** ** Properties of [updatePackagePrice]                              *)
(* ------------------------------------------------------------------ *)

(** C1. In every state the service can reach, each key (package,
    municipality-or-null) has at most one active row in [prices]; a call
    of [updatePackagePrice] keeps it so, because where an active row
    exists under its key no row is added and no row changes identifier,
    key or active flag, and where none exists the table either stays as
    it is or gains exactly one active row under that key. *)
Theorem one_active_price_per_key_invariant (db : DB) (Hreach : reachable db)
    (packageId : Z) (municipalityId : option Z) :
  (List.length (active_prices db packageId municipalityId) <= 1)%nat
  /\ forall (now p c : Z) (m : option Z),
       let db' := db_after (updatePackagePrice now p c m) db in
       (List.length (active_prices db' packageId municipalityId) <= 1)%nat
       /\ match find (price_where p (call_key m)) (prices db) with
          | Some _ => map row_identity (prices db') = map row_identity (prices db)
          | None =>
              prices db' = prices db
              \/ prices db' = prices db
                              ++ [Price.mk (next_id (prices_seq db)
                                              (map Price.id (prices db)))
                                           p (call_key m) c true "SEK"]
          end.
Proof.
  pose proof (reachable_one_active db Hreach) as Hinv.
  split; [apply Hinv|]. intros now p c m db'. split.
  - now apply updatePackagePrice_preserves.
  - subst db'. unfold db_after. rewrite updatePackagePrice_run.
    destruct (validation_failure db p c m); simpl.
    + destruct (find _ _); [reflexivity|now left].
    + destruct (find (price_where p (call_key m)) (prices db)) as [e|] eqn:He.
      * now apply upserted_prices_identity with e.
      * right. unfold upserted_prices, upserted_price. now rewrite He.
Qed.

(** C2. [updatePackagePrice] is atomic: whenever it throws, the database
    is exactly as it was before the call; each failed check (package or
    municipality not found or inactive, negative amount) makes it throw;
    and for an active package and a municipality 999999 that is not
    there, the call throws and leaves [prices] and [price_histories]
    untouched. *)
Theorem updatePackagePrice_atomic (db : DB) (now packageId priceCents : Z)
    (municipalityId : option Z) :
  (forall e : JS.Error,
     outcome_of (updatePackagePrice now packageId priceCents municipalityId)
                db = Thrown e ->
     db_after (updatePackagePrice now packageId priceCents municipalityId) db
     = db)
  /\ (forall msg : string,
        validation_failure db packageId priceCents municipalityId = Some msg ->
        outcome_of (updatePackagePrice now packageId priceCents municipalityId)
                   db = Thrown (JS.new_Error msg))
  /\ (forall p : Package.t,
        find (fun p => (Package.id p =? packageId) && Package.is_active p)
             (packages db) = Some p ->
        find (fun x => (Municipality.id x =? 999999)
                       && Municipality.is_active x)
             (municipalities db) = None ->
        outcome_of (updatePackagePrice now packageId 1000 (Some 999999)) db
        = Thrown (JS.new_Error
                    "Municipality with ID 999999 not found or inactive")
        /\ prices (db_after (updatePackagePrice now packageId 1000
                                                (Some 999999)) db)
           = prices db
        /\ price_histories (db_after (updatePackagePrice now packageId 1000
                                                         (Some 999999)) db)
           = price_histories db).
Proof.
  split; [|split].
  - intros e He. exact (rollback_restores _ db e He).
  - intros msg Hmsg. unfold outcome_of. rewrite updatePackagePrice_run.
    now rewrite Hmsg.
  - intros p Hp Hm. unfold outcome_of, db_after.
    rewrite updatePackagePrice_run. unfold validation_failure.
    rewrite Hp. change (call_key (Some 999999)) with (Some 999999).
    cbv beta iota. rewrite Hm. simpl. auto.
Qed.

(** C3. History append law: a successful [updatePackagePrice] appends
    exactly one row to [price_histories], carrying the call's package,
    its municipality ([null] when the call names none, the identifier
    itself when it names a municipality), its amount and the currency;
    the number of history rows under the call's key grows by one and the
    number under every other key stays as it was. Nothing here depends on
    whether a price row was found or created. *)
Theorem history_append_law (db : DB) (now packageId priceCents : Z)
    (municipalityId : option Z) (r : PriceUpdateResult.t)
    (Hok : outcome_of
             (updatePackagePrice now packageId priceCents municipalityId) db
           = Returned r) :
  let db' :=
    db_after (updatePackagePrice now packageId priceCents municipalityId) db in
  price_histories db'
  = price_histories db
    ++ [PriceHistory.mk
          (next_id (price_histories_seq db)
                   (map PriceHistory.id (price_histories db)))
          packageId (call_key municipalityId) priceCents "SEK" now]
  /\ (municipalityId = None -> call_key municipalityId = None)
  /\ (forall m : Z,
        municipalityId = Some m -> m <> 0 -> call_key municipalityId = Some m)
  /\ history_count db' packageId (call_key municipalityId)
     = S (history_count db packageId (call_key municipalityId))
  /\ (forall (p' : Z) (m' : option Z),
        (p', m') <> (packageId, call_key municipalityId) ->
        history_count db' p' m' = history_count db p' m').
Proof.
  intro db'. subst db'.
  apply updatePackagePrice_returned in Hok as (_ & _ & ->).
  split; [reflexivity|]. split; [now intros ->|].
  split; [intros m -> Hm; now apply call_key_Some|].
  split.
  - rewrite history_count_committed, Z.eqb_refl, column_eqb_refl. simpl. lia.
  - intros p' m' Hne. rewrite history_count_committed.
    destruct ((packageId =? p') && column_eqb (call_key municipalityId) m')
      eqn:Hk; [|lia].
    apply andb_prop in Hk as [Hp Hm].
    apply Z.eqb_eq in Hp. apply column_eqb_eq in Hm. subst. now elim Hne.
Qed.

(** C4. Stable identifier: when two calls of [updatePackagePrice] for the
    same key succeed one after the other, both results carry the same
    price identifier and the key has two more history rows; the second
    call adds no row to [prices] and changes no row's identifier, key or
    active flag, and the row of that identifier now holds the second
    amount. *)
Theorem stable_price_identifier (db : DB) (now1 now2 packageId c1 c2 : Z)
    (m1 m2 : option Z) (r1 r2 : PriceUpdateResult.t)
    (Hkey : call_key m2 = call_key m1)
    (Hfirst : outcome_of (updatePackagePrice now1 packageId c1 m1) db
              = Returned r1)
    (Hsecond : outcome_of (updatePackagePrice now2 packageId c2 m2)
                 (db_after (updatePackagePrice now1 packageId c1 m1) db)
               = Returned r2) :
  let db1 := db_after (updatePackagePrice now1 packageId c1 m1) db in
  let db2 := db_after (updatePackagePrice now2 packageId c2 m2) db1 in
  PriceUpdateResult.id (PriceUpdateResult.price r2)
  = PriceUpdateResult.id (PriceUpdateResult.price r1)
  /\ history_count db2 packageId (call_key m1)
     = S (S (history_count db packageId (call_key m1)))
  /\ map row_identity (prices db2) = map row_identity (prices db1)
  /\ (exists row : Price.t,
        In row (prices db2)
        /\ Price.id row = PriceUpdateResult.id (PriceUpdateResult.price r1))
  /\ (forall row : Price.t,
        In row (prices db2) ->
        Price.id row = PriceUpdateResult.id (PriceUpdateResult.price r1) ->
        Price.priceCents row = c2).
Proof.
  intros db1 db2. subst db2 db1.
  apply updatePackagePrice_returned in Hfirst as (_ & -> & Hdb1).
  rewrite Hdb1 in *.
  apply updatePackagePrice_returned in Hsecond as (_ & -> & ->).
  set (db1 := committed db now1 packageId c1 m1).
  assert (Hfound : find (price_where packageId (call_key m2)) (prices db1)
                   = Some (upserted_price db packageId c1 m1)).
  { rewrite Hkey. apply find_upserted. }
  assert (Hid : Price.id (upserted_price db1 packageId c2 m2)
                = Price.id (upserted_price db packageId c1 m1)).
  { unfold upserted_price at 1. now rewrite Hfound. }
  split; [exact Hid|]. split.
  { rewrite <- Hkey at 1. rewrite history_count_committed.
    rewrite Z.eqb_refl, column_eqb_refl. simpl.
    unfold db1. rewrite Hkey, history_count_committed.
    rewrite Z.eqb_refl, column_eqb_refl. simpl. lia. }
  split.
  { simpl. now apply upserted_prices_identity
      with (upserted_price db packageId c1 m1). }
  split.
  { exists (upserted_price db1 packageId c2 m2). split; [|exact Hid].
    pose proof (find_upserted db1 packageId c2 m2) as Hf.
    apply find_some in Hf. exact (proj1 Hf). }
  intros row Hin Hrow. simpl in Hin, Hrow.
  unfold upserted_prices in Hin. rewrite Hfound in Hin.
  apply in_map_iff in Hin as (r0 & <- & _).
  destruct (Price.id r0 =? Price.id (upserted_price db packageId c1 m1))
    eqn:E; [reflexivity|].
  apply Z.eqb_neq in E. now elim E.
Qed.

(* ------------------------------------------------------------------ *)
(** ** Running the reads                                               *)
(* ------------------------------------------------------------------ *)

Lemma included_municipality_info_run (db db' : DB) (municipalityId : option Z) :
  (JS.or_undefined municipalityId = None
   \/ include_municipality db' municipalityId <> None) ->
  included_municipality_info municipalityId
    (include_municipality db' municipalityId) db
  = (Returned (municipality_field db' municipalityId), db).
Proof.
  unfold included_municipality_info, municipality_field, JS.if_number.
  intros [H|H].
  - now rewrite H.
  - destruct (JS.or_undefined municipalityId); [|reflexivity].
    destruct (include_municipality db' municipalityId); [reflexivity|].
    now elim H.
Qed.

Lemma Price_findOne_include_run (packageId : Z) (municipalityId : option Z)
    (db : DB) :
  Price_findOne_include packageId municipalityId db
  = (Returned
       (option_map
          (fun r => (r, include_municipality db (Price.municipalityId r)))
          (find (price_where packageId municipalityId) (prices db))), db).
Proof. reflexivity. Qed.

Lemma getCurrentPackagePrice_no_package (packageId : Z)
    (municipalityId : option Z) (db : DB) :
  find (fun p => (Package.id p =? packageId) && Package.is_active p)
       (packages db) = None ->
  getCurrentPackagePrice packageId municipalityId db
  = (Returned (CurrentPriceResult.mk false None
                 (Some (package_not_found packageId))), db).
Proof.
  intro Hp. unfold getCurrentPackagePrice, try_catch.
  rewrite (bind_run (Package_findOne packageId)), Package_findOne_run, Hp.
  reflexivity.
Qed.

Lemma getCurrentPackagePrice_no_price (packageId : Z)
    (municipalityId : option Z) (db : DB) (p : Package.t) :
  find (fun p => (Package.id p =? packageId) && Package.is_active p)
       (packages db) = Some p ->
  find (price_where packageId (call_key municipalityId)) (prices db) = None ->
  getCurrentPackagePrice packageId municipalityId db
  = (Returned (CurrentPriceResult.mk false None
                 (Some (no_active_price packageId municipalityId))), db).
Proof.
  intros Hp Hr. unfold getCurrentPackagePrice, try_catch.
  rewrite (bind_run (Package_findOne packageId)), Package_findOne_run, Hp.
  fold (call_key municipalityId).
  rewrite (bind_run (Price_findOne_include _ _)).
  rewrite Price_findOne_include_run.
  rewrite Hr. reflexivity.
Qed.

Lemma getCurrentPackagePrice_found (packageId : Z)
    (municipalityId : option Z) (db : DB) (p : Package.t) (r : Price.t) :
  find (fun p => (Package.id p =? packageId) && Package.is_active p)
       (packages db) = Some p ->
  find (price_where packageId (call_key municipalityId)) (prices db)
  = Some r ->
  getCurrentPackagePrice packageId municipalityId db
  = match JS.or_undefined (Price.municipalityId r),
          include_municipality db (Price.municipalityId r) with
    | Some _, None =>
        (Returned (CurrentPriceResult.mk false None
                     (Some (JS.message (JS.null_property "id")))), db)
    | _, _ =>
        (Returned (CurrentPriceResult.mk true
                     (Some (current_price_of db p r)) None), db)
    end.
Proof.
  intros Hp Hr. unfold getCurrentPackagePrice, try_catch.
  rewrite (bind_run (Package_findOne packageId)), Package_findOne_run, Hp.
  fold (call_key municipalityId).
  rewrite (bind_run (Price_findOne_include _ _)).
  rewrite Price_findOne_include_run.
  rewrite Hr. unfold option_map. cbv beta iota.
  rewrite (bind_run (included_municipality_info _ _)).
  unfold included_municipality_info, current_price_of, municipality_field,
    JS.if_number.
  destruct (JS.or_undefined (Price.municipalityId r));
    destruct (include_municipality db (Price.municipalityId r));
    reflexivity.
Qed.


(* ------------------------------------------------------------------ *)
(** ** Ordering by creation time                                       *)
(* ------------------------------------------------------------------ *)

Lemma insert_desc_perm (h : PriceHistory.t) (l : list PriceHistory.t) :
  Permutation (insert_desc h l) (h :: l).
Proof.
  induction l as [|x l IH]; simpl; [reflexivity|].
  destruct (PriceHistory.createdAt x <=? PriceHistory.createdAt h);
    [reflexivity|].
  rewrite IH. apply perm_swap.
Qed.

Lemma order_by_createdAt_desc_perm (l : list PriceHistory.t) :
  Permutation (order_by_createdAt_desc l) l.
Proof.
  induction l as [|h l IH]; simpl; [reflexivity|].
  rewrite insert_desc_perm. now constructor.
Qed.

Lemma insert_desc_sorted (h : PriceHistory.t) (l : list PriceHistory.t) :
  StronglySorted newer_first l -> StronglySorted newer_first (insert_desc h l).
Proof.
  induction 1 as [|x l Hs IH Hx]; simpl.
  - constructor; constructor.
  - destruct (PriceHistory.createdAt x <=? PriceHistory.createdAt h) eqn:E.
    + apply Z.leb_le in E. constructor; [now constructor|].
      constructor; [exact E|].
      eapply Forall_impl; [|exact Hx].
      unfold newer_first. intros a Ha. lia.
    + apply Z.leb_gt in E. constructor; [exact IH|].
      eapply Permutation_Forall; [symmetry; apply insert_desc_perm|].
      constructor; [unfold newer_first; lia|exact Hx].
Qed.

Lemma order_by_createdAt_desc_sorted (l : list PriceHistory.t) :
  StronglySorted newer_first (order_by_createdAt_desc l).
Proof.
  induction l as [|h l IH]; simpl; [constructor|].
  now apply insert_desc_sorted.
Qed.

Lemma selected_history_In (db : DB) (packageId startDate endDate : Z)
    (municipalityId : option Z) (h : PriceHistory.t) :
  In h (selected_history db packageId startDate endDate municipalityId)
  <-> In h (price_histories db)
      /\ PriceHistory.packageId h = packageId
      /\ PriceHistory.municipalityId h = call_key municipalityId
      /\ startDate <= PriceHistory.createdAt h < endDate.
Proof.
  unfold selected_history.
  assert (Hw : history_where packageId startDate endDate
                 (call_key municipalityId) h = true
               <-> PriceHistory.packageId h = packageId
                   /\ PriceHistory.municipalityId h = call_key municipalityId
                   /\ startDate <= PriceHistory.createdAt h < endDate).
  { unfold history_where. rewrite !andb_true_iff, Z.eqb_eq, Z.leb_le,
      Z.ltb_lt, column_eqb_eq. tauto. }
  rewrite <- Hw, <- filter_In. split; intro H.
  - eapply Permutation_in; [apply order_by_createdAt_desc_perm|exact H].
  - eapply Permutation_in;
      [symmetry; apply order_by_createdAt_desc_perm|exact H].
Qed.

(* ------------------------------------------------------------------ *)
(** ** Running the history query                                       *)
(* ------------------------------------------------------------------ *)

Lemma mapM_history_entry_run (db db' : DB) (l : list PriceHistory.t) :
  (forall h, In h l ->
     JS.or_undefined (PriceHistory.municipalityId h) = None
     \/ include_municipality db' (PriceHistory.municipalityId h) <> None) ->
  mapM history_entry
       (map (fun h =>
               (h, include_municipality db' (PriceHistory.municipalityId h)))
            l) db
  = (Returned (map (history_entry_of db') l), db).
Proof.
  induction l as [|h l IH]; intro Hl; cbn [map mapM]; [reflexivity|].
  rewrite (bind_run (history_entry _)). unfold history_entry at 1.
  rewrite (bind_run (included_municipality_info _ _)).
  rewrite included_municipality_info_run by (apply Hl; now left).
  unfold ret at 1. rewrite (bind_run (mapM history_entry _)).
  rewrite IH by (intros; apply Hl; now right).
  reflexivity.
Qed.

Section HistoryQuery.

Variable Date_jan1 : Z -> Z.

Lemma history_query_run (packageId year : Z) (municipalityId : option Z)
    (db : DB) :
  (forall m, call_key municipalityId = Some m ->
     include_municipality db (Some m) <> None) ->
  history_query Date_jan1 packageId year municipalityId db
  = (Returned
       (PriceHistoryResult.mk true
          (Some (map (history_entry_of db)
                     (selected_history db packageId (Date_jan1 year)
                        (Date_jan1 (year + 1)) municipalityId)))
          None), db).
Proof.
  intro Hmu. unfold history_query.
  rewrite (bind_run (PriceHistory_findAll _ _ _ _)).
  unfold PriceHistory_findAll at 1. rewrite (bind_run get_db).
  unfold get_db at 1, ret at 1. fold (call_key municipalityId).
  rewrite (bind_run (mapM history_entry _)).
  fold (selected_history db packageId (Date_jan1 year) (Date_jan1 (year + 1))
          municipalityId).
  rewrite mapM_history_entry_run; [reflexivity|].
  intros h Hh. apply selected_history_In in Hh as (_ & _ & Hm & _).
  rewrite Hm. destruct (call_key municipalityId) as [m|] eqn:Hk.
  - right. now apply Hmu.
  - now left.
Qed.

Lemma getPackagePriceHistory_no_package (packageId year : Z)
    (municipalityId : option Z) (db : DB) :
  find (fun p => (Package.id p =? packageId) && Package.is_active p)
       (packages db) = None ->
  getPackagePriceHistory Date_jan1 packageId year municipalityId db
  = (Returned (PriceHistoryResult.mk false None
                 (Some (package_not_found packageId))), db).
Proof.
  intro Hp. unfold getPackagePriceHistory, try_catch.
  rewrite (bind_run (Package_findOne packageId)), Package_findOne_run, Hp.
  reflexivity.
Qed.

Lemma getPackagePriceHistory_no_municipality (packageId year : Z)
    (municipalityId : option Z) (db : DB) (p : Package.t) (m : Z) :
  find (fun p => (Package.id p =? packageId) && Package.is_active p)
       (packages db) = Some p ->
  call_key municipalityId = Some m ->
  find (fun x => (Municipality.id x =? m) && Municipality.is_active x)
       (municipalities db) = None ->
  getPackagePriceHistory Date_jan1 packageId year municipalityId db
  = (Returned (PriceHistoryResult.mk false None
                 (Some (municipality_not_found m))), db).
Proof.
  intros Hp Hk Hm. unfold getPackagePriceHistory, try_catch.
  rewrite (bind_run (Package_findOne packageId)), Package_findOne_run, Hp.
  rewrite if_number_call_key, Hk.
  rewrite (bind_run (Municipality_findOne m)), Municipality_findOne_run, Hm.
  reflexivity.
Qed.

Lemma getPackagePriceHistory_success (packageId year : Z)
    (municipalityId : option Z) (db : DB) (p : Package.t) :
  find (fun p => (Package.id p =? packageId) && Package.is_active p)
       (packages db) = Some p ->
  (forall m, call_key municipalityId = Some m ->
     exists mu,
       find (fun x => (Municipality.id x =? m) && Municipality.is_active x)
            (municipalities db) = Some mu) ->
  getPackagePriceHistory Date_jan1 packageId year municipalityId db
  = (Returned
       (PriceHistoryResult.mk true
          (Some (map (history_entry_of db)
                     (selected_history db packageId (Date_jan1 year)
                        (Date_jan1 (year + 1)) municipalityId)))
          None), db).
Proof.
  intros Hp Hmu. unfold getPackagePriceHistory, try_catch.
  rewrite (bind_run (Package_findOne packageId)), Package_findOne_run, Hp.
  rewrite if_number_call_key.
  assert (Hq : history_query Date_jan1 packageId year municipalityId db
               = (Returned
                    (PriceHistoryResult.mk true
                       (Some (map (history_entry_of db)
                                  (selected_history db packageId
                                     (Date_jan1 year) (Date_jan1 (year + 1))
                                     municipalityId)))
                       None), db)).
  { apply history_query_run. intros m Hk. destruct (Hmu m Hk) as [mu Hfind].
    simpl. intro Hnone. apply find_none_existsb in Hnone.
    erewrite find_some_existsb in Hnone; [discriminate| |exact Hfind].
    intros y Hy. now apply andb_prop in Hy. }
  destruct (call_key municipalityId) as [m|] eqn:Hk.
  - destruct (Hmu m eq_refl) as [mu Hfind].
    rewrite (bind_run (Municipality_findOne m)), Municipality_findOne_run.
    rewrite Hfind, Hq. reflexivity.
  - rewrite Hq. reflexivity.
Qed.


End HistoryQuery.

(* ------------------------------------------------------------------ *)
(** ** Properties of [getCurrentPackagePrice]                          *)
(* ------------------------------------------------------------------ *)

Lemma active_prices_nil_find (db : DB) (packageId : Z)
    (municipalityId : option Z) :
  active_prices db packageId municipalityId = [] ->
  find (price_where packageId municipalityId) (prices db) = None.
Proof.
  unfold active_prices. intro Hnil.
  destruct (find (price_where packageId municipalityId) (prices db))
    as [r|] eqn:Hr; [|reflexivity].
  apply find_some in Hr. apply filter_In in Hr. rewrite Hnil in Hr.
  contradiction.
Qed.

(** C5. Exact-key lookup, no fallback: for an active package with an
    active global price, and a municipality identifier [m] under which
    the package has no active price, [getCurrentPackagePrice(packageId,
    m)] returns [success: false] with the message "No active price found
    for package <packageId> in municipality <m>" and no price; the global
    price is not returned. (Municipality identifiers are the non-zero
    numbers.) *)
Theorem no_fallback_to_global_price (db : DB) (packageId m : Z)
    (p : Package.t) (g : Price.t)
    (Hm : m <> 0)
    (Hp : find (fun p => (Package.id p =? packageId) && Package.is_active p)
               (packages db) = Some p)
    (Hglobal : In g (active_prices db packageId None))
    (Hnone : active_prices db packageId (Some m) = []) :
  getCurrentPackagePrice packageId (Some m) db
  = (Returned
       (CurrentPriceResult.mk false None
          (Some ("No active price found for package "
                 ++ JS.toString packageId ++ " in municipality "
                 ++ JS.toString m)%string)),
     db).
Proof.
  rewrite <- (call_key_Some m Hm) in Hnone.
  rewrite (getCurrentPackagePrice_no_price _ _ _ p Hp
             (active_prices_nil_find _ _ _ Hnone)).
  unfold no_active_price. rewrite if_number_call_key, (call_key_Some m Hm).
  reflexivity.
Qed.

(** C10. [getCurrentPackagePrice] does not look the municipality up: for
    an active package, when no active price is under the call's key the
    result is [success: false] with a "No active price found" message,
    whatever the municipalities table holds; and when an active price is
    under the key of a municipality that exists but is not active, that
    price is returned with [success: true], while [updatePackagePrice]
    throws and [getPackagePriceHistory] fails on the same municipality. *)
Theorem getCurrentPackagePrice_skips_municipality_check
    (Date_jan1 : Z -> Z) (db : DB) (packageId : Z)
    (municipalityId : option Z) (p : Package.t)
    (Hp : find (fun p => (Package.id p =? packageId) && Package.is_active p)
               (packages db) = Some p) :
  (active_prices db packageId (call_key municipalityId) = [] ->
   getCurrentPackagePrice packageId municipalityId db
   = (Returned (CurrentPriceResult.mk false None
                  (Some (no_active_price packageId municipalityId))), db))
  /\ (forall (m : Z) (r : Price.t) (mu : Municipality.t),
        municipalityId = Some m -> m <> 0 ->
        find (price_where packageId (Some m)) (prices db) = Some r ->
        find (fun x => Municipality.id x =? m) (municipalities db) = Some mu ->
        find (fun x => (Municipality.id x =? m) && Municipality.is_active x)
             (municipalities db) = None ->
        getCurrentPackagePrice packageId municipalityId db
        = (Returned (CurrentPriceResult.mk true
                       (Some (current_price_of db p r)) None), db)
        /\ CurrentPriceResult.priceCents (current_price_of db p r)
           = Price.priceCents r
        /\ CurrentPriceResult.municipality (current_price_of db p r)
           = Some (municipality_info mu)
        /\ (forall now priceCents : Z,
              outcome_of (updatePackagePrice now packageId priceCents
                                             municipalityId) db
              = Thrown (JS.new_Error (municipality_not_found m)))
        /\ (forall year : Z,
              getPackagePriceHistory Date_jan1 packageId year municipalityId db
              = (Returned (PriceHistoryResult.mk false None
                             (Some (municipality_not_found m))), db))).
Proof.
  split.
  - intro Hnil. apply getCurrentPackagePrice_no_price with p; [exact Hp|].
    now apply active_prices_nil_find.
  - intros m r mu -> Hm Hr Hmu Hinactive.
    pose proof (call_key_Some m Hm) as Hk.
    assert (Hrm : Price.municipalityId r = Some m).
    { apply find_some in Hr as [_ Hr]. unfold price_where in Hr.
      apply andb_prop in Hr as [_ Hr]. now apply column_eqb_eq in Hr. }
    assert (Hinc : include_municipality db (Price.municipalityId r) = Some mu)
      by now rewrite Hrm.
    split; [|split; [reflexivity|split; [|split]]].
    + rewrite <- Hk in Hr.
      rewrite (getCurrentPackagePrice_found _ _ _ p r Hp Hr), Hinc.
      now destruct (JS.or_undefined (Price.municipalityId r)).
    + unfold current_price_of, municipality_field. simpl.
      rewrite if_number_call_key, Hrm, Hk, <- Hrm, Hinc. reflexivity.
    + intros now priceCents. unfold outcome_of.
      rewrite updatePackagePrice_run. unfold validation_failure.
      now rewrite Hp, Hk, Hinactive.
    + intro year.
      now apply getPackagePriceHistory_no_municipality with p.
Qed.

(* ------------------------------------------------------------------ *)
(** ** Errors: thrown by the write, returned by the reads              *)
(* ------------------------------------------------------------------ *)


(* ------------------------------------------------------------------ *)
(** ** The display amount                                              *)
(* ------------------------------------------------------------------ *)

Lemma Number_of_uint63 (n : Z) :
  0 <= n < wB -> JS.Number n = PrimFloat.of_uint63 (Uint63.of_Z n).
Proof.
  intro Hn. change wB with 9223372036854775808 in Hn. unfold JS.Number.
  rewrite Z.abs_eq by lia.
  destruct (Z.ltb_spec n 9223372036854775808) as [_|H]; [|lia].
  destruct (Z.ltb_spec n 0) as [H|_]; [lia|reflexivity].
Qed.

Lemma holds_upto_spec (check : int -> bool) (n : nat) (i : int) (c : Z) :
  holds_upto check n i = true ->
  Uint63.to_Z i + Z.of_nat n <= wB ->
  Uint63.to_Z i <= c < Uint63.to_Z i + Z.of_nat n ->
  check (Uint63.of_Z c) = true.
Proof.
  revert i. induction n as [|n IH]; intros i Hall Hfit Hrange; [lia|].
  simpl in Hall. apply andb_prop in Hall as [Hhere Hrest].
  destruct (Z.eq_dec c (Uint63.to_Z i)) as [->|Hne].
  - now rewrite Uint63.of_to_Z.
  - pose proof (Uint63.to_Z_bounded i) as Hi.
    assert (Hnext : Uint63.to_Z (i + 1)%uint63 = Uint63.to_Z i + 1).
    { rewrite Uint63.add_spec, Uint63.to_Z_1. apply Z.mod_small. lia. }
    apply (IH (i + 1)%uint63 Hrest); rewrite Hnext; lia.
Qed.

Lemma holds_in_chunks_spec (check : int -> bool) (chunks size : nat)
    (c : Z) :
  holds_in_chunks check chunks size = true ->
  Z.of_nat chunks * Z.of_nat size <= wB ->
  0 <= c < Z.of_nat chunks * Z.of_nat size ->
  check (Uint63.of_Z c) = true.
Proof.
  unfold holds_in_chunks. intros Hall Hfit Hrange.
  assert (Hsize : 0 < Z.of_nat size) by nia.
  rewrite forallb_forall in Hall.
  specialize (Hall (Z.to_nat (c / Z.of_nat size))).
  assert (Hq : 0 <= c / Z.of_nat size < Z.of_nat chunks).
  { split; [apply Z.div_pos; lia|apply Z.div_lt_upper_bound; lia]. }
  pose proof (Z.mod_pos_bound c (Z.of_nat size) Hsize) as Hmod.
  pose proof (Z.div_mod c (Z.of_nat size)) as Hdm.
  rewrite Z2Nat.id in Hall by lia.
  assert (Hstart : Uint63.to_Z
                     (Uint63.of_Z (c / Z.of_nat size * Z.of_nat size))
                   = c / Z.of_nat size * Z.of_nat size).
  { rewrite Uint63.of_Z_spec. apply Z.mod_small. nia. }
  apply (holds_upto_spec
           check size (Uint63.of_Z (c / Z.of_nat size * Z.of_nat size)));
    rewrite ?Hstart.
  - apply Hall. apply in_seq. lia.
  - nia.
  - lia.
Qed.

(** Every amount from 0 up to 99,999.99, evaluated. *)
Lemma display_is_quotient_checked :
  holds_in_chunks
    (fun i => display_is_quotient_number (PrimFloat.of_uint63 i))
    10 (Z.to_nat 1000000) = true.
Proof. vm_cast_no_check (eq_refl true). Qed.

Lemma display_is_quotient_below (priceCents : Z) :
  0 <= priceCents < 10000000 ->
  PrimFloat.eqb (convertCentsToDisplay priceCents)
                (JS.Number priceCents / 100)%float = true.
Proof.
  intro Hrange.
  assert (Hwb : 10000000 <= wB) by (vm_compute; discriminate).
  change (display_is_quotient priceCents = true).
  unfold display_is_quotient. rewrite Number_of_uint63 by lia.
  apply (holds_in_chunks_spec
           (fun i => display_is_quotient_number (PrimFloat.of_uint63 i))
           10 (Z.to_nat 1000000));
    [exact display_is_quotient_checked| |]; rewrite Z2Nat.id; lia.
Qed.



(* ------------------------------------------------------------------ *)
(** ** Municipality 0                                                  *)
(* ------------------------------------------------------------------ *)

(** C9. A municipality identifier of 0 is treated as no municipality:
    each of the three operations does with 0 exactly what it does when
    the identifier is omitted (same outcome, same database), so the
    municipality is not looked up and the global key is addressed; and
    none of them reports "Municipality with ID 0 not found or
    inactive". *)
Theorem municipality_zero_is_omitted (Date_jan1 : Z -> Z) (db : DB)
    (now packageId priceCents year : Z) :
  updatePackagePrice now packageId priceCents (Some 0) db
  = updatePackagePrice now packageId priceCents None db
  /\ getCurrentPackagePrice packageId (Some 0) db
     = getCurrentPackagePrice packageId None db
  /\ getPackagePriceHistory Date_jan1 packageId year (Some 0) db
     = getPackagePriceHistory Date_jan1 packageId year None db
  /\ call_key (Some 0) = None
  /\ (forall e : JS.Error,
        outcome_of (updatePackagePrice now packageId priceCents (Some 0)) db
        = Thrown e ->
        JS.message e <> municipality_not_found 0)
  /\ (forall r : CurrentPriceResult.t,
        outcome_of (getCurrentPackagePrice packageId (Some 0)) db
        = Returned r ->
        CurrentPriceResult.error r <> Some (municipality_not_found 0))
  /\ (forall r : PriceHistoryResult.t,
        outcome_of (getPackagePriceHistory Date_jan1 packageId year (Some 0))
                   db = Returned r ->
        PriceHistoryResult.error r <> Some (municipality_not_found 0)).
Proof.
  split; [reflexivity|]. split; [reflexivity|]. split; [reflexivity|].
  split; [reflexivity|]. split; [|split].
  - intros e He. apply updatePackagePrice_thrown in He.
    unfold validation_failure in He. rewrite call_key_zero in He.
    destruct (find _ (packages db)).
    + destruct (priceCents <? 0); [|discriminate].
      injection He as He. rewrite <- He. discriminate.
    + injection He as He. rewrite <- He. discriminate.
  - intros r. unfold outcome_of.
    destruct (find (fun p => (Package.id p =? packageId) && Package.is_active p)
                   (packages db)) as [p|] eqn:Hp.
    + destruct (find (price_where packageId (call_key (Some 0)))
                     (prices db)) as [x|] eqn:Hx.
      * rewrite (getCurrentPackagePrice_found _ _ _ p x Hp Hx).
        destruct (JS.or_undefined (Price.municipalityId x));
          [destruct (include_municipality db (Price.municipalityId x))|];
          simpl; intros [= <-]; discriminate.
      * rewrite (getCurrentPackagePrice_no_price _ _ _ p Hp Hx).
        simpl. intros [= <-]. discriminate.
    + rewrite (getCurrentPackagePrice_no_package _ _ _ Hp).
      simpl. intros [= <-]. discriminate.
  - intros r. unfold outcome_of.
    destruct (find (fun p => (Package.id p =? packageId) && Package.is_active p)
                   (packages db)) as [p|] eqn:Hp.
    + rewrite (getPackagePriceHistory_success _ _ _ _ _ p Hp).
      * simpl. intros [= <-]. discriminate.
      * intros m Hm. rewrite call_key_zero in Hm. discriminate.
    + rewrite (getPackagePriceHistory_no_package _ _ _ _ _ Hp).
      simpl. intros [= <-]. discriminate.
Qed.

(* ------------------------------------------------------------------ *)
(** ** Properties of [getPackagePriceHistory]                          *)
(* ------------------------------------------------------------------ *)

(** A list in descending order of creation time is the only such
    arrangement of its rows when their times are pairwise distinct. *)
Lemma newer_first_unique (l l' : list PriceHistory.t) :
  StronglySorted newer_first l ->
  StronglySorted
    (fun a b => PriceHistory.createdAt b < PriceHistory.createdAt a) l' ->
  Permutation l l' -> l = l'.
Proof.
  intros Hl. revert l'.
  induction Hl as [|x l1 Hs IH Hx]; intros l' Hl' Hperm.
  - apply Permutation_nil in Hperm. now subst.
  - destruct l' as [|y l2];
      [symmetry in Hperm; now apply Permutation_nil in Hperm|].
    inversion Hl' as [|? ? Hs2 Hy]; subst.
    assert (Hxy : x = y).
    { assert (Hin : In x (y :: l2))
        by (eapply Permutation_in; [exact Hperm|now left]).
      destruct Hin as [->|Hin]; [reflexivity|].
      assert (Hin' : In y (x :: l1))
        by (eapply Permutation_in; [symmetry; exact Hperm|now left]).
      destruct Hin' as [->|Hin']; [reflexivity|].
      rewrite Forall_forall in Hx, Hy.
      specialize (Hx y Hin'). specialize (Hy x Hin).
      unfold newer_first in Hx. lia. }
    subst y. f_equal. apply IH; [exact Hs2|].
    now apply Permutation_cons_inv with x.
Qed.

(** C6. For an active package and, when one is named, an active
    municipality, [getPackagePriceHistory(packageId, year,
    municipalityId?)] succeeds with the entries of exactly the rows of
    [price_histories] under the key (package, municipality-or-null) whose
    creation time lies in the half-open window from [new Date(year, 0,
    1)] to [new Date(year + 1, 0, 1)]: a row created at the start of the
    window is among them, a row created at its end is not; the rows come
    most recent first, so rows created at t1 < t2 < t3 come as
    [t3; t2; t1]. *)
Theorem price_history_window_and_order (Date_jan1 : Z -> Z) (db : DB)
    (packageId year : Z) (municipalityId : option Z) (p : Package.t)
    (Hp : find (fun p => (Package.id p =? packageId) && Package.is_active p)
               (packages db) = Some p)
    (Hmu : forall m : Z,
        call_key municipalityId = Some m ->
        exists mu,
          find (fun x => (Municipality.id x =? m) && Municipality.is_active x)
               (municipalities db) = Some mu) :
  let startDate := Date_jan1 year in
  let endDate := Date_jan1 (year + 1) in
  let rows :=
    selected_history db packageId startDate endDate municipalityId in
  getPackagePriceHistory Date_jan1 packageId year municipalityId db
  = (Returned (PriceHistoryResult.mk true
                 (Some (map (history_entry_of db) rows)) None), db)
  /\ map PriceHistoryEntry.id (map (history_entry_of db) rows)
     = map PriceHistory.id rows
  /\ map PriceHistoryEntry.createdAt (map (history_entry_of db) rows)
     = map PriceHistory.createdAt rows
  /\ Permutation rows
       (filter (history_where packageId startDate endDate
                              (call_key municipalityId))
               (price_histories db))
  /\ (forall h : PriceHistory.t,
        In h rows
        <-> In h (price_histories db)
            /\ PriceHistory.packageId h = packageId
            /\ PriceHistory.municipalityId h = call_key municipalityId
            /\ startDate <= PriceHistory.createdAt h < endDate)
  /\ StronglySorted newer_first rows
  /\ (forall h : PriceHistory.t,
        In h (price_histories db) ->
        PriceHistory.packageId h = packageId ->
        PriceHistory.municipalityId h = call_key municipalityId ->
        PriceHistory.createdAt h = startDate ->
        startDate < endDate ->
        In h rows)
  /\ (forall h : PriceHistory.t,
        PriceHistory.createdAt h = endDate -> ~ In h rows)
  /\ (forall h1 h2 h3 : PriceHistory.t,
        Permutation
          (filter (history_where packageId startDate endDate
                                 (call_key municipalityId))
                  (price_histories db))
          [h1; h2; h3] ->
        PriceHistory.createdAt h1 < PriceHistory.createdAt h2 ->
        PriceHistory.createdAt h2 < PriceHistory.createdAt h3 ->
        rows = [h3; h2; h1]).
Proof.
  intros startDate endDate rows.
  assert (Hsorted : StronglySorted newer_first rows)
    by apply order_by_createdAt_desc_sorted.
  assert (Hperm : Permutation rows
            (filter (history_where packageId startDate endDate
                                   (call_key municipalityId))
                    (price_histories db)))
    by apply order_by_createdAt_desc_perm.
  split; [now apply getPackagePriceHistory_success with p|].
  split; [rewrite map_map; reflexivity|].
  split; [rewrite map_map; reflexivity|].
  split; [exact Hperm|].
  split; [intro h; apply selected_history_In|].
  split; [exact Hsorted|].
  split; [|split].
  - intros h Hin Hpk Hm Ht Hlt. apply selected_history_In.
    repeat split; try assumption; lia.
  - intros h Ht Hin. apply selected_history_In in Hin as (_ & _ & _ & Hw).
    lia.
  - intros h1 h2 h3 H123 H12 H23.
    apply newer_first_unique; [exact Hsorted| |].
    + repeat constructor; lia.
    + rewrite Hperm, H123.
      apply Permutation_trans with [h3; h1; h2].
      * apply Permutation_sym, (Permutation_cons_app [h1; h2] [] h3).
        reflexivity.
      * constructor. apply perm_swap.
Qed.

(* ------------------------------------------------------------------ *)
(** ** The properties at work on the example catalogue                 *)
(* ------------------------------------------------------------------ *)

Lemma one_active_price_per_key_invariant_witness :
  reachable (db_after (updatePackagePrice 1000 1 1999 None) seeded)
  /\ (List.length
        (active_prices (db_after (updatePackagePrice 1000 1 1999 None) seeded)
                       1 None) <= 1)%nat.
Proof.
  assert (H : reachable
                (db_after (updatePackagePrice 1000 1 1999 None) seeded))
    by (apply reachable_setPrice; apply reachable_init).
  split; [exact H|].
  exact (proj1 (one_active_price_per_key_invariant _ H 1 None)).
Defined.

Lemma updatePackagePrice_atomic_witness :
  outcome_of (updatePackagePrice 1000 1 1000 (Some 999999)) seeded
  = Thrown (JS.new_Error "Municipality with ID 999999 not found or inactive")
  /\ db_after (updatePackagePrice 1000 1 1000 (Some 999999)) seeded = seeded.
Proof.
  destruct (updatePackagePrice_atomic seeded 1000 1 1000 (Some 999999))
    as [Hrollback [_ Hexample]].
  destruct (Hexample basic eq_refl eq_refl) as [Hthrown _].
  split; [exact Hthrown|exact (Hrollback _ Hthrown)].
Defined.

Lemma history_append_law_witness :
  outcome_of (updatePackagePrice 1000 1 1999 (Some 1)) seeded
  = Returned (price_updated (upserted_price seeded 1 1999 (Some 1))
                            (named_municipality seeded (Some 1)))
  /\ history_count (db_after (updatePackagePrice 1000 1 1999 (Some 1)) seeded)
                   1 (Some 1)
     = S (history_count seeded 1 (Some 1)).
Proof.
  assert (Hok : outcome_of (updatePackagePrice 1000 1 1999 (Some 1)) seeded
                = Returned (price_updated
                              (upserted_price seeded 1 1999 (Some 1))
                              (named_municipality seeded (Some 1))))
    by (vm_compute; reflexivity).
  split; [exact Hok|].
  exact (proj1 (proj2 (proj2 (proj2
           (history_append_law seeded 1000 1 1999 (Some 1) _ Hok))))).
Defined.

Lemma stable_price_identifier_witness :
  let db1 := db_after (updatePackagePrice 1000 1 1999 None) seeded in
  let r1 := price_updated (upserted_price seeded 1 1999 None) None in
  let r2 := price_updated (upserted_price db1 1 2499 None) None in
  outcome_of (updatePackagePrice 1000 1 1999 None) seeded = Returned r1
  /\ outcome_of (updatePackagePrice 2000 1 2499 None) db1 = Returned r2
  /\ PriceUpdateResult.id (PriceUpdateResult.price r2)
     = PriceUpdateResult.id (PriceUpdateResult.price r1).
Proof.
  intros db1 r1 r2.
  assert (H1 : outcome_of (updatePackagePrice 1000 1 1999 None) seeded
               = Returned r1) by (vm_compute; reflexivity).
  assert (H2 : outcome_of (updatePackagePrice 2000 1 2499 None) db1
               = Returned r2) by (vm_compute; reflexivity).
  split; [exact H1|]. split; [exact H2|].
  exact (proj1 (stable_price_identifier seeded 1000 2000 1 1999 2499
                  None None r1 r2 eq_refl H1 H2)).
Defined.


Lemma no_fallback_to_global_price_witness :
  In (Price.mk 1 1 None 2499 true "SEK") (active_prices priced 1 None)
  /\ active_prices priced 1 (Some 1) = []
  /\ getCurrentPackagePrice 1 (Some 1) priced
     = (Returned
          (CurrentPriceResult.mk false None
             (Some "No active price found for package 1 in municipality 1")),
        priced).
Proof.
  assert (Hg : In (Price.mk 1 1 None 2499 true "SEK")
                  (active_prices priced 1 None))
    by (simpl; left; reflexivity).
  split; [exact Hg|]. split; [reflexivity|].
  assert (Hm : 1 <> 0) by lia.
  exact (no_fallback_to_global_price priced 1 1 basic _ Hm eq_refl Hg eq_refl).
Defined.

Lemma price_history_window_and_order_witness :
  Date_jan1_UTC 2025 = 1735689600000
  /\ Date_jan1_UTC 2026 = 1767225600000
  /\ In (PriceHistory.mk 1 1 None 1999 "SEK" 1735689600000)
        (selected_history priced 1 (Date_jan1_UTC 2025) (Date_jan1_UTC 2026)
                          None)
  /\ ~ In (PriceHistory.mk 5 1 None 2599 "SEK" 1767225600000)
          (selected_history priced 1 (Date_jan1_UTC 2025)
                            (Date_jan1_UTC 2026) None)
  /\ selected_history priced 1 (Date_jan1_UTC 2025) (Date_jan1_UTC 2026) None
     = [PriceHistory.mk 4 1 None 2499 "SEK" 1760000000000;
        PriceHistory.mk 3 1 None 2299 "SEK" 1750000000000;
        PriceHistory.mk 1 1 None 1999 "SEK" 1735689600000].
Proof.
  assert (Hmu : forall m : Z,
             call_key None = Some m ->
             exists mu,
               find (fun x => (Municipality.id x =? m)
                              && Municipality.is_active x)
                    (municipalities priced) = Some mu)
    by (intros m Hm; discriminate Hm).
  destruct (price_history_window_and_order Date_jan1_UTC priced 1 2025 None
              basic eq_refl Hmu)
    as (_ & _ & _ & _ & _ & _ & Hstart & Hend & Horder).
  split; [reflexivity|]. split; [reflexivity|]. split; [|split].
  - apply Hstart; try reflexivity. simpl. left. reflexivity.
  - apply Hend. reflexivity.
  - apply (Horder (PriceHistory.mk 1 1 None 1999 "SEK" 1735689600000)
                  (PriceHistory.mk 3 1 None 2299 "SEK" 1750000000000)
                  (PriceHistory.mk 4 1 None 2499 "SEK" 1760000000000));
      reflexivity.
Defined.


Lemma municipality_zero_is_omitted_witness :
  outcome_of (updatePackagePrice 1000 99999 2999 (Some 0)) seeded
  = Thrown (JS.new_Error "Package with ID 99999 not found or inactive")
  /\ "Package with ID 99999 not found or inactive" <> municipality_not_found 0.
Proof.
  split; [reflexivity|].
  exact (proj1 (proj2 (proj2 (proj2 (proj2
           (municipality_zero_is_omitted Date_jan1_UTC seeded 1000 99999 2999
                                         2024)))))
               (JS.new_Error "Package with ID 99999 not found or inactive")
               eq_refl).
Defined.

Lemma getCurrentPackagePrice_skips_municipality_check_witness :
  find (fun x => (Municipality.id x =? 2) && Municipality.is_active x)
       (municipalities priced) = None
  /\ getCurrentPackagePrice 1 (Some 2) priced
     = (Returned
          (CurrentPriceResult.mk true
             (Some (current_price_of priced basic
                      (Price.mk 2 1 (Some 2) 2999 true "SEK")))
             None),
        priced).
Proof.
  split; [reflexivity|].
  assert (Hm : 2 <> 0) by lia.
  exact (proj1 (proj2 (getCurrentPackagePrice_skips_municipality_check
                         Date_jan1_UTC priced 1 (Some 2) basic eq_refl)
                      2 (Price.mk 2 1 (Some 2) 2999 true "SEK") uppsala
                      eq_refl Hm eq_refl eq_refl eq_refl)).
Defined.

(* ================================================================== *)
(** * Further properties of the service                                *)
(* ================================================================== *)

(* ------------------------------------------------------------------ *)
(** ** Primary keys                                                    *)
(* ------------------------------------------------------------------ *)

Lemma fold_max_ge (ids : list Z) :
  0 <= fold_right Z.max 0 ids /\ Forall (fun id => id <= fold_right Z.max 0 ids) ids.
Proof.
  induction ids as [|i ids [IH0 IH]]; simpl; [split; [lia|constructor]|].
  split; [lia|]. constructor; [lia|].
  eapply Forall_impl; [|exact IH]. simpl. intros a Ha. lia.
Qed.

Lemma next_id_fresh (seq : Z) (ids : list Z) :
  0 < next_id seq ids
  /\ seq < next_id seq ids
  /\ Forall (fun id => id < next_id seq ids) ids.
Proof.
  unfold next_id. destruct (fold_max_ge ids) as [H0 Hall].
  split; [lia|]. split; [lia|].
  eapply Forall_impl; [|exact Hall]. simpl. intros a Ha. lia.
Qed.

Lemma StronglySorted_snoc (l : list Z) (y : Z) :
  StronglySorted Z.lt l -> Forall (fun x => x < y) l ->
  StronglySorted Z.lt (l ++ [y]).
Proof.
  induction 1 as [|x l Hs IH Hx]; intro Hy; simpl.
  - repeat constructor.
  - inversion Hy as [|? ? Hxy Hly]; subst.
    constructor; [now apply IH|].
    apply Forall_app. split; [exact Hx|]. now constructor.
Qed.

Lemma upserted_prices_ids (db : DB) (packageId priceCents : Z)
    (municipalityId : option Z) :
  map Price.id (upserted_prices db packageId priceCents municipalityId)
  = match find (price_where packageId (call_key municipalityId))
               (prices db) with
    | Some _ => price_ids db
    | None =>
        price_ids db ++ [next_id (prices_seq db) (price_ids db)]
    end.
Proof.
  unfold upserted_prices, upserted_price, price_ids.
  destruct (find _ _) as [e|].
  - rewrite map_map. apply map_ext. intro r.
    now destruct (Price.id r =? Price.id e).
  - now rewrite map_app.
Qed.

Lemma committed_primary_keys (db : DB) (now packageId priceCents : Z)
    (municipalityId : option Z) :
  primary_keys_intact db ->
  primary_keys_intact (committed db now packageId priceCents municipalityId).
Proof.
  intros (Hps & Hpr & Hhs & Hhr).
  unfold primary_keys_intact, price_ids, history_ids, committed. simpl.
  rewrite upserted_prices_ids. unfold upserted_seq, appended_history.
  fold (price_ids db). rewrite map_app. simpl. fold (history_ids db).
  destruct (next_id_fresh (prices_seq db) (price_ids db)) as (Hp0 & Hpq & Hpf).
  destruct (next_id_fresh (price_histories_seq db) (history_ids db))
    as (Hh0 & Hhq & Hhf).
  assert (Hhist :
    StronglySorted Z.lt
      (history_ids db ++ [next_id (price_histories_seq db) (history_ids db)])
    /\ Forall (fun id =>
                 0 < id <= next_id (price_histories_seq db) (history_ids db))
              (history_ids db
               ++ [next_id (price_histories_seq db) (history_ids db)])).
  { split; [now apply StronglySorted_snoc|].
    apply Forall_app. split.
    - eapply Forall_impl; [|exact Hhr]. simpl. intros a Ha. lia.
    - constructor; [lia|constructor]. }
  destruct Hhist as [Hh1 Hh2].
  destruct (find (price_where packageId (call_key municipalityId))
                 (prices db)).
  - repeat split; assumption.
  - repeat split; try assumption.
    + now apply StronglySorted_snoc.
    + apply Forall_app. split.
      * eapply Forall_impl; [|exact Hpr]. simpl. intros a Ha. lia.
      * constructor; [lia|constructor].
Qed.

Lemma updatePackagePrice_primary_keys (db : DB) (now packageId priceCents : Z)
    (municipalityId : option Z) :
  primary_keys_intact db ->
  primary_keys_intact
    (db_after (updatePackagePrice now packageId priceCents municipalityId) db).
Proof.
  intro H. unfold db_after. rewrite updatePackagePrice_run.
  destruct (validation_failure db packageId priceCents municipalityId);
    simpl; [exact H|].
  now apply committed_primary_keys.
Qed.

Lemma reachable_primary_keys (db : DB) :
  reachable db -> primary_keys_intact db.
Proof.
  induction 1 as [pkgs muns|db now p c m _ IH|db pkgs muns _ IH].
  - unfold primary_keys_intact, price_ids, history_ids. simpl.
    repeat split; constructor.
  - now apply updatePackagePrice_primary_keys.
  - exact IH.
Qed.

Lemma StronglySorted_lt_NoDup (l : list Z) :
  StronglySorted Z.lt l -> NoDup l.
Proof.
  induction 1 as [|x l Hs IH Hx]; constructor; [|exact IH].
  intro Hin. rewrite Forall_forall in Hx. specialize (Hx x Hin). lia.
Qed.

(* ------------------------------------------------------------------ *)
(** ** When the checks pass                                            *)
(* ------------------------------------------------------------------ *)

Lemma call_key_not_zero (municipalityId : option Z) :
  call_key municipalityId <> Some 0.
Proof.
  rewrite call_key_or_undefined. unfold JS.or_undefined, JS.truthy.
  destruct municipalityId as [n|]; [|discriminate].
  destruct (n =? 0) eqn:E; simpl; [discriminate|].
  apply Z.eqb_neq in E. congruence.
Qed.

Lemma validation_passed (db : DB) (packageId priceCents : Z)
    (municipalityId : option Z) :
  validation_failure db packageId priceCents municipalityId = None
  <-> (exists p,
         find (fun p => (Package.id p =? packageId) && Package.is_active p)
              (packages db) = Some p)
      /\ (forall m, call_key municipalityId = Some m ->
            exists mu,
              find (fun x => (Municipality.id x =? m)
                             && Municipality.is_active x)
                   (municipalities db) = Some mu)
      /\ 0 <= priceCents.
Proof.
  unfold validation_failure. split.
  - destruct (find _ (packages db)) as [p|]; [|discriminate].
    destruct (call_key municipalityId) as [m|].
    + destruct (find _ (municipalities db)) as [mu|] eqn:Hmu; [|discriminate].
      destruct (priceCents <? 0) eqn:Hc; [discriminate|]. intros _.
      apply Z.ltb_ge in Hc. split; [eauto|]. split; [|exact Hc].
      intros m' [= <-]. eauto.
    + destruct (priceCents <? 0) eqn:Hc; [discriminate|]. intros _.
      apply Z.ltb_ge in Hc. split; [eauto|]. split; [|exact Hc].
      discriminate.
  - intros ((p & Hp) & Hmu & Hc). rewrite Hp.
    apply Z.ltb_ge in Hc. rewrite Hc.
    destruct (call_key municipalityId) as [m|]; [|reflexivity].
    destruct (Hmu m eq_refl) as [mu ->]. reflexivity.
Qed.

(* ------------------------------------------------------------------ *)
(** ** The rows the service writes                                     *)
(* ------------------------------------------------------------------ *)

Lemma find_price_where (packageId : Z) (municipalityId : option Z)
    (l : list Price.t) (r : Price.t) :
  find (price_where packageId municipalityId) l = Some r ->
  In r l /\ Price.packageId r = packageId /\ Price.is_active r = true
  /\ Price.municipalityId r = municipalityId.
Proof.
  intro H. apply find_some in H as [Hin H]. unfold price_where in H.
  apply andb_prop in H as [H Hm]. apply andb_prop in H as [Hp Ha].
  apply Z.eqb_eq in Hp. apply column_eqb_eq in Hm. auto.
Qed.

Lemma committed_rows_as_written (db : DB) (now packageId priceCents : Z)
    (municipalityId : option Z) :
  0 <= priceCents ->
  Forall price_as_written (prices db) ->
  Forall history_as_written (price_histories db) ->
  Forall price_as_written
    (prices (committed db now packageId priceCents municipalityId))
  /\ Forall history_as_written
       (price_histories (committed db now packageId priceCents
                                   municipalityId)).
Proof.
  intros Hc Hp Hh. pose proof (call_key_not_zero municipalityId) as Hk.
  unfold committed. simpl. split.
  - unfold upserted_prices, upserted_price.
    destruct (find _ _) as [e|].
    + apply Forall_map. eapply Forall_impl; [|exact Hp].
      intros r (Ha & Hr & Hcur & Hm).
      destruct (Price.id r =? Price.id e); repeat split; auto.
    + apply Forall_app. split; [exact Hp|].
      constructor; [|constructor]. repeat split; auto.
  - apply Forall_app. split; [exact Hh|].
    constructor; [|constructor]. repeat split; auto.
Qed.

Lemma reachable_rows_as_written (db : DB) :
  reachable db ->
  Forall price_as_written (prices db)
  /\ Forall history_as_written (price_histories db).
Proof.
  induction 1 as [pkgs muns|db now p c m _ IH|db pkgs muns _ IH].
  - split; constructor.
  - unfold db_after. rewrite updatePackagePrice_run.
    destruct (validation_failure db p c m) eqn:Hv; simpl; [exact IH|].
    apply validation_passed in Hv as (_ & _ & Hc).
    destruct IH. now apply committed_rows_as_written.
  - exact IH.
Qed.

(* ------------------------------------------------------------------ *)
(** ** Prices and their history                                        *)
(* ------------------------------------------------------------------ *)

Lemma same_id_same_row (l : list Price.t) (a b : Price.t) :
  NoDup (map Price.id l) -> In a l -> In b l -> Price.id a = Price.id b ->
  a = b.
Proof.
  induction l as [|x l IH]; intros Hnd Ha Hb Hid; [contradiction|].
  simpl in Hnd. inversion Hnd as [|? ? Hx Hl]; subst.
  destruct Ha as [->|Ha], Hb as [->|Hb]; auto.
  - elim Hx. rewrite Hid. now apply in_map.
  - elim Hx. rewrite <- Hid. now apply in_map.
Qed.

Lemma same_key_same_row (db : DB) (a b : Price.t) :
  one_active_price_per_key db ->
  In a (prices db) -> In b (prices db) ->
  Price.is_active a = true -> Price.is_active b = true ->
  Price.packageId a = Price.packageId b ->
  Price.municipalityId a = Price.municipalityId b ->
  a = b.
Proof.
  intros Hone Ha Hb Haa Hab Hp Hm.
  specialize (Hone (Price.packageId a) (Price.municipalityId a)).
  unfold active_prices in Hone.
  assert (Hfa : In a (filter (price_where (Price.packageId a)
                                          (Price.municipalityId a))
                             (prices db))).
  { apply filter_In. split; [exact Ha|]. unfold price_where.
    now rewrite Z.eqb_refl, Haa, column_eqb_refl. }
  assert (Hfb : In b (filter (price_where (Price.packageId a)
                                          (Price.municipalityId a))
                             (prices db))).
  { apply filter_In. split; [exact Hb|]. unfold price_where.
    now rewrite Hp, Hm, Z.eqb_refl, Hab, column_eqb_refl. }
  destruct (filter _ (prices db)) as [|x [|y l]];
    [contradiction| |simpl in Hone; lia].
  destruct Hfa as [<-|[]], Hfb as [<-|[]]. reflexivity.
Qed.

Lemma latest_history_committed (db : DB) (now packageId priceCents : Z)
    (municipalityId : option Z) (packageId' : Z) (municipalityId' : option Z) :
  latest_history (committed db now packageId priceCents municipalityId)
                 packageId' municipalityId'
  = if (packageId =? packageId')
       && column_eqb (call_key municipalityId) municipalityId'
    then Some (appended_history db now packageId priceCents municipalityId)
    else latest_history db packageId' municipalityId'.
Proof.
  unfold latest_history, committed. simpl. rewrite rev_app_distr. simpl.
  unfold history_key at 1. simpl. reflexivity.
Qed.

Lemma committed_audit_trail (db : DB) (now packageId priceCents : Z)
    (municipalityId : option Z) :
  one_active_price_per_key db ->
  NoDup (price_ids db) ->
  Forall price_as_written (prices db) ->
  audit_trail_consistent db ->
  audit_trail_consistent
    (committed db now packageId priceCents municipalityId).
Proof.
  intros Hone Hnd Hrows [Hprice Hhist].
  rewrite Forall_forall in Hrows.
  assert (Hother : forall r, In r (prices db) ->
            (Price.packageId r, Price.municipalityId r)
            <> (packageId, call_key municipalityId) ->
            exists h,
              latest_history
                (committed db now packageId priceCents municipalityId)
                (Price.packageId r) (Price.municipalityId r) = Some h
              /\ PriceHistory.priceCents h = Price.priceCents r
              /\ PriceHistory.currency_code h = Price.currency_code r).
  { intros r Hr Hne. rewrite latest_history_committed.
    destruct ((packageId =? Price.packageId r)
              && column_eqb (call_key municipalityId)
                            (Price.municipalityId r)) eqn:Hk.
    - apply andb_prop in Hk as [Hp Hm]. apply Z.eqb_eq in Hp.
      apply column_eqb_eq in Hm. elim Hne. now rewrite <- Hp, <- Hm.
    - now apply Hprice. }
  assert (Hnew : forall r,
            Price.packageId r = packageId ->
            Price.municipalityId r = call_key municipalityId ->
            Price.priceCents r = priceCents ->
            Price.currency_code r = "SEK" ->
            exists h,
              latest_history
                (committed db now packageId priceCents municipalityId)
                (Price.packageId r) (Price.municipalityId r) = Some h
              /\ PriceHistory.priceCents h = Price.priceCents r
              /\ PriceHistory.currency_code h = Price.currency_code r).
  { intros r Hp Hm Hc Hcur. rewrite latest_history_committed, Hp, Hm.
    rewrite Z.eqb_refl, column_eqb_refl. simpl.
    eexists. split; [reflexivity|]. simpl. now rewrite Hc, Hcur. }
  split.
  - intros r' Hin. unfold committed in Hin. simpl in Hin.
    unfold upserted_prices, upserted_price in Hin.
    destruct (find (price_where packageId (call_key municipalityId))
                   (prices db)) as [e|] eqn:He.
    + apply find_price_where in He as (Hein & Hep & Hea & Hem).
      apply in_map_iff in Hin as (r0 & <- & Hr0).
      destruct (Price.id r0 =? Price.id e) eqn:Hid.
      * apply Z.eqb_eq in Hid.
        assert (r0 = e) by now apply (same_id_same_row (prices db)).
        subst r0. now apply Hnew.
      * apply Hother; [exact Hr0|]. intros [= Hp Hm].
        assert (r0 = e).
        { apply (same_key_same_row db); auto; try congruence.
          now apply Hrows. }
        subst r0. now rewrite Z.eqb_refl in Hid.
    + apply in_app_or in Hin as [Hin|[<-|[]]].
      * apply Hother; [exact Hin|]. intros [= Hp Hm].
        pose proof (find_none _ _ He r' Hin) as Hfalse.
        unfold price_where in Hfalse.
        destruct (Hrows r' Hin) as (Ha & _).
        now rewrite Hp, Hm, Z.eqb_refl, Ha, column_eqb_refl in Hfalse.
      * now apply Hnew.
  - intros h Hin. unfold committed in Hin. simpl in Hin.
    assert (Hkept : forall r, In r (prices db) ->
              exists r', In r' (upserted_prices db packageId priceCents
                                                municipalityId)
                         /\ Price.packageId r' = Price.packageId r
                         /\ Price.municipalityId r' = Price.municipalityId r).
    { intros r Hr. unfold upserted_prices.
      destruct (find _ _) as [e|].
      - eexists. split; [apply in_map; exact Hr|].
        now destruct (Price.id r =? Price.id e).
      - exists r. split; [apply in_or_app; now left|auto]. }
    apply in_app_or in Hin as [Hin|[<-|[]]].
    + destruct (Hhist h Hin) as (r & Hr & Hp & Hm).
      destruct (Hkept r Hr) as (r' & Hr' & Hp' & Hm').
      exists r'. simpl. split; [exact Hr'|]. split; congruence.
    + pose proof (find_upserted db packageId priceCents municipalityId) as Hf.
      apply find_price_where in Hf as (Hfin & Hfp & _ & Hfm).
      eexists. split; [exact Hfin|]. simpl. auto.
Qed.

Lemma reachable_audit_trail (db : DB) :
  reachable db -> audit_trail_consistent db.
Proof.
  intro Hreach.
  induction Hreach as [pkgs muns|db now p c m Hreach IH|db pkgs muns _ IH].
  - split; simpl; contradiction.
  - unfold db_after. rewrite updatePackagePrice_run.
    destruct (validation_failure db p c m); simpl; [exact IH|].
    apply committed_audit_trail; [| | |exact IH].
    + now apply reachable_one_active.
    + apply StronglySorted_lt_NoDup.
      exact (proj1 (reachable_primary_keys db Hreach)).
    + exact (proj1 (reachable_rows_as_written db Hreach)).
  - exact IH.
Qed.

Lemma call_key_Some_inv (municipalityId : option Z) (m : Z) :
  call_key municipalityId = Some m <-> municipalityId = Some m /\ m <> 0.
Proof.
  split.
  - rewrite call_key_or_undefined. unfold JS.or_undefined, JS.truthy.
    destruct municipalityId as [n|]; [|discriminate].
    destruct (n =? 0) eqn:E; simpl; [discriminate|].
    intros [= ->]. split; [reflexivity|]. now apply Z.eqb_neq.
  - intros [-> Hm]. now apply call_key_Some.
Qed.

(* ------------------------------------------------------------------ *)
(** ** What holds in every state the service reaches                   *)
(* ------------------------------------------------------------------ *)

(** X1. Primary keys. In every state the service reaches, the
    identifiers of [prices] and of [price_histories] are positive, grow
    along the table (so no two rows share one) and do not exceed the
    table's sequence; the identifier the next insert would take is
    therefore new. *)
Theorem primary_keys_stay_intact (db : DB) (Hreach : reachable db) :
  NoDup (price_ids db)
  /\ NoDup (history_ids db)
  /\ StronglySorted Z.lt (price_ids db)
  /\ StronglySorted Z.lt (history_ids db)
  /\ Forall (fun id => 0 < id <= prices_seq db) (price_ids db)
  /\ Forall (fun id => 0 < id <= price_histories_seq db) (history_ids db)
  /\ ~ In (next_id (prices_seq db) (price_ids db)) (price_ids db)
  /\ ~ In (next_id (price_histories_seq db) (history_ids db))
          (history_ids db).
Proof.
  destruct (reachable_primary_keys db Hreach) as (Hps & Hpr & Hhs & Hhr).
  assert (Hfresh : forall seq ids, ~ In (next_id seq ids) ids).
  { intros seq ids Hin.
    destruct (next_id_fresh seq ids) as (_ & _ & Hall).
    rewrite Forall_forall in Hall. specialize (Hall _ Hin). lia. }
  repeat split; auto using StronglySorted_lt_NoDup.
Qed.

(** X2. The rows as written. In every state the service reaches, every
    row of [prices] is active, has a non-negative amount, the currency
    SEK and a municipality that is [null] or a non-zero identifier; every
    row of [price_histories] has a non-negative amount, the currency SEK
    and such a municipality. *)
Theorem rows_stay_as_written (db : DB) (Hreach : reachable db) :
  (forall r : Price.t,
     In r (prices db) ->
     Price.is_active r = true
     /\ 0 <= Price.priceCents r
     /\ Price.currency_code r = "SEK"
     /\ Price.municipalityId r <> Some 0)
  /\ (forall h : PriceHistory.t,
        In h (price_histories db) ->
        0 <= PriceHistory.priceCents h
        /\ PriceHistory.currency_code h = "SEK"
        /\ PriceHistory.municipalityId h <> Some 0).
Proof.
  destruct (reachable_rows_as_written db Hreach) as [Hp Hh].
  rewrite Forall_forall in Hp, Hh. split; [exact Hp|exact Hh].
Qed.

(** X3. Prices agree with their history. In every state the service
    reaches, each price row carries the amount and currency of the
    history row written last under its key, each history row has a price
    row under its key, and a price that [getCurrentPackagePrice] returns
    has the amount of the latest history row of the key asked for. *)
Theorem prices_agree_with_history (db : DB) (Hreach : reachable db) :
  (forall r : Price.t,
     In r (prices db) ->
     exists h : PriceHistory.t,
       latest_history db (Price.packageId r) (Price.municipalityId r) = Some h
       /\ PriceHistory.priceCents h = Price.priceCents r
       /\ PriceHistory.currency_code h = Price.currency_code r)
  /\ (forall h : PriceHistory.t,
        In h (price_histories db) ->
        exists r : Price.t,
          In r (prices db)
          /\ Price.packageId r = PriceHistory.packageId h
          /\ Price.municipalityId r = PriceHistory.municipalityId h)
  /\ (forall (packageId : Z) (municipalityId : option Z)
             (result : CurrentPriceResult.t)
             (price : CurrentPriceResult.price_t),
        outcome_of (getCurrentPackagePrice packageId municipalityId) db
        = Returned result ->
        CurrentPriceResult.price result = Some price ->
        exists h : PriceHistory.t,
          latest_history db packageId (call_key municipalityId) = Some h
          /\ PriceHistory.priceCents h = CurrentPriceResult.priceCents price).
Proof.
  destruct (reachable_audit_trail db Hreach) as [Hprice Hhist].
  split; [exact Hprice|]. split; [exact Hhist|].
  intros packageId municipalityId result price. unfold outcome_of.
  destruct (find (fun p => (Package.id p =? packageId) && Package.is_active p)
                 (packages db)) as [p|] eqn:Hp.
  - destruct (find (price_where packageId (call_key municipalityId))
                   (prices db)) as [x|] eqn:Hx.
    + rewrite (getCurrentPackagePrice_found _ _ _ p x Hp Hx).
      apply find_price_where in Hx as (Hin & Hxp & _ & Hxm).
      destruct (Hprice x Hin) as (h & Hh & Hc & _).
      rewrite Hxp, Hxm in Hh.
      destruct (JS.or_undefined (Price.municipalityId x));
        [destruct (include_municipality db (Price.municipalityId x))|];
        simpl; intros [= <-]; simpl; intros [= <-]; eauto.
    + rewrite (getCurrentPackagePrice_no_price _ _ _ p Hp Hx).
      simpl. intros [= <-]. discriminate.
  - rewrite (getCurrentPackagePrice_no_package _ _ _ Hp).
    simpl. intros [= <-]. discriminate.
Qed.

(* ------------------------------------------------------------------ *)
(** ** What a call of [updatePackagePrice] leaves alone                *)
(* ------------------------------------------------------------------ *)

(** X4. [updatePackagePrice] only appends. Whatever its arguments and
    outcome, it leaves [packages] and [municipalities] as they are, keeps
    every history row and adds at most one at the end, keeps every price
    row's identifier, key and active flag and adds at most one row at the
    end, and never lowers a sequence; when it throws it adds nothing. *)
Theorem updatePackagePrice_only_appends (db : DB)
    (now packageId priceCents : Z) (municipalityId : option Z) :
  let db' :=
    db_after (updatePackagePrice now packageId priceCents municipalityId) db in
  packages db' = packages db
  /\ municipalities db' = municipalities db
  /\ (exists added : list PriceHistory.t,
        price_histories db' = price_histories db ++ added
        /\ (List.length added <= 1)%nat)
  /\ (exists added : list Price.t,
        map row_identity (prices db')
        = map row_identity (prices db) ++ map row_identity added
        /\ (List.length added <= 1)%nat)
  /\ prices_seq db <= prices_seq db'
  /\ price_histories_seq db <= price_histories_seq db'
  /\ (forall e : JS.Error,
        outcome_of (updatePackagePrice now packageId priceCents
                                       municipalityId) db = Thrown e ->
        db' = db).
Proof.
  intro db'. subst db'. unfold db_after, outcome_of.
  rewrite updatePackagePrice_run.
  destruct (validation_failure db packageId priceCents municipalityId);
    simpl.
  - repeat split; try lia.
    + exists []. rewrite app_nil_r. split; [reflexivity|simpl; lia].
    + exists []. simpl. rewrite app_nil_r. split; [reflexivity|lia].
  - split; [reflexivity|]. split; [reflexivity|].
    split; [eexists; split; [reflexivity|simpl; lia]|].
    destruct (next_id_fresh (prices_seq db) (map Price.id (prices db)))
      as (_ & Hp & _).
    destruct (next_id_fresh (price_histories_seq db)
                            (map PriceHistory.id (price_histories db)))
      as (_ & Hh & _).
    split; [|split; [|split; [lia|discriminate]]].
    + destruct (find (price_where packageId (call_key municipalityId))
                     (prices db)) as [e|] eqn:He.
      * exists []. simpl. rewrite app_nil_r. split; [|lia].
        now apply upserted_prices_identity with e.
      * exists [upserted_price db packageId priceCents municipalityId].
        unfold upserted_prices. rewrite He, map_app. split; [reflexivity|].
        simpl. lia.
    + unfold upserted_seq. destruct (find _ _); lia.
Qed.

(** X5. When [updatePackagePrice] succeeds. It returns exactly when the
    package is active, the municipality, if a non-zero one is named, is
    active, and the amount is not negative; what it throws is an [Error]
    with one of its three messages, so no validation, foreign-key or
    unique-index error of the models ever comes out of it. *)
Theorem updatePackagePrice_succeeds_iff (db : DB)
    (now packageId priceCents : Z) (municipalityId : option Z) :
  ((exists r : PriceUpdateResult.t,
      outcome_of (updatePackagePrice now packageId priceCents municipalityId)
                 db = Returned r)
   <-> (exists p : Package.t,
          find (fun p => (Package.id p =? packageId) && Package.is_active p)
               (packages db) = Some p)
       /\ (forall m : Z,
             municipalityId = Some m -> m <> 0 ->
             exists mu : Municipality.t,
               find (fun x => (Municipality.id x =? m)
                              && Municipality.is_active x)
                    (municipalities db) = Some mu)
       /\ 0 <= priceCents)
  /\ (forall e : JS.Error,
        outcome_of (updatePackagePrice now packageId priceCents
                                       municipalityId) db = Thrown e ->
        JS.name e = "Error"
        /\ (JS.message e = package_not_found packageId
            \/ (exists m : Z,
                  municipalityId = Some m /\ m <> 0
                  /\ JS.message e = municipality_not_found m)
            \/ JS.message e = "Price cannot be negative")).
Proof.
  unfold outcome_of. rewrite updatePackagePrice_run. split.
  - pose proof (validation_passed db packageId priceCents municipalityId)
      as Hv.
    assert (Hm : (forall m, call_key municipalityId = Some m ->
                    exists mu,
                      find (fun x => (Municipality.id x =? m)
                                     && Municipality.is_active x)
                           (municipalities db) = Some mu)
                 <-> (forall m, municipalityId = Some m -> m <> 0 ->
                        exists mu,
                          find (fun x => (Municipality.id x =? m)
                                         && Municipality.is_active x)
                               (municipalities db) = Some mu)).
    { split; intros H m.
      - intros Hs Hne. apply H. now apply call_key_Some_inv.
      - intro Hk. apply call_key_Some_inv in Hk as [Hs Hne]. now apply H. }
    rewrite <- Hm, <- Hv.
    destruct (validation_failure db packageId priceCents municipalityId);
      simpl; split.
    + intros [r Hr]. discriminate.
    + discriminate.
    + reflexivity.
    + eauto.
  - intros e. unfold validation_failure.
    destruct (find _ (packages db)) as [p|].
    + destruct (call_key municipalityId) as [m|] eqn:Hk.
      * apply call_key_Some_inv in Hk as [Hs Hne].
        destruct (find _ (municipalities db)) as [mu|].
        -- destruct (priceCents <? 0); simpl; intros [= <-]; simpl; auto.
        -- simpl. intros [= <-]. simpl. split; [reflexivity|].
           right. left. eauto.
      * destruct (priceCents <? 0); simpl; intros [= <-]; simpl; auto.
    + simpl. intros [= <-]. simpl. auto.
Qed.

(* ------------------------------------------------------------------ *)
(** ** What the reads depend on                                        *)
(* ------------------------------------------------------------------ *)

Lemma municipality_field_depends (db1 db2 : DB) (municipalityId : option Z) :
  municipalities db1 = municipalities db2 ->
  municipality_field db1 municipalityId = municipality_field db2 municipalityId.
Proof.
  intro H. unfold municipality_field, include_municipality. now rewrite H.
Qed.

Lemma getCurrentPackagePrice_depends (packageId : Z)
    (municipalityId : option Z) (db1 db2 : DB) :
  packages db1 = packages db2 ->
  municipalities db1 = municipalities db2 ->
  find (price_where packageId (call_key municipalityId)) (prices db1)
  = find (price_where packageId (call_key municipalityId)) (prices db2) ->
  outcome_of (getCurrentPackagePrice packageId municipalityId) db1
  = outcome_of (getCurrentPackagePrice packageId municipalityId) db2.
Proof.
  intros Hp Hm Hf. unfold outcome_of.
  destruct (find (fun p => (Package.id p =? packageId) && Package.is_active p)
                 (packages db1)) as [p|] eqn:Hp1.
  - assert (Hp2 := Hp1). rewrite Hp in Hp2.
    destruct (find (price_where packageId (call_key municipalityId))
                   (prices db1)) as [r|] eqn:Hr1.
    + assert (Hr2 := eq_sym Hf).
      rewrite (getCurrentPackagePrice_found _ _ _ p r Hp1 Hr1).
      rewrite (getCurrentPackagePrice_found _ _ _ p r Hp2 Hr2).
      unfold current_price_of.
      rewrite (municipality_field_depends db1 db2 _ Hm).
      unfold include_municipality. rewrite Hm.
      destruct (JS.or_undefined (Price.municipalityId r));
        [destruct (match Price.municipalityId r with
                   | Some m => find (fun x => Municipality.id x =? m)
                                    (municipalities db2)
                   | None => None
                   end)|]; reflexivity.
    + assert (Hr2 := eq_sym Hf).
      rewrite (getCurrentPackagePrice_no_price _ _ _ p Hp1 Hr1).
      now rewrite (getCurrentPackagePrice_no_price _ _ _ p Hp2 Hr2).
  - assert (Hp2 := Hp1). rewrite Hp in Hp2.
    rewrite (getCurrentPackagePrice_no_package _ _ _ Hp1).
    now rewrite (getCurrentPackagePrice_no_package _ _ _ Hp2).
Qed.

Lemma history_entry_of_depends (db1 db2 : DB) (h : PriceHistory.t) :
  municipalities db1 = municipalities db2 ->
  history_entry_of db1 h = history_entry_of db2 h.
Proof.
  intro H. unfold history_entry_of.
  now rewrite (municipality_field_depends db1 db2 _ H).
Qed.

Lemma find_app_some {A : Type} (g : A -> bool) (l l' : list A) (x : A) :
  find g l = Some x -> find g (l ++ l') = Some x.
Proof.
  induction l as [|y l IH]; simpl; [discriminate|].
  destruct (g y); [auto|exact IH].
Qed.

Lemma upserted_price_fields (db : DB) (packageId priceCents : Z)
    (municipalityId : option Z) :
  Price.packageId (upserted_price db packageId priceCents municipalityId)
  = packageId
  /\ Price.municipalityId
       (upserted_price db packageId priceCents municipalityId)
     = call_key municipalityId
  /\ Price.priceCents (upserted_price db packageId priceCents municipalityId)
     = priceCents
  /\ Price.currency_code
       (upserted_price db packageId priceCents municipalityId) = "SEK".
Proof.
  unfold upserted_price.
  destruct (find (price_where packageId (call_key municipalityId))
                 (prices db)) as [e|] eqn:He; simpl; [|auto].
  apply find_price_where in He as (_ & Hp & _ & Hm). auto.
Qed.

Lemma or_undefined_call_key (municipalityId : option Z) :
  JS.or_undefined (call_key municipalityId) = call_key municipalityId.
Proof.
  destruct (call_key municipalityId) as [m|] eqn:Hk; [|reflexivity].
  apply call_key_Some_inv in Hk as [_ Hm].
  unfold JS.or_undefined, JS.truthy. apply Z.eqb_neq in Hm. now rewrite Hm.
Qed.

Lemma call_key_idem (municipalityId : option Z) :
  call_key (call_key municipalityId) = call_key municipalityId.
Proof.
  rewrite (call_key_or_undefined (call_key municipalityId)).
  apply or_undefined_call_key.
Qed.

Lemma active_municipality_included (db : DB) (m : Z) (mu : Municipality.t) :
  find (fun x => (Municipality.id x =? m) && Municipality.is_active x)
       (municipalities db) = Some mu ->
  include_municipality db (Some m) <> None.
Proof.
  intros Hfind Hnone. simpl in Hnone. apply find_none_existsb in Hnone.
  erewrite find_some_existsb in Hnone; [discriminate| |exact Hfind].
  intros y Hy. now apply andb_prop in Hy.
Qed.

(* ------------------------------------------------------------------ *)
(** ** Writing, then reading                                           *)
(* ------------------------------------------------------------------ *)

(** X6. Set, then get. After a successful [updatePackagePrice(packageId,
    priceCents, municipalityId)], [getCurrentPackagePrice(packageId,
    municipalityId)] succeeds and returns the identifier the update
    returned, the package and municipality asked for, the amount just
    set, the display amount the update returned (the binary64 number
    nearest to the amount divided by 100 when the amount is at most
    99,999.99) and the currency SEK. *)
Theorem set_then_get (db : DB) (now packageId priceCents : Z)
    (municipalityId : option Z) (r : PriceUpdateResult.t)
    (Hok : outcome_of
             (updatePackagePrice now packageId priceCents municipalityId) db
           = Returned r) :
  let db' :=
    db_after (updatePackagePrice now packageId priceCents municipalityId) db in
  exists price : CurrentPriceResult.price_t,
    getCurrentPackagePrice packageId municipalityId db'
    = (Returned (CurrentPriceResult.mk true (Some price) None), db')
    /\ CurrentPriceResult.id price
       = PriceUpdateResult.id (PriceUpdateResult.price r)
    /\ CurrentPriceResult.packageId price = packageId
    /\ CurrentPriceResult.municipalityId price = call_key municipalityId
    /\ CurrentPriceResult.priceCents price = priceCents
    /\ CurrentPriceResult.priceDisplay price
       = PriceUpdateResult.priceDisplay (PriceUpdateResult.price r)
    /\ CurrentPriceResult.priceDisplay price
       = convertCentsToDisplay priceCents
    /\ (0 <= priceCents < 10000000 ->
        PrimFloat.eqb (CurrentPriceResult.priceDisplay price)
                      (JS.Number priceCents / 100)%float = true)
    /\ CurrentPriceResult.currency_code price = "SEK"
    /\ PackageInfo.id (CurrentPriceResult.package price) = packageId.
Proof.
  intro db'. subst db'.
  apply updatePackagePrice_returned in Hok as (Hv & -> & ->).
  apply validation_passed in Hv as ((p & Hp) & Hmu & _).
  pose proof (find_upserted db packageId priceCents municipalityId) as Hf.
  destruct (upserted_price_fields db packageId priceCents municipalityId)
    as (Hfp & Hfm & Hfc & Hfcur).
  set (db' := committed db now packageId priceCents municipalityId) in *.
  assert (Hp' : find (fun p => (Package.id p =? packageId)
                               && Package.is_active p)
                     (packages db') = Some p) by exact Hp.
  exists (current_price_of db' p
            (upserted_price db packageId priceCents municipalityId)).
  split.
  - rewrite (getCurrentPackagePrice_found _ _ _ p _ Hp' Hf).
    rewrite Hfm, or_undefined_call_key.
    destruct (call_key municipalityId) as [m|] eqn:Hk; [|reflexivity].
    destruct (Hmu m eq_refl) as [mu Hfind].
    pose proof (active_municipality_included db m mu Hfind) as Hinc.
    change (include_municipality db' (Some m))
      with (include_municipality db (Some m)).
    now destruct (include_municipality db (Some m)).
  - unfold current_price_of, price_updated. simpl.
    rewrite Hfp, Hfm, Hfc, Hfcur, or_undefined_call_key.
    split; [auto|]. split; [auto|]. split; [auto|]. split; [auto|].
    split; [reflexivity|]. split; [reflexivity|].
    split; [apply display_is_quotient_below|]. split; [reflexivity|].
    apply find_some in Hp as [_ Hp]. apply andb_prop in Hp as [Hp _].
    now apply Z.eqb_eq.
Qed.

Lemma order_by_createdAt_desc_newest (l : list PriceHistory.t)
    (y : PriceHistory.t) :
  (forall x, In x l -> PriceHistory.createdAt x < PriceHistory.createdAt y) ->
  order_by_createdAt_desc (l ++ [y]) = y :: order_by_createdAt_desc l.
Proof.
  induction l as [|a l IH]; intro Hl; simpl; [reflexivity|].
  rewrite IH by (intros; apply Hl; now right). simpl.
  assert (Ha : (PriceHistory.createdAt y <=? PriceHistory.createdAt a) = false).
  { apply Z.leb_gt. apply Hl. now left. }
  now rewrite Ha.
Qed.

Lemma selected_history_committed (db : DB) (now packageId priceCents : Z)
    (municipalityId : option Z) (packageId' startDate endDate : Z)
    (municipalityId' : option Z) :
  selected_history (committed db now packageId priceCents municipalityId)
                   packageId' startDate endDate municipalityId'
  = order_by_createdAt_desc
      (filter (history_where packageId' startDate endDate
                             (call_key municipalityId'))
              (price_histories db)
       ++ if (packageId =? packageId') && (startDate <=? now)
             && (now <? endDate)
             && column_eqb (call_key municipalityId)
                           (call_key municipalityId')
          then [appended_history db now packageId priceCents municipalityId]
          else []).
Proof.
  unfold selected_history, committed. simpl. rewrite filter_app. simpl.
  unfold history_where at 2. simpl. reflexivity.
Qed.

Section HistoryAfterWrite.

Variable Date_jan1 : Z -> Z.

(** X7. Set, then read the history. After a successful
    [updatePackagePrice] at a time inside the window of [year],
    [getPackagePriceHistory] for that year and key succeeds with one
    entry more than before the update; the entry of the update (its
    amount, key and time) is among them, and it comes first, followed by
    the entries as they were, when every earlier row under the key is
    older than the update. *)
Theorem set_then_history (db : DB) (now packageId priceCents year : Z)
    (municipalityId : option Z) (r : PriceUpdateResult.t)
    (Hok : outcome_of
             (updatePackagePrice now packageId priceCents municipalityId) db
           = Returned r)
    (Hwindow : Date_jan1 year <= now < Date_jan1 (year + 1)) :
  let db' :=
    db_after (updatePackagePrice now packageId priceCents municipalityId) db in
  exists (before after : list PriceHistoryEntry.t)
         (entry : PriceHistoryEntry.t),
    getPackagePriceHistory Date_jan1 packageId year municipalityId db
    = (Returned (PriceHistoryResult.mk true (Some before) None), db)
    /\ getPackagePriceHistory Date_jan1 packageId year municipalityId db'
       = (Returned (PriceHistoryResult.mk true (Some after) None), db')
    /\ PriceHistoryEntry.packageId entry = packageId
    /\ PriceHistoryEntry.municipalityId entry = call_key municipalityId
    /\ PriceHistoryEntry.priceCents entry = priceCents
    /\ PriceHistoryEntry.createdAt entry = now
    /\ PriceHistoryEntry.currency_code entry = "SEK"
    /\ In entry after
    /\ Permutation after (entry :: before)
    /\ ((forall h : PriceHistory.t,
           In h (price_histories db) ->
           PriceHistory.packageId h = packageId ->
           PriceHistory.municipalityId h = call_key municipalityId ->
           PriceHistory.createdAt h < now) ->
        after = entry :: before).
Proof.
  intro db'. subst db'.
  apply updatePackagePrice_returned in Hok as (Hv & _ & ->).
  apply validation_passed in Hv as ((p & Hp) & Hmu & _).
  set (db' := committed db now packageId priceCents municipalityId).
  set (hnew := appended_history db now packageId priceCents municipalityId).
  set (old := filter (history_where packageId (Date_jan1 year)
                                    (Date_jan1 (year + 1))
                                    (call_key municipalityId))
                     (price_histories db)).
  assert (Hsel : selected_history db' packageId (Date_jan1 year)
                   (Date_jan1 (year + 1)) municipalityId
                 = order_by_createdAt_desc (old ++ [hnew])).
  { unfold db'. rewrite selected_history_committed.
    rewrite Z.eqb_refl, column_eqb_refl.
    destruct Hwindow as [H1 H2].
    apply Z.leb_le in H1. apply Z.ltb_lt in H2. now rewrite H1, H2. }
  exists (map (history_entry_of db)
              (selected_history db packageId (Date_jan1 year)
                                (Date_jan1 (year + 1)) municipalityId)),
         (map (history_entry_of db')
              (selected_history db' packageId (Date_jan1 year)
                                (Date_jan1 (year + 1)) municipalityId)),
         (history_entry_of db' hnew).
  assert (Hentries : forall l,
            map (history_entry_of db') l = map (history_entry_of db) l).
  { intro l. apply map_ext. intro h. now apply history_entry_of_depends. }
  assert (Hperm : Permutation (order_by_createdAt_desc (old ++ [hnew]))
                              (hnew :: order_by_createdAt_desc old)).
  { rewrite !order_by_createdAt_desc_perm.
    apply Permutation_sym, Permutation_cons_append. }
  split; [now apply getPackagePriceHistory_success with p|].
  split; [now apply getPackagePriceHistory_success with p|].
  split; [reflexivity|].
  split; [simpl; apply or_undefined_call_key|].
  split; [reflexivity|]. split; [reflexivity|]. split; [reflexivity|].
  rewrite Hsel. split; [|split].
  - apply in_map. eapply Permutation_in; [symmetry; exact Hperm|now left].
  - rewrite <- (Hentries (selected_history db _ _ _ _)).
    change (history_entry_of db' hnew
            :: map (history_entry_of db')
                   (selected_history db packageId (Date_jan1 year)
                                     (Date_jan1 (year + 1)) municipalityId))
      with (map (history_entry_of db')
                (hnew :: order_by_createdAt_desc old)).
    now apply Permutation_map.
  - intro Holder. rewrite order_by_createdAt_desc_newest.
    + simpl; f_equal; apply Hentries.
    + intros x Hx. apply filter_In in Hx as [Hin Hw].
      unfold history_where in Hw. rewrite !andb_true_iff in Hw.
      destruct Hw as [[[Hwp _] _] Hwm].
      apply Z.eqb_eq in Hwp. apply column_eqb_eq in Hwm.
      now apply Holder.
Qed.

End HistoryAfterWrite.

(* ------------------------------------------------------------------ *)
(** ** One key at a time                                               *)
(* ------------------------------------------------------------------ *)

Lemma find_upserted_other (db : DB) (packageId priceCents : Z)
    (municipalityId : option Z) (packageId' : Z) (municipalityId' : option Z) :
  NoDup (price_ids db) ->
  (packageId', municipalityId') <> (packageId, call_key municipalityId) ->
  find (price_where packageId' municipalityId')
       (upserted_prices db packageId priceCents municipalityId)
  = find (price_where packageId' municipalityId') (prices db).
Proof.
  intros Hnd Hne. unfold upserted_prices.
  destruct (find (price_where packageId (call_key municipalityId))
                 (prices db)) as [e|] eqn:He.
  - rewrite find_map_invariant by (intro; apply price_where_amount).
    destruct (find (price_where packageId' municipalityId') (prices db))
      as [x|] eqn:Hx; [|reflexivity].
    simpl. f_equal.
    destruct (Price.id x =? Price.id e) eqn:Hid; [|reflexivity].
    apply Z.eqb_eq in Hid.
    apply find_price_where in He as (Hein & Hep & _ & Hem).
    apply find_price_where in Hx as (Hxin & Hxp & _ & Hxm).
    assert (x = e) by now apply (same_id_same_row (prices db)).
    subst x. elim Hne. congruence.
  - destruct (find (price_where packageId' municipalityId') (prices db))
      as [x|] eqn:Hx.
    + now apply find_app_some.
    + rewrite (find_app_none _ _ _ Hx). unfold upserted_price. rewrite He.
      unfold price_where. simpl.
      destruct ((packageId =? packageId') && true
                && column_eqb (call_key municipalityId) municipalityId')
        eqn:Hk; [|reflexivity].
      rewrite andb_true_r in Hk. apply andb_prop in Hk as [Hp Hm].
      apply Z.eqb_eq in Hp. apply column_eqb_eq in Hm.
      elim Hne. congruence.
Qed.

Section OtherKeys.

Variable Date_jan1 : Z -> Z.

Lemma getPackagePriceHistory_depends (packageId year : Z)
    (municipalityId : option Z) (db1 db2 : DB) :
  packages db1 = packages db2 ->
  municipalities db1 = municipalities db2 ->
  selected_history db1 packageId (Date_jan1 year) (Date_jan1 (year + 1))
                   municipalityId
  = selected_history db2 packageId (Date_jan1 year) (Date_jan1 (year + 1))
                     municipalityId ->
  outcome_of (getPackagePriceHistory Date_jan1 packageId year municipalityId)
             db1
  = outcome_of (getPackagePriceHistory Date_jan1 packageId year municipalityId)
               db2.
Proof.
  intros Hp Hm Hs. unfold outcome_of.
  destruct (find (fun p => (Package.id p =? packageId) && Package.is_active p)
                 (packages db1)) as [p|] eqn:Hp1.
  - assert (Hp2 := Hp1). rewrite Hp in Hp2.
    destruct (call_key municipalityId) as [m|] eqn:Hk.
    + destruct (find (fun x => (Municipality.id x =? m)
                               && Municipality.is_active x)
                     (municipalities db1)) as [mu|] eqn:Hm1.
      * assert (Hm2 := Hm1). rewrite Hm in Hm2.
        rewrite (getPackagePriceHistory_success _ _ _ _ db1 p Hp1)
          by (intros m' Hm'; rewrite Hk in Hm'; injection Hm' as <-; eauto).
        rewrite (getPackagePriceHistory_success _ _ _ _ db2 p Hp2)
          by (intros m' Hm'; rewrite Hk in Hm'; injection Hm' as <-; eauto).
        simpl. rewrite Hs. do 3 f_equal. apply map_ext. intro h.
        now apply history_entry_of_depends.
      * assert (Hm2 := Hm1). rewrite Hm in Hm2.
        rewrite (getPackagePriceHistory_no_municipality
                   _ _ _ _ db1 p m Hp1 Hk Hm1).
        now rewrite (getPackagePriceHistory_no_municipality
                       _ _ _ _ db2 p m Hp2 Hk Hm2).
    + rewrite (getPackagePriceHistory_success _ _ _ _ db1 p Hp1)
        by (intros m' Hm'; rewrite Hk in Hm'; discriminate).
      rewrite (getPackagePriceHistory_success _ _ _ _ db2 p Hp2)
        by (intros m' Hm'; rewrite Hk in Hm'; discriminate).
      simpl. rewrite Hs. do 3 f_equal. apply map_ext. intro h.
      now apply history_entry_of_depends.
  - assert (Hp2 := Hp1). rewrite Hp in Hp2.
    rewrite (getPackagePriceHistory_no_package _ _ _ _ db1 Hp1).
    now rewrite (getPackagePriceHistory_no_package _ _ _ _ db2 Hp2).
Qed.

(** X8. Other keys are left alone. In a table whose price identifiers
    are pairwise distinct, a call of [updatePackagePrice] for one key,
    whatever its outcome, changes neither what [getCurrentPackagePrice]
    returns for any other key nor what [getPackagePriceHistory] returns
    for any other key and any year. *)
Theorem other_keys_unaffected (db : DB) (now packageId priceCents : Z)
    (municipalityId : option Z) (packageId' year : Z)
    (municipalityId' : option Z)
    (Hids : NoDup (price_ids db))
    (Hother : (packageId', call_key municipalityId')
              <> (packageId, call_key municipalityId)) :
  let db' :=
    db_after (updatePackagePrice now packageId priceCents municipalityId) db in
  outcome_of (getCurrentPackagePrice packageId' municipalityId') db'
  = outcome_of (getCurrentPackagePrice packageId' municipalityId') db
  /\ outcome_of (getPackagePriceHistory Date_jan1 packageId' year
                                        municipalityId') db'
     = outcome_of (getPackagePriceHistory Date_jan1 packageId' year
                                          municipalityId') db.
Proof.
  intro db'. subst db'. unfold db_after. rewrite updatePackagePrice_run.
  destruct (validation_failure db packageId priceCents municipalityId);
    simpl; [split; reflexivity|].
  split.
  - apply getCurrentPackagePrice_depends; try reflexivity.
    simpl. now apply find_upserted_other.
  - apply getPackagePriceHistory_depends; try reflexivity.
    rewrite selected_history_committed.
    destruct ((packageId =? packageId') && (Date_jan1 year <=? now)
              && (now <? Date_jan1 (year + 1))
              && column_eqb (call_key municipalityId)
                            (call_key municipalityId')) eqn:Hk.
    + rewrite !andb_true_iff in Hk. destruct Hk as [[[Hp _] _] Hm].
      apply Z.eqb_eq in Hp. apply column_eqb_eq in Hm.
      elim Hother. congruence.
    + now rewrite app_nil_r.
Qed.

(** X9. The windows of two years do not overlap. When the window of
    [year1] ends no later than the window of [year2] begins, every entry
    [getPackagePriceHistory] returns for [year1] is older than every
    entry it returns for [year2], so no row is reported under both
    years. *)
Theorem histories_of_two_years_are_disjoint (db : DB)
    (packageId year1 year2 : Z) (municipalityId : option Z)
    (result1 result2 : PriceHistoryResult.t)
    (history1 history2 : list PriceHistoryEntry.t)
    (Hyears : Date_jan1 (year1 + 1) <= Date_jan1 year2)
    (H1 : outcome_of (getPackagePriceHistory Date_jan1 packageId year1
                                             municipalityId) db
          = Returned result1)
    (H2 : outcome_of (getPackagePriceHistory Date_jan1 packageId year2
                                             municipalityId) db
          = Returned result2)
    (Hh1 : PriceHistoryResult.history result1 = Some history1)
    (Hh2 : PriceHistoryResult.history result2 = Some history2) :
  forall e1 e2 : PriceHistoryEntry.t,
    In e1 history1 -> In e2 history2 ->
    PriceHistoryEntry.createdAt e1 < PriceHistoryEntry.createdAt e2
    /\ e1 <> e2.
Proof.
  assert (Hshape : forall year result history,
            outcome_of (getPackagePriceHistory Date_jan1 packageId year
                                               municipalityId) db
            = Returned result ->
            PriceHistoryResult.history result = Some history ->
            forall e, In e history ->
              Date_jan1 year <= PriceHistoryEntry.createdAt e
              < Date_jan1 (year + 1)).
  { intros year result history. unfold outcome_of.
    destruct (find (fun p => (Package.id p =? packageId)
                             && Package.is_active p)
                   (packages db)) as [p|] eqn:Hp.
    - destruct (call_key municipalityId) as [m|] eqn:Hk.
      + destruct (find (fun x => (Municipality.id x =? m)
                                 && Municipality.is_active x)
                       (municipalities db)) as [mu|] eqn:Hm.
        * rewrite (getPackagePriceHistory_success _ _ _ _ db p Hp)
            by (intros m' Hm'; rewrite Hk in Hm'; injection Hm' as <-; eauto).
          simpl. intros [= <-]. simpl. intros [= <-] e He.
          apply in_map_iff in He as (h & <- & Hh).
          apply selected_history_In in Hh as (_ & _ & _ & Hw). exact Hw.
        * rewrite (getPackagePriceHistory_no_municipality
                     _ _ _ _ db p m Hp Hk Hm).
          simpl. intros [= <-]. discriminate.
      + rewrite (getPackagePriceHistory_success _ _ _ _ db p Hp)
          by (intros m' Hm'; rewrite Hk in Hm'; discriminate).
        simpl. intros [= <-]. simpl. intros [= <-] e He.
        apply in_map_iff in He as (h & <- & Hh).
        apply selected_history_In in Hh as (_ & _ & _ & Hw). exact Hw.
    - rewrite (getPackagePriceHistory_no_package _ _ _ _ db Hp).
      simpl. intros [= <-]. discriminate. }
  intros e1 e2 He1 He2.
  pose proof (Hshape year1 result1 history1 H1 Hh1 e1 He1) as Hw1.
  pose proof (Hshape year2 result2 history2 H2 Hh2 e2 He2) as Hw2.
  split; [lia|]. intros ->. lia.
Qed.

End OtherKeys.

(* ------------------------------------------------------------------ *)
(** ** What a successful lookup returns                                *)
(* ------------------------------------------------------------------ *)

(** X10. The price returned is the one asked for. Whenever
    [getCurrentPackagePrice(packageId, municipalityId)] returns a price,
    the result has [success: true] and no error; the price is that of an
    active row of [prices] under exactly the package and municipality
    asked for ([null] when none or 0 is given), with that row's
    identifier and amount; the package details are those of an active
    package with the identifier asked for; and the municipality details
    are present exactly when a municipality was asked for, with its
    identifier. *)
Theorem getCurrentPackagePrice_answers_the_key_asked (db : DB)
    (packageId : Z) (municipalityId : option Z)
    (result : CurrentPriceResult.t) (price : CurrentPriceResult.price_t)
    (Hreturned : outcome_of (getCurrentPackagePrice packageId municipalityId)
                            db = Returned result)
    (Hprice : CurrentPriceResult.price result = Some price) :
  CurrentPriceResult.success result = true
  /\ CurrentPriceResult.error result = None
  /\ CurrentPriceResult.packageId price = packageId
  /\ CurrentPriceResult.municipalityId price = call_key municipalityId
  /\ (exists row : Price.t,
        In row (prices db)
        /\ Price.is_active row = true
        /\ Price.packageId row = packageId
        /\ Price.municipalityId row = call_key municipalityId
        /\ Price.id row = CurrentPriceResult.id price
        /\ Price.priceCents row = CurrentPriceResult.priceCents price
        /\ Price.currency_code row = CurrentPriceResult.currency_code price)
  /\ (exists p : Package.t,
        In p (packages db)
        /\ Package.is_active p = true
        /\ Package.id p = packageId
        /\ CurrentPriceResult.package price
           = PackageInfo.mk packageId (Package.name p)
                            (Package.package_code p))
  /\ (call_key municipalityId = None ->
      CurrentPriceResult.municipality price = None)
  /\ (forall m : Z,
        call_key municipalityId = Some m ->
        exists mu : Municipality.t,
          In mu (municipalities db)
          /\ Municipality.id mu = m
          /\ CurrentPriceResult.municipality price
             = Some (municipality_info mu)).
Proof.
  revert Hreturned. unfold outcome_of.
  destruct (find (fun p => (Package.id p =? packageId) && Package.is_active p)
                 (packages db)) as [p|] eqn:Hp.
  - destruct (find (price_where packageId (call_key municipalityId))
                   (prices db)) as [x|] eqn:Hx.
    + rewrite (getCurrentPackagePrice_found _ _ _ p x Hp Hx).
      apply find_price_where in Hx as (Hin & Hxp & Hxa & Hxm).
      apply find_some in Hp as [Hpin Hp]. apply andb_prop in Hp as [Hpid Hpa].
      apply Z.eqb_eq in Hpid.
      assert (Hsuccess :
        Returned (CurrentPriceResult.mk true
                    (Some (current_price_of db p x)) None)
        = Returned result ->
        (JS.or_undefined (Price.municipalityId x) = None
         \/ include_municipality db (Price.municipalityId x) <> None) ->
        CurrentPriceResult.success result = true
        /\ CurrentPriceResult.error result = None
        /\ CurrentPriceResult.packageId price = packageId
        /\ CurrentPriceResult.municipalityId price = call_key municipalityId
        /\ (exists row : Price.t,
              In row (prices db)
              /\ Price.is_active row = true
              /\ Price.packageId row = packageId
              /\ Price.municipalityId row = call_key municipalityId
              /\ Price.id row = CurrentPriceResult.id price
              /\ Price.priceCents row = CurrentPriceResult.priceCents price
              /\ Price.currency_code row
                 = CurrentPriceResult.currency_code price)
        /\ (exists p : Package.t,
              In p (packages db)
              /\ Package.is_active p = true
              /\ Package.id p = packageId
              /\ CurrentPriceResult.package price
                 = PackageInfo.mk packageId (Package.name p)
                                  (Package.package_code p))
        /\ (call_key municipalityId = None ->
            CurrentPriceResult.municipality price = None)
        /\ (forall m : Z,
              call_key municipalityId = Some m ->
              exists mu : Municipality.t,
                In mu (municipalities db)
                /\ Municipality.id mu = m
                /\ CurrentPriceResult.municipality price
                   = Some (municipality_info mu))).
      { intros [= <-] Hinc. simpl in Hprice. injection Hprice as <-.
        unfold current_price_of. simpl.
        rewrite Hxm, or_undefined_call_key in *.
        split; [reflexivity|]. split; [reflexivity|].
        split; [exact Hxp|]. split; [reflexivity|].
        split; [exists x; repeat split; auto|].
        split; [exists p; repeat split; auto; now rewrite Hpid|].
        unfold municipality_field. rewrite if_number_call_key.
        rewrite call_key_idem.
        split; [now intros ->|].
        intros m Hm. rewrite Hm in *.
        destruct Hinc as [Hinc|Hinc]; [discriminate|].
        destruct (include_municipality db (Some m)) as [mu|] eqn:Hmu;
          [|now elim Hinc].
        simpl in Hmu. apply find_some in Hmu as [Hmuin Hmuid].
        apply Z.eqb_eq in Hmuid. exists mu. auto. }
      destruct (JS.or_undefined (Price.municipalityId x)) as [m|] eqn:Hm.
      * destruct (include_municipality db (Price.municipalityId x))
          as [mu|] eqn:Hmu.
        -- intro H. apply Hsuccess; [exact H|]. right. discriminate.
        -- intros [= <-]. discriminate.
      * intro H. apply Hsuccess; [|now left].
        now destruct (include_municipality db (Price.municipalityId x)).
    + rewrite (getCurrentPackagePrice_no_price _ _ _ p Hp Hx).
      simpl. intros [= <-]. discriminate.
  - rewrite (getCurrentPackagePrice_no_package _ _ _ Hp).
    simpl. intros [= <-]. discriminate.
Qed.

(** X11. Setting the amount a key already has. In a table whose price
    identifiers are pairwise distinct, a successful [updatePackagePrice]
    with the amount the key's active row already holds (in SEK) leaves
    [prices] exactly as it was, and still appends its row to
    [price_histories]. *)
Theorem repeating_the_current_amount (db : DB) (now packageId priceCents : Z)
    (municipalityId : option Z) (r : PriceUpdateResult.t) (e : Price.t)
    (Hids : NoDup (price_ids db))
    (Hok : outcome_of
             (updatePackagePrice now packageId priceCents municipalityId) db
           = Returned r)
    (Hrow : find (price_where packageId (call_key municipalityId)) (prices db)
            = Some e)
    (Hamount : Price.priceCents e = priceCents)
    (Hcurrency : Price.currency_code e = "SEK") :
  let db' :=
    db_after (updatePackagePrice now packageId priceCents municipalityId) db in
  prices db' = prices db
  /\ prices_seq db' = prices_seq db
  /\ price_histories db'
     = price_histories db
       ++ [PriceHistory.mk
             (next_id (price_histories_seq db) (history_ids db))
             packageId (call_key municipalityId) priceCents "SEK" now].
Proof.
  intro db'. subst db'.
  apply updatePackagePrice_returned in Hok as (_ & _ & ->).
  unfold committed. simpl. unfold upserted_prices, upserted_seq.
  rewrite Hrow. split; [|split; reflexivity].
  apply find_price_where in Hrow as (Hein & _).
  rewrite <- (map_id (prices db)) at 2. apply map_ext_in. intros x Hx.
  destruct (Price.id x =? Price.id e) eqn:Hid; [|reflexivity].
  apply Z.eqb_eq in Hid.
  assert (x = e) by now apply (same_id_same_row (prices db)).
  subst x. rewrite <- Hamount, <- Hcurrency. now destruct e.
Qed.

(* ------------------------------------------------------------------ *)
(** ** The further properties on the example catalogue                 *)
(* ------------------------------------------------------------------ *)

Lemma reachable_two_prices : reachable two_prices.
Proof.
  unfold two_prices, one_price.
  apply reachable_setPrice, reachable_setPrice, reachable_init.
Qed.

Lemma primary_keys_stay_intact_witness :
  reachable two_prices
  /\ price_ids two_prices = [1; 2]
  /\ NoDup (price_ids two_prices).
Proof.
  split; [exact reachable_two_prices|]. split; [reflexivity|].
  exact (proj1 (primary_keys_stay_intact two_prices reachable_two_prices)).
Defined.

Lemma rows_stay_as_written_witness :
  reachable two_prices
  /\ In (Price.mk 2 1 (Some 1) 2999 true "SEK") (prices two_prices)
  /\ Price.currency_code (Price.mk 2 1 (Some 1) 2999 true "SEK") = "SEK".
Proof.
  assert (Hin : In (Price.mk 2 1 (Some 1) 2999 true "SEK")
                   (prices two_prices))
    by (simpl; right; left; reflexivity).
  split; [exact reachable_two_prices|]. split; [exact Hin|].
  exact (proj1 (proj2 (proj2
           (proj1 (rows_stay_as_written two_prices reachable_two_prices)
                  _ Hin)))).
Defined.

Lemma prices_agree_with_history_witness :
  reachable two_prices
  /\ exists h : PriceHistory.t,
       latest_history two_prices 1 (Some 1) = Some h
       /\ PriceHistory.priceCents h = 2999
       /\ PriceHistory.currency_code h = "SEK".
Proof.
  assert (Hin : In (Price.mk 2 1 (Some 1) 2999 true "SEK")
                   (prices two_prices))
    by (simpl; right; left; reflexivity).
  split; [exact reachable_two_prices|].
  exact (proj1 (prices_agree_with_history two_prices reachable_two_prices)
               _ Hin).
Defined.

Lemma set_then_get_witness :
  outcome_of (updatePackagePrice 2000 1 2999 (Some 1)) one_price
  = Returned (price_updated (upserted_price one_price 1 2999 (Some 1))
                            (named_municipality one_price (Some 1)))
  /\ exists price : CurrentPriceResult.price_t,
       getCurrentPackagePrice 1 (Some 1) two_prices
       = (Returned (CurrentPriceResult.mk true (Some price) None), two_prices)
       /\ CurrentPriceResult.priceCents price = 2999.
Proof.
  assert (Hok : outcome_of (updatePackagePrice 2000 1 2999 (Some 1)) one_price
                = Returned (price_updated
                              (upserted_price one_price 1 2999 (Some 1))
                              (named_municipality one_price (Some 1))))
    by (vm_compute; reflexivity).
  split; [exact Hok|].
  destruct (set_then_get one_price 2000 1 2999 (Some 1) _ Hok)
    as (price & Hget & _ & _ & _ & Hcents & _).
  exists price. split; [exact Hget|exact Hcents].
Defined.

Lemma set_then_history_witness :
  Date_jan1_UTC 1970 <= 2000 < Date_jan1_UTC (1970 + 1)
  /\ exists (after : list PriceHistoryEntry.t) (entry : PriceHistoryEntry.t),
       getPackagePriceHistory Date_jan1_UTC 1 1970 None
         (db_after (updatePackagePrice 2000 1 2499 None) one_price)
       = (Returned (PriceHistoryResult.mk true (Some after) None),
          db_after (updatePackagePrice 2000 1 2499 None) one_price)
       /\ PriceHistoryEntry.priceCents entry = 2499
       /\ List.length after = 2%nat
       /\ hd_error after = Some entry.
Proof.
  assert (Hwindow : Date_jan1_UTC 1970 <= 2000 < Date_jan1_UTC (1970 + 1))
    by (vm_compute; split; [discriminate|reflexivity]).
  assert (Hok : outcome_of (updatePackagePrice 2000 1 2499 None) one_price
                = Returned (price_updated
                              (upserted_price one_price 1 2499 None)
                              (named_municipality one_price None)))
    by (vm_compute; reflexivity).
  split; [exact Hwindow|].
  destruct (set_then_history Date_jan1_UTC one_price 2000 1 2499 1970 None
              _ Hok Hwindow)
    as (before & after & entry & Hbefore & Hafter & _ & _ & Hcents & _ & _
        & _ & _ & Hfirst).
  assert (Holder : forall h : PriceHistory.t,
             In h (price_histories one_price) ->
             PriceHistory.packageId h = 1 ->
             PriceHistory.municipalityId h = call_key None ->
             PriceHistory.createdAt h < 2000).
  { intros h [<-|[]] _ _. reflexivity. }
  specialize (Hfirst Holder).
  assert (Hlen : List.length before = 1%nat).
  { injection Hbefore as <-. reflexivity. }
  exists after, entry. split; [exact Hafter|]. split; [exact Hcents|].
  rewrite Hfirst. simpl. rewrite Hlen. split; reflexivity.
Defined.

Lemma updatePackagePrice_succeeds_iff_witness :
  exists r : PriceUpdateResult.t,
    outcome_of (updatePackagePrice 1000 1 0 (Some 1)) seeded = Returned r.
Proof.
  apply (proj1 (updatePackagePrice_succeeds_iff seeded 1000 1 0 (Some 1))).
  split; [exists basic; reflexivity|]. split; [|lia].
  intros m [= <-] _. exists stockholm. reflexivity.
Defined.

Lemma updatePackagePrice_only_appends_witness :
  outcome_of (updatePackagePrice 3000 1 (-5) None) two_prices
  = Thrown (JS.new_Error "Price cannot be negative")
  /\ db_after (updatePackagePrice 3000 1 (-5) None) two_prices = two_prices.
Proof.
  assert (Hthrown :
    outcome_of (updatePackagePrice 3000 1 (-5) None) two_prices
    = Thrown (JS.new_Error "Price cannot be negative")) by reflexivity.
  split; [exact Hthrown|].
  exact (proj2 (proj2 (proj2 (proj2 (proj2 (proj2
           (updatePackagePrice_only_appends two_prices 3000 1 (-5) None))))))
               _ Hthrown).
Defined.

Lemma other_keys_unaffected_witness :
  NoDup (price_ids two_prices)
  /\ outcome_of (getCurrentPackagePrice 1 None)
                (db_after (updatePackagePrice 3000 1 3499 (Some 1)) two_prices)
     = outcome_of (getCurrentPackagePrice 1 None) two_prices.
Proof.
  assert (Hids : NoDup (price_ids two_prices)).
  { change (NoDup [1; 2]).
    constructor; [simpl; intros [H|[]]; discriminate|].
    constructor; [intros []|constructor]. }
  assert (Hother : (1, call_key None) <> (1, call_key (Some 1)))
    by discriminate.
  split; [exact Hids|].
  exact (proj1 (other_keys_unaffected Date_jan1_UTC two_prices 3000 1 3499
                  (Some 1) 1 1970 None Hids Hother)).
Defined.

Lemma histories_of_two_years_are_disjoint_witness :
  Date_jan1_UTC (2025 + 1) <= Date_jan1_UTC 2026
  /\ forall e1 e2 : PriceHistoryEntry.t,
       In e1 (map (history_entry_of priced)
                  (selected_history priced 1 (Date_jan1_UTC 2025)
                                    (Date_jan1_UTC (2025 + 1)) None)) ->
       In e2 (map (history_entry_of priced)
                  (selected_history priced 1 (Date_jan1_UTC 2026)
                                    (Date_jan1_UTC (2026 + 1)) None)) ->
       PriceHistoryEntry.createdAt e1 < PriceHistoryEntry.createdAt e2
       /\ e1 <> e2.
Proof.
  assert (Hyears : Date_jan1_UTC (2025 + 1) <= Date_jan1_UTC 2026)
    by (vm_compute; discriminate).
  split; [exact Hyears|].
  exact (histories_of_two_years_are_disjoint Date_jan1_UTC priced 1 2025 2026
           None _ _ _ _ Hyears eq_refl eq_refl eq_refl eq_refl).
Defined.

Lemma getCurrentPackagePrice_answers_the_key_asked_witness :
  exists mu : Municipality.t,
    In mu (municipalities two_prices)
    /\ Municipality.id mu = 1
    /\ CurrentPriceResult.municipality
         (current_price_of two_prices basic
                           (Price.mk 2 1 (Some 1) 2999 true "SEK"))
       = Some (municipality_info mu).
Proof.
  exact (proj2 (proj2 (proj2 (proj2 (proj2 (proj2 (proj2
           (getCurrentPackagePrice_answers_the_key_asked two_prices 1 (Some 1)
              (CurrentPriceResult.mk true
                 (Some (current_price_of two_prices basic
                          (Price.mk 2 1 (Some 1) 2999 true "SEK")))
                 None)
              _ eq_refl eq_refl)))))))
               1 eq_refl).
Defined.

Lemma repeating_the_current_amount_witness :
  NoDup (price_ids two_prices)
  /\ prices (db_after (updatePackagePrice 3000 1 2999 (Some 1)) two_prices)
     = prices two_prices.
Proof.
  assert (Hids : NoDup (price_ids two_prices)).
  { change (NoDup [1; 2]).
    constructor; [simpl; intros [H|[]]; discriminate|].
    constructor; [intros []|constructor]. }
  assert (Hok : outcome_of (updatePackagePrice 3000 1 2999 (Some 1))
                           two_prices
                = Returned (price_updated
                              (upserted_price two_prices 1 2999 (Some 1))
                              (named_municipality two_prices (Some 1))))
    by (vm_compute; reflexivity).
  split; [exact Hids|].
  exact (proj1 (repeating_the_current_amount two_prices 3000 1 2999 (Some 1)
                  _ (Price.mk 2 1 (Some 1) 2999 true "SEK")
                  Hids Hok eq_refl eq_refl eq_refl)).
Defined.

(* ------------------------------------------------------------------ *)
(** ** The display amount determines the amount                        *)
(* ------------------------------------------------------------------ *)

(** Every amount from 0 up to 9,999.99, evaluated. *)
Lemma cents_recovered_checked :
  holds_in_chunks
    (fun i => cents_recovered_number (PrimFloat.of_uint63 i) i)
    1 (Z.to_nat 1000000) = true.
Proof. vm_cast_no_check (eq_refl true). Qed.

Lemma cents_recovered_below (priceCents : Z) :
  0 <= priceCents < 1000000 ->
  PrimFloat.eqb (cents_of_display (convertCentsToDisplay priceCents))
                (JS.Number priceCents) = true
  /\ integer_value (cents_of_display (convertCentsToDisplay priceCents))
     = priceCents.
Proof.
  intro Hrange.
  assert (Hwb : 1000000 <= wB) by (vm_compute; discriminate).
  assert (H : cents_recovered_number
                (PrimFloat.of_uint63 (Uint63.of_Z priceCents))
                (Uint63.of_Z priceCents) = true).
  { apply (holds_in_chunks_spec
             (fun i => cents_recovered_number (PrimFloat.of_uint63 i) i)
             1 (Z.to_nat 1000000));
      [exact cents_recovered_checked| |]; rewrite Z2Nat.id; lia. }
  unfold cents_recovered_number in H. apply andb_prop in H as [H1 H2].
  unfold convertCentsToDisplay. rewrite Number_of_uint63 by lia.
  split; [exact H1|].
  apply Uint63.eqb_spec in H2. unfold integer_value. rewrite H2.
  rewrite Uint63.add_spec, Uint63.of_Z_spec.
  change (Uint63.to_Z 4503599627370496) with 4503599627370496.
  change wB with 9223372036854775808 in *.
  rewrite (Z.mod_small priceCents) by lia.
  rewrite Z.mod_small by lia. lia.
Qed.

(** X12. The display amount loses nothing, up to 9,999.99. For every
    amount from 0 up to 9,999.99, [Math.round(display * 100)] is the
    amount in cents, as a number and as the integer it holds, so two such
    amounts with the same display amount are the same amount.  This does
    not hold of every amount: 3518439844247134 and 3518439844247135 cents
    have the same display amount. *)
Theorem display_amount_determines_cents (a b : Z)
    (Ha : 0 <= a < 1000000) (Hb : 0 <= b < 1000000) :
  PrimFloat.eqb (cents_of_display (convertCentsToDisplay a)) (JS.Number a)
  = true
  /\ integer_value (cents_of_display (convertCentsToDisplay a)) = a
  /\ (convertCentsToDisplay a = convertCentsToDisplay b -> a = b)
  /\ convertCentsToDisplay 3518439844247134
     = convertCentsToDisplay 3518439844247135.
Proof.
  split; [apply (cents_recovered_below a Ha)|].
  split; [apply (cents_recovered_below a Ha)|]. split.
  - intro Heq.
    rewrite <- (proj2 (cents_recovered_below a Ha)),
            <- (proj2 (cents_recovered_below b Hb)).
    now rewrite Heq.
  - vm_compute. reflexivity.
Qed.

Lemma display_amount_determines_cents_witness :
  0 <= 123456 < 1000000
  /\ 0 <= 654321 < 1000000
  /\ integer_value (cents_of_display (convertCentsToDisplay 123456)) = 123456
  /\ (convertCentsToDisplay 123456 = convertCentsToDisplay 654321 ->
      123456 = 654321).
Proof.
  assert (Ha : 0 <= 123456 < 1000000) by lia.
  assert (Hb : 0 <= 654321 < 1000000) by lia.
  split; [exact Ha|]. split; [exact Hb|].
  destruct (display_amount_determines_cents 123456 654321 Ha Hb)
    as (_ & Hinteger & Hsame & _).
  split; [exact Hinteger|exact Hsame].
Defined.

(* ------------------------------------------------------------------ *)
(** ** Latest written, first returned                                  *)
(* ------------------------------------------------------------------ *)

Lemma order_by_createdAt_desc_rev (l : list PriceHistory.t) :
  written_at_growing_times l -> order_by_createdAt_desc l = rev l.
Proof.
  unfold written_at_growing_times.
  induction l as [|y l IH] using rev_ind; intro Hs; [reflexivity|].
  rewrite rev_app_distr. simpl.
  assert (Hl : StronglySorted
                 (fun a b => PriceHistory.createdAt a
                             < PriceHistory.createdAt b) l
               /\ forall x, In x l ->
                    PriceHistory.createdAt x < PriceHistory.createdAt y).
  { clear IH. induction l as [|a l IHl]; simpl in *.
    - split; [constructor|contradiction].
    - inversion Hs as [|? ? Hs' Ha]; subst.
      destruct (IHl Hs') as [Hsl Hly]. split.
      + constructor; [exact Hsl|].
        apply Forall_app in Ha. exact (proj1 Ha).
      + intros x [<-|Hx]; [|now apply Hly].
        apply Forall_app in Ha. destruct Ha as [_ Ha].
        now inversion Ha. }
  destruct Hl as [Hsl Hly].
  rewrite order_by_createdAt_desc_newest by exact Hly.
  now rewrite IH.
Qed.

Lemma filter_written_at_growing_times (f : PriceHistory.t -> bool)
    (l : list PriceHistory.t) :
  written_at_growing_times l -> written_at_growing_times (filter f l).
Proof.
  unfold written_at_growing_times.
  induction 1 as [|a l Hs IH Ha]; simpl; [constructor|].
  destruct (f a); [|exact IH].
  constructor; [exact IH|].
  rewrite Forall_forall in *. intros x Hx. apply Ha.
  apply filter_In in Hx. exact (proj1 Hx).
Qed.

Section LatestFirst.

Variable Date_jan1 : Z -> Z.

(** X13. Latest written, first returned. When the rows of
    [price_histories] were written at strictly growing times, a
    successful [getPackagePriceHistory] returns the entries of the rows
    under its key and in its window in the reverse of the order in which
    they were written. *)
Theorem history_is_reverse_insertion_order (db : DB) (packageId year : Z)
    (municipalityId : option Z) (result : PriceHistoryResult.t)
    (history : list PriceHistoryEntry.t)
    (Hclock : written_at_growing_times (price_histories db))
    (Hreturned : outcome_of (getPackagePriceHistory Date_jan1 packageId year
                                                    municipalityId) db
                 = Returned result)
    (Hhistory : PriceHistoryResult.history result = Some history) :
  history
  = rev (map (history_entry_of db)
             (filter (history_where packageId (Date_jan1 year)
                                    (Date_jan1 (year + 1))
                                    (call_key municipalityId))
                     (price_histories db))).
Proof.
  assert (Hsel : selected_history db packageId (Date_jan1 year)
                   (Date_jan1 (year + 1)) municipalityId
                 = rev (filter (history_where packageId (Date_jan1 year)
                                              (Date_jan1 (year + 1))
                                              (call_key municipalityId))
                               (price_histories db))).
  { unfold selected_history. apply order_by_createdAt_desc_rev.
    now apply filter_written_at_growing_times. }
  revert Hreturned. unfold outcome_of.
  destruct (find (fun p => (Package.id p =? packageId) && Package.is_active p)
                 (packages db)) as [p|] eqn:Hp.
  - destruct (call_key municipalityId) as [m|] eqn:Hk.
    + destruct (find (fun x => (Municipality.id x =? m)
                               && Municipality.is_active x)
                     (municipalities db)) as [mu|] eqn:Hm.
      * rewrite (getPackagePriceHistory_success _ _ _ _ db p Hp)
          by (intros m' Hm'; rewrite Hk in Hm'; injection Hm' as <-; eauto).
        intros [= <-]. simpl in Hhistory. injection Hhistory as <-.
        rewrite Hsel. apply map_rev.
      * rewrite (getPackagePriceHistory_no_municipality
                   _ _ _ _ db p m Hp Hk Hm).
        intros [= <-]. discriminate.
    + rewrite (getPackagePriceHistory_success _ _ _ _ db p Hp)
        by (intros m' Hm'; rewrite Hk in Hm'; discriminate).
      intros [= <-]. simpl in Hhistory. injection Hhistory as <-.
      rewrite Hsel. apply map_rev.
  - rewrite (getPackagePriceHistory_no_package _ _ _ _ db Hp).
    intros [= <-]. discriminate.
Qed.

End LatestFirst.

Lemma history_is_reverse_insertion_order_witness :
  written_at_growing_times (price_histories priced)
  /\ map PriceHistoryEntry.priceCents
         (rev (map (history_entry_of priced)
                   (filter (history_where 1 (Date_jan1_UTC 2025)
                                          (Date_jan1_UTC (2025 + 1))
                                          (call_key None))
                           (price_histories priced))))
     = [2499; 2299; 1999]
  /\ exists history : list PriceHistoryEntry.t,
       outcome_of (getPackagePriceHistory Date_jan1_UTC 1 2025 None) priced
       = Returned (PriceHistoryResult.mk true (Some history) None)
       /\ map PriceHistoryEntry.priceCents history = [2499; 2299; 1999].
Proof.
  assert (Hclock : written_at_growing_times (price_histories priced)).
  { unfold written_at_growing_times. simpl.
    repeat (constructor; try reflexivity). }
  assert (Hmu : forall m : Z,
             call_key None = Some m ->
             exists mu,
               find (fun x => (Municipality.id x =? m)
                              && Municipality.is_active x)
                    (municipalities priced) = Some mu)
    by (intros m Hm; discriminate Hm).
  assert (Hreturned :
            outcome_of (getPackagePriceHistory Date_jan1_UTC 1 2025 None)
                       priced
            = Returned
                (PriceHistoryResult.mk true
                   (Some (map (history_entry_of priced)
                              (selected_history priced 1 (Date_jan1_UTC 2025)
                                 (Date_jan1_UTC (2025 + 1)) None)))
                   None)).
  { unfold outcome_of.
    now rewrite (getPackagePriceHistory_success Date_jan1_UTC 1 2025 None
                   priced basic eq_refl Hmu). }
  pose proof (history_is_reverse_insertion_order Date_jan1_UTC priced 1 2025
                None _ _ Hclock Hreturned eq_refl) as Horder.
  split; [exact Hclock|]. split; [reflexivity|].
  eexists. split; [exact Hreturned|].
  rewrite Horder. reflexivity.
Defined.

(* ------------------------------------------------------------------ *)
(** ** The responses of the controller                                 *)
(* ------------------------------------------------------------------ *)

Lemma prefix_app (s t : string) : String.prefix s (s ++ t)%string = true.
Proof.
  induction s as [|c s IH]; simpl; [now destruct t|].
  destruct (Ascii.ascii_dec c c) as [_|Hne]; [exact IH|now elim Hne].
Qed.

Lemma includes_app_r (s1 s2 sub : string) :
  includes s2 sub = true -> includes (s1 ++ s2)%string sub = true.
Proof.
  intro H. induction s1 as [|c s1 IH]; simpl; [exact H|].
  rewrite IH. apply orb_true_r.
Qed.

Lemma package_not_found_includes (packageId : Z) :
  includes (package_not_found packageId) "not found" = true.
Proof.
  unfold package_not_found. apply includes_app_r, includes_app_r.
  reflexivity.
Qed.

Lemma municipality_not_found_includes (municipalityId : Z) :
  includes (municipality_not_found municipalityId) "not found" = true.
Proof.
  unfold municipality_not_found. apply includes_app_r, includes_app_r.
  reflexivity.
Qed.

Lemma updatePrice_run (now packageId price_cents : Z)
    (municipality_id : option Z) (db : DB) :
  updatePrice now packageId price_cents municipality_id db
  = match validation_failure db packageId price_cents municipality_id with
    | Some msg =>
        (Returned
           (if includes msg "not found" || includes msg "inactive"
            then Response.mk 404 (Failure msg)
            else Response.mk 500
                   (Failure
                      "Internal server error occurred while updating price")),
         db)
    | None =>
        (Returned
           (Response.mk 200
              (PriceUpdated "Price updated successfully"
                 (PriceUpdateResult.price
                    (price_updated
                       (upserted_price db packageId price_cents
                                       municipality_id)
                       (named_municipality db municipality_id))))),
         committed db now packageId price_cents municipality_id)
    end.
Proof.
  unfold updatePrice, try_catch.
  rewrite (bind_run (updatePackagePrice _ _ _ _)), updatePackagePrice_run.
  destruct (validation_failure db packageId price_cents municipality_id)
    as [msg|]; [|reflexivity].
  cbv beta iota. unfold JS.new_Error. cbv beta iota zeta. cbn [JS.message].
  destruct (includes msg "not found" || includes msg "inactive");
    reflexivity.
Qed.

(** X14. The answers of [PUT /:packageId/price]. For the integers read off
    the request, [updatePrice] always answers: with 200, the message
    "Price updated successfully" and the price just set when the package
    is active, the municipality (if a non-zero one is given) is active
    and the amount is not negative; with 404 and the service's message
    when the package, or else the municipality, is missing or inactive;
    and with 500 and a fixed text that does not say why when only the
    amount is negative. Unless it answers 200 the database is as it
    was. *)
Theorem updatePrice_answers (db : DB) (now packageId price_cents : Z)
    (municipality_id : option Z) :
  exists response : Response.t,
    outcome_of (updatePrice now packageId price_cents municipality_id) db
    = Returned response
    /\ (find (fun p => (Package.id p =? packageId) && Package.is_active p)
             (packages db) = None ->
        response = Response.mk 404 (Failure (package_not_found packageId)))
    /\ (forall (p : Package.t) (m : Z),
          find (fun p => (Package.id p =? packageId) && Package.is_active p)
               (packages db) = Some p ->
          municipality_id = Some m -> m <> 0 ->
          find (fun x => (Municipality.id x =? m) && Municipality.is_active x)
               (municipalities db) = None ->
          response = Response.mk 404 (Failure (municipality_not_found m)))
    /\ (Response.status response = 500 ->
        price_cents < 0
        /\ response
           = Response.mk 500
               (Failure "Internal server error occurred while updating price"))
    /\ (Response.status response = 200 <->
        (exists p : Package.t,
           find (fun p => (Package.id p =? packageId) && Package.is_active p)
                (packages db) = Some p)
        /\ (forall m : Z,
              municipality_id = Some m -> m <> 0 ->
              exists mu : Municipality.t,
                find (fun x => (Municipality.id x =? m)
                               && Municipality.is_active x)
                     (municipalities db) = Some mu)
        /\ 0 <= price_cents)
    /\ (Response.status response = 200 ->
        exists price : PriceUpdateResult.price_t,
          Response.body response
          = PriceUpdated "Price updated successfully" price
          /\ PriceUpdateResult.packageId price = packageId
          /\ PriceUpdateResult.municipalityId price = call_key municipality_id
          /\ PriceUpdateResult.priceCents price = price_cents)
    /\ (Response.status response = 200
        \/ Response.status response = 404
        \/ Response.status response = 500)
    /\ (Response.status response <> 200 ->
        db_after (updatePrice now packageId price_cents municipality_id) db
        = db).
Proof.
  unfold outcome_of, db_after. rewrite updatePrice_run.
  pose proof (validation_passed db packageId price_cents municipality_id)
    as Hv.
  assert (Hm : (forall m, call_key municipality_id = Some m ->
                  exists mu,
                    find (fun x => (Municipality.id x =? m)
                                   && Municipality.is_active x)
                         (municipalities db) = Some mu)
               <-> (forall m, municipality_id = Some m -> m <> 0 ->
                      exists mu,
                        find (fun x => (Municipality.id x =? m)
                                       && Municipality.is_active x)
                             (municipalities db) = Some mu)).
  { split; intros H m.
    - intros Hs Hne. apply H. now apply call_key_Some_inv.
    - intro Hk. apply call_key_Some_inv in Hk as [Hs Hne]. now apply H. }
  rewrite Hm in Hv. clear Hm.
  destruct (validation_failure db packageId price_cents municipality_id)
    as [msg|] eqn:Hfail.
  - assert (Hnot : ~ ((exists p : Package.t,
                         find (fun p => (Package.id p =? packageId)
                                        && Package.is_active p)
                              (packages db) = Some p)
                      /\ (forall m : Z,
                            municipality_id = Some m -> m <> 0 ->
                            exists mu : Municipality.t,
                              find (fun x => (Municipality.id x =? m)
                                             && Municipality.is_active x)
                                   (municipalities db) = Some mu)
                      /\ 0 <= price_cents)).
    { intro H. apply Hv in H. discriminate. }
    clear Hv. unfold validation_failure in Hfail.
    eexists. split; [reflexivity|]. simpl snd.
    destruct (find (fun p => (Package.id p =? packageId)
                             && Package.is_active p) (packages db))
      as [p|] eqn:Hp.
    + destruct (call_key municipality_id) as [m|] eqn:Hk.
      * apply call_key_Some_inv in Hk as [-> Hne].
        destruct (find (fun x => (Municipality.id x =? m)
                                 && Municipality.is_active x)
                       (municipalities db)) as [mu|] eqn:Hmu.
        -- destruct (price_cents <? 0) eqn:Hc; [|discriminate].
           injection Hfail as <-. apply Z.ltb_lt in Hc. simpl.
           split; [discriminate|].
           split; [intros p' m' _ [= <-] _ Hnone; congruence|].
           split; [auto|].
           split; [split; [discriminate|intro H; now elim Hnot]|].
           split; [discriminate|]. split; [auto|reflexivity].
        -- injection Hfail as <-.
           rewrite municipality_not_found_includes. simpl.
           split; [discriminate|].
           split; [intros p' m' _ [= <-] _ _; reflexivity|].
           split; [discriminate|].
           split; [split; [discriminate|intro H; now elim Hnot]|].
           split; [discriminate|]. split; [auto|reflexivity].
      * destruct (price_cents <? 0) eqn:Hc; [|discriminate].
        injection Hfail as <-. apply Z.ltb_lt in Hc. simpl.
        split; [discriminate|].
        split.
        { intros p' m' _ Hs Hne. subst municipality_id.
          rewrite (call_key_Some _ Hne) in Hk. discriminate. }
        split; [auto|].
        split; [split; [discriminate|intro H; now elim Hnot]|].
        split; [discriminate|]. split; [auto|reflexivity].
    + injection Hfail as <-.
      rewrite package_not_found_includes. simpl.
      split; [reflexivity|].
      split; [discriminate|].
      split; [discriminate|].
      split; [split; [discriminate|intro H; now elim Hnot]|].
      split; [discriminate|]. split; [auto|reflexivity].
  - assert (Hyes : (exists p : Package.t,
                      find (fun p => (Package.id p =? packageId)
                                     && Package.is_active p)
                           (packages db) = Some p)
                   /\ (forall m : Z,
                         municipality_id = Some m -> m <> 0 ->
                         exists mu : Municipality.t,
                           find (fun x => (Municipality.id x =? m)
                                          && Municipality.is_active x)
                                (municipalities db) = Some mu)
                   /\ 0 <= price_cents) by now apply Hv.
    clear Hv. eexists. split; [reflexivity|]. simpl.
    destruct Hyes as ((p & Hp) & Hmu & Hc).
    destruct (upserted_price_fields db packageId price_cents municipality_id)
      as (Hfp & Hfm & Hfc & _).
    split; [rewrite Hp; discriminate|].
    split.
    { intros p' m' _ Hs Hne Hnone.
      destruct (Hmu m' Hs Hne) as [mu Hfound]. congruence. }
    split; [discriminate|].
    split; [split; [intros _; eauto|reflexivity]|].
    split.
    { intros _. eexists. split; [reflexivity|]. simpl.
      rewrite Hfp, Hfm, Hfc, or_undefined_call_key. auto. }
    split; [auto|]. intro H. now elim H.
Qed.

Lemma updatePrice_answers_witness :
  exists response : Response.t,
    outcome_of (updatePrice 1000 1 1999 None) seeded = Returned response
    /\ Response.status response = 200
    /\ exists price : PriceUpdateResult.price_t,
         Response.body response
         = PriceUpdated "Price updated successfully" price
         /\ PriceUpdateResult.priceCents price = 1999.
Proof.
  destruct (updatePrice_answers seeded 1000 1 1999 None)
    as (response & Hret & _ & _ & _ & Hiff & Hbody & _).
  assert (Hstatus : Response.status response = 200).
  { apply Hiff. split; [exists basic; reflexivity|].
    split; [intros m Hm; discriminate Hm|lia]. }
  exists response. split; [exact Hret|]. split; [exact Hstatus|].
  destruct (Hbody Hstatus) as (price & Hprice & _ & _ & Hcents).
  exists price. split; [exact Hprice|exact Hcents].
Defined.

(** X15. The handler of [GET /api/packages/:packageId/price] never
    answers 500 and never changes the database.  It answers 404 with the
    service's own message when the package is missing or inactive, and
    when the package has no active price under the key asked for; it
    answers 200 with the price the service built when that price exists
    and the municipality of its row can be joined.  A 200 is only ever
    sent in that last case, and the fallback text "Price not found" of
    the 404 branch is never what a 404 carries unless the service's
    message is that text. *)
Theorem getCurrentPrice_answers (db : DB) (packageId : Z)
    (municipality_id : option Z) :
  exists response : Response.t,
    getCurrentPrice packageId municipality_id db = (Returned response, db)
    /\ (Response.status response = 200 \/ Response.status response = 404)
    /\ (find (fun p => (Package.id p =? packageId) && Package.is_active p)
             (packages db) = None ->
        response = Response.mk 404 (Failure (package_not_found packageId)))
    /\ (forall p : Package.t,
          find (fun p => (Package.id p =? packageId) && Package.is_active p)
               (packages db) = Some p ->
          find (price_where packageId (call_key municipality_id))
               (prices db) = None ->
          response
          = Response.mk 404
              (Failure (no_active_price packageId municipality_id)))
    /\ (forall (p : Package.t) (r : Price.t),
          find (fun p => (Package.id p =? packageId) && Package.is_active p)
               (packages db) = Some p ->
          find (price_where packageId (call_key municipality_id))
               (prices db) = Some r ->
          (forall m, JS.or_undefined (Price.municipalityId r) = Some m ->
                     include_municipality db (Price.municipalityId r)
                     <> None) ->
          response
          = Response.mk 200 (CurrentPrice (current_price_of db p r)))
    /\ (Response.status response = 200 ->
        exists (p : Package.t) (r : Price.t),
          find (fun p => (Package.id p =? packageId) && Package.is_active p)
               (packages db) = Some p
          /\ find (price_where packageId (call_key municipality_id))
                  (prices db) = Some r
          /\ Response.body response = CurrentPrice (current_price_of db p r))
    /\ (Response.status response = 404 ->
        exists (result : CurrentPriceResult.t) (msg : string),
          outcome_of (getCurrentPackagePrice packageId municipality_id) db
          = Returned result
          /\ CurrentPriceResult.error result = Some msg
          /\ msg <> ""
          /\ Response.body response = Failure msg).
Proof.
  unfold getCurrentPrice, try_catch, outcome_of.
  rewrite (bind_run (getCurrentPackagePrice _ _)).
  destruct (find (fun p => (Package.id p =? packageId) && Package.is_active p)
                 (packages db)) as [p|] eqn:Hp.
  - destruct (find (price_where packageId (call_key municipality_id))
                   (prices db)) as [r|] eqn:Hr.
    + rewrite (getCurrentPackagePrice_found _ _ _ _ _ Hp Hr).
      destruct (JS.or_undefined (Price.municipalityId r)) as [m|] eqn:Hor.
      * destruct (include_municipality db (Price.municipalityId r))
          as [mu|] eqn:Hinc.
        -- eexists. split; [reflexivity|]. simpl.
           split; [auto|]. split; [discriminate|].
           split; [discriminate|].
           split; [intros p' r' [= <-] [= <-] _; reflexivity|].
           split; [intros _; eauto|]. discriminate.
        -- eexists. split; [reflexivity|]. simpl.
           split; [auto|]. split; [discriminate|].
           split; [discriminate|].
           split.
           { intros p' r' _ [= <-] H. now elim (H m). }
           split; [discriminate|].
           intros _. eexists. eexists. split; [reflexivity|]. simpl.
           split; [reflexivity|]. split; [discriminate|reflexivity].
      * eexists. split; [reflexivity|]. simpl.
        split; [auto|]. split; [discriminate|].
        split; [discriminate|].
        split; [intros p' r' [= <-] [= <-] _; reflexivity|].
        split; [intros _; eauto|]. discriminate.
    + rewrite (getCurrentPackagePrice_no_price _ _ _ _ Hp Hr).
      eexists. split; [reflexivity|]. simpl.
      split; [auto|]. split; [discriminate|].
      split; [intros p' _ _; reflexivity|].
      split; [discriminate|]. split; [discriminate|].
      intros _. eexists. eexists. split; [reflexivity|]. simpl.
      split; [reflexivity|]. split; [|reflexivity].
      unfold no_active_price. simpl. discriminate.
  - rewrite (getCurrentPackagePrice_no_package _ _ _ Hp).
    eexists. split; [reflexivity|]. simpl.
    split; [auto|]. split; [reflexivity|].
    split; [discriminate|]. split; [discriminate|].
    split; [discriminate|].
    intros _. eexists. eexists. split; [reflexivity|]. simpl.
    split; [reflexivity|]. split; [discriminate|reflexivity].
Qed.

Lemma getCurrentPrice_answers_witness :
  getCurrentPrice 1 (Some 1) two_prices
  = (Returned
       (Response.mk 200
          (CurrentPrice
             (current_price_of two_prices basic
                               (Price.mk 2 1 (Some 1) 2999 true "SEK")))),
     two_prices).
Proof.
  destruct (getCurrentPrice_answers two_prices 1 (Some 1))
    as (response & Hret & _ & _ & _ & Hfound & _).
  rewrite Hret. f_equal. f_equal.
  apply (Hfound basic (Price.mk 2 1 (Some 1) 2999 true "SEK"));
    try reflexivity.
  intros m _. vm_compute. discriminate.
Defined.

(** X16. The handler of [GET /api/packages/:packageId/price-history]
    never answers 500 and never changes the database.  The municipality
    it serves is the integer parsed from the query parameter
    [municipalityId], and only when the parameter [municipality_id] is
    truthy.  It answers 404 with the service's message when the package,
    or a municipality other than 0 that is served, is missing or
    inactive, and 200 in every other case, also when no row was
    selected: the body carries the selected rows newest first and their
    number as [count].  A request that carries [municipality_id] alone
    therefore gets the history of the prices without municipality,
    whatever municipality it names. *)
Theorem getPriceHistory_answers (Date_jan1 : Z -> Z) (db : DB)
    (packageId year : Z) (municipality_id : option string)
    (municipalityId : JS.parsed) :
  exists response : Response.t,
    getPriceHistory Date_jan1 packageId year municipality_id municipalityId
                    db
    = (Returned response, db)
    /\ (Response.status response = 200 \/ Response.status response = 404)
    /\ (find (fun p => (Package.id p =? packageId) && Package.is_active p)
             (packages db) = None ->
        response = Response.mk 404 (Failure (package_not_found packageId)))
    /\ (forall (p : Package.t) (m : Z),
          find (fun p => (Package.id p =? packageId) && Package.is_active p)
               (packages db) = Some p ->
          query_truthy municipality_id = true ->
          municipalityId = JS.Int m -> m <> 0 ->
          find (fun x => (Municipality.id x =? m) && Municipality.is_active x)
               (municipalities db) = None ->
          response = Response.mk 404 (Failure (municipality_not_found m)))
    /\ (Response.status response = 200 <->
        (exists p : Package.t,
           find (fun p => (Package.id p =? packageId) && Package.is_active p)
                (packages db) = Some p)
        /\ (forall m : Z,
              query_truthy municipality_id = true ->
              municipalityId = JS.Int m -> m <> 0 ->
              exists mu : Municipality.t,
                find (fun x => (Municipality.id x =? m)
                               && Municipality.is_active x)
                     (municipalities db) = Some mu))
    /\ (Response.status response = 200 ->
        let sent :=
          if query_truthy municipality_id then Some municipalityId
          else None in
        let rows :=
          selected_history db packageId (Date_jan1 year)
                           (Date_jan1 (year + 1))
                           (number_or_undefined sent) in
        Response.body response
        = PriceHistoryData packageId year sent
            (map (history_entry_of db) rows) (Z.of_nat (List.length rows)))
    /\ (forall p : Package.t,
          find (fun p => (Package.id p =? packageId) && Package.is_active p)
               (packages db) = Some p ->
          municipalityId = JS.NaN ->
          let rows :=
            selected_history db packageId (Date_jan1 year)
                             (Date_jan1 (year + 1)) None in
          response
          = Response.mk 200
              (PriceHistoryData packageId year
                 (if query_truthy municipality_id then Some JS.NaN else None)
                 (map (history_entry_of db) rows)
                 (Z.of_nat (List.length rows)))).
Proof.
  unfold getPriceHistory, try_catch. cbv zeta.
  set (sent := if query_truthy municipality_id then Some municipalityId
               else None).
  assert (Hsent : forall m, call_key (number_or_undefined sent) = Some m <->
                    query_truthy municipality_id = true
                    /\ municipalityId = JS.Int m /\ m <> 0).
  { intro m. unfold sent. split.
    - intro Hk. apply call_key_Some_inv in Hk as [Hs Hne].
      destruct (query_truthy municipality_id); [|discriminate].
      destruct municipalityId as [|n]; [discriminate|].
      simpl in Hs. injection Hs as ->. auto.
    - intros (-> & -> & Hne). simpl. now apply call_key_Some. }
  assert (Hnan : municipalityId = JS.NaN -> number_or_undefined sent = None).
  { intros ->. unfold sent. now destruct (query_truthy municipality_id). }
  rewrite (bind_run (getPackagePriceHistory _ _ _ _)).
  destruct (find (fun p => (Package.id p =? packageId) && Package.is_active p)
                 (packages db)) as [p|] eqn:Hp.
  - destruct (call_key (number_or_undefined sent)) as [m|] eqn:Hk.
    + destruct (proj1 (Hsent m) eq_refl) as (Hgiven & Hparsed & Hne).
      destruct (find (fun x => (Municipality.id x =? m)
                               && Municipality.is_active x)
                     (municipalities db)) as [mu|] eqn:Hmu.
      * rewrite (getPackagePriceHistory_success Date_jan1 _ _ _ _ _ Hp).
        2:{ intros m' Hm'. rewrite Hk in Hm'. injection Hm' as <-. eauto. }
        eexists. split; [reflexivity|]. cbv beta iota.
        cbn [PriceHistoryResult.success PriceHistoryResult.history
             Response.status Response.body].
        split; [auto|]. split; [discriminate|].
        split.
        { intros p' m' _ _ Hm' _ Hnone. rewrite Hparsed in Hm'.
          injection Hm' as <-. congruence. }
        split.
        { split; [intros _|reflexivity]. split; [eauto|].
          intros m' _ Hm' _. rewrite Hparsed in Hm'.
          injection Hm' as <-. eauto. }
        split; [intros _; now rewrite length_map|].
        intros p' _ Hm'. rewrite Hparsed in Hm'. discriminate.
      * rewrite (getPackagePriceHistory_no_municipality
                   Date_jan1 _ _ _ _ _ _ Hp Hk Hmu).
        eexists. split; [reflexivity|]. simpl.
        split; [auto|]. split; [discriminate|].
        split.
        { intros p' m' _ _ Hm' _ _. rewrite Hparsed in Hm'.
          now injection Hm' as <-. }
        split.
        { split; [discriminate|].
          intros (_ & H). destruct (H m Hgiven Hparsed Hne) as [mu Hfound].
          congruence. }
        split; [discriminate|].
        intros p' _ Hm'. rewrite Hparsed in Hm'. discriminate.
    + rewrite (getPackagePriceHistory_success Date_jan1 _ _ _ _ _ Hp).
      2:{ intros m' Hm'. rewrite Hk in Hm'. discriminate. }
      eexists. split; [reflexivity|]. cbv beta iota.
      cbn [PriceHistoryResult.success PriceHistoryResult.history
           Response.status Response.body].
      split; [auto|]. split; [discriminate|].
      split.
      { intros p' m' _ Hgiven Hparsed Hne.
        pose proof (proj2 (Hsent m') (conj Hgiven (conj Hparsed Hne)))
          as Hk'.
        discriminate Hk'. }
      split.
      { split; [intros _|reflexivity]. split; [eauto|].
        intros m' Hgiven Hparsed Hne.
        pose proof (proj2 (Hsent m') (conj Hgiven (conj Hparsed Hne)))
          as Hk'.
        discriminate Hk'. }
      split; [intros _; now rewrite length_map|].
      intros p' _ Hm'. rewrite length_map.
      unfold selected_history. rewrite (Hnan Hm').
      unfold sent. subst municipalityId. reflexivity.
  - rewrite (getPackagePriceHistory_no_package Date_jan1 _ _ _ _ Hp).
    eexists. split; [reflexivity|]. simpl.
    split; [auto|]. split; [reflexivity|].
    split; [discriminate|].
    split.
    { split; [discriminate|]. intros ((p & Hp') & _). discriminate. }
    split; discriminate.
Qed.

Lemma getPriceHistory_answers_witness :
  exists history : list PriceHistoryEntry.t,
    getPriceHistory Date_jan1_UTC 1 2025 (Some "2") JS.NaN priced
    = (Returned
         (Response.mk 200 (PriceHistoryData 1 2025 (Some JS.NaN) history 3)),
       priced)
    /\ map PriceHistoryEntry.priceCents history = [2499; 2299; 1999].
Proof.
  destruct (getPriceHistory_answers Date_jan1_UTC priced 1 2025 (Some "2")
                                    JS.NaN)
    as (response & Hret & _ & _ & _ & _ & _ & Hnan).
  eexists. rewrite Hret. rewrite (Hnan basic eq_refl eq_refl).
  split; reflexivity.
Defined.
